(** * devops-openfoam: the plot generator and the report generator

    A shallow embedding of [scripts/generate-plots.py] and
    [scripts/generate-report.py].  Python values that the scripts handle are
    modelled as they are at run time: [int] as [Z], [float] as the kernel's
    binary64 [float], [str] as [string], exceptions as values of [exn] carried
    by the [result] type.  The file system is a finite map from path strings to
    nodes, the standard output a list of printed lines, and both are threaded
    explicitly through every function that touches them. *)

From Stdlib Require Import ZArith String Ascii List Bool Lia DecimalString
  DecimalN DecimalPos.
From Stdlib Require Import Floats.
From stdpp Require Import base option list gmap strings.

Set Warnings "-inexact-float".

Local Open Scope string_scope.
Local Open Scope Z_scope.

(** ** Python exceptions and fallible computations *)

Module Py.

Inductive exn_type :=
  | ValueError | TypeError | OverflowError | ZeroDivisionError
  | OSError | FileNotFoundError | FileExistsError | IsADirectoryError
  | NotADirectoryError
  | ParserError | EmptyDataError | OtherException.

(** The classes above derive from [Exception], so [except Exception] catches
    them; [SystemExit], raised by [sys.exit], does not derive from it. *)
Inductive exn :=
  | Exn (kind : exn_type) (msg : string)
  | SystemExit (code : Z).

Inductive result (A : Type) :=
  | Ok (a : A)
  | Raise (e : exn).
Arguments Ok {A} a.
Arguments Raise {A} e.

Definition bind {A B} (c : result A) (k : A -> result B) : result B :=
  match c with
  | Ok a => k a
  | Raise e => Raise e
  end.

Definition raises {A} (c : result A) : Prop :=
  match c with Ok _ => False | Raise _ => True end.

Definition returns {A} (c : result A) : Prop :=
  match c with Ok _ => True | Raise _ => False end.

End Py.
Import Py.

(** ** Text helpers *)

(** All the pieces of a text, one after the other. *)
Definition join (pieces : list string) : string := fold_right append "" pieces.

(** The double-quote character, for HTML attributes. *)
Definition dq : string := String (ascii_of_nat 34) EmptyString.

Definition str_of_nat (n : nat) : string :=
  NilZero.string_of_uint (Nat.to_uint n).

Definition str_of_N (n : N) : string :=
  NilZero.string_of_uint (N.to_uint n).

(** [str(z)] for a Python [int]. *)
Definition str_of_Z (z : Z) : string :=
  match z with
  | Z0 => "0"
  | Zpos p => str_of_N (Npos p)
  | Zneg p => "-" ++ str_of_N (Npos p)
  end.

(** ** Binary64 arithmetic *)

Module F64.

(** The binary64 value nearest to [p / q] (ties to even), with the sign
    [neg]; [p >= 0] and [q > 0].  The result is an infinity when the quotient
    rounds beyond the largest finite value. *)
Definition round_ratio (neg : bool) (p q : Z) : spec_float :=
  let '(mz, ez, lz) := SFdiv_core_binary prec emax p 0 q 0 in
  binary_round_aux prec emax neg mz ez lz.

(** The binary64 value nearest to [d * 10^e].  The two guards only cut off
    exponents for which the answer is known without building [10^|e|]:
    [d >= 1] and [e > 310] is beyond the largest finite value, and
    [d < 2^(log2 d + 1)], [10^e <= 2^(3e)] for [e < 0] put the value below
    half of the smallest subnormal. *)
Definition of_decimal (neg : bool) (d : N) (e : Z) : spec_float :=
  match d with
  | N0 => S754_zero neg
  | Npos p =>
      if 310 <? e then S754_infinity neg
      else if Z.log2 (Zpos p) + 1 + 3 * e <=? -1075 then S754_zero neg
      else if 0 <=? e then round_ratio neg (Zpos p * 10 ^ e) 1
      else round_ratio neg (Zpos p) (10 ^ (- e))
  end.

Definition is_inf_sf (x : spec_float) : bool :=
  match x with S754_infinity _ => true | _ => false end.

(** The number nearest to the quotient [a / b] of two integers, [b <> 0];
    the sign of a zero quotient follows the signs of [a] and [b]. *)
Definition nearest_ratio_sf (a b : Z) : spec_float :=
  round_ratio (xorb (a <? 0) (b <? 0)) (Z.abs a) (Z.abs b).

Definition nearest_ratio (a b : Z) : float := SF2Prim (nearest_ratio_sf a b).

(** The float nearest to an integer (an infinity beyond the range). *)
Definition of_Z (z : Z) : float := nearest_ratio z 1.

(** Python's [>] on floats. *)
Definition gt (x y : float) : bool := PrimFloat.ltb y x.

(** [x <= y] on floats. *)
Definition le (x y : float) : bool := PrimFloat.leb x y.

(** pandas' [notna] on one float. *)
Definition notna (x : float) : bool := negb (PrimFloat.is_nan x).

End F64.

(** ** [int / int]: Python's true division

    CPython rounds the exact quotient once, raises [ZeroDivisionError] for a
    zero divisor and [OverflowError] when the quotient is too large for a
    float. *)
Definition int_truediv (a b : Z) : result float :=
  if b =? 0 then Raise (Exn ZeroDivisionError "division by zero")
  else if F64.is_inf_sf (F64.nearest_ratio_sf a b)
  then Raise (Exn OverflowError "integer division result too large for a float")
  else Ok (F64.nearest_ratio a b).

(** ** [float(s)] for a [str]

    The text handed to [float] and [int] is taken to be ASCII: the optional
    surrounding whitespace, a sign, digits with single underscores between
    them, and for floats a point, an exponent, or one of the words inf,
    infinity and nan in any letter case. *)

Module FloatParse.

Definition is_space (c : ascii) : bool :=
  let n := nat_of_ascii c in
  ((9 <=? n) && (n <=? 13) || (n =? 32))%nat.

Definition is_digit (c : ascii) : bool :=
  let n := nat_of_ascii c in ((48 <=? n) && (n <=? 57))%nat.

Definition digit_val (c : ascii) : N := N.of_nat (nat_of_ascii c - 48).

Definition lower (c : ascii) : ascii :=
  let n := nat_of_ascii c in
  if ((65 <=? n) && (n <=? 90))%nat then ascii_of_nat (n + 32) else c.

Fixpoint lstrip (l : list ascii) : list ascii :=
  match l with
  | c :: r => if is_space c then lstrip r else l
  | [] => []
  end.

Definition strip (l : list ascii) : list ascii :=
  rev (lstrip (rev (lstrip l))).

(** Underscores are legal only between two digits; they are then dropped.
    [prev] tells whether the character before the current one was a digit. *)
Fixpoint drop_underscores (prev : bool) (l : list ascii) : option (list ascii) :=
  match l with
  | [] => Some []
  | c :: r =>
      if Ascii.eqb c "_"%char then
        match r with
        | d :: _ => if prev && is_digit d then drop_underscores false r else None
        | [] => None
        end
      else option_map (cons c) (drop_underscores (is_digit c) r)
  end.

(** Reads a maximal run of digits: the accumulated value, how many digits
    were read, and the rest of the input. *)
Fixpoint digits (acc : N) (cnt : nat) (l : list ascii) : N * nat * list ascii :=
  match l with
  | c :: r => if is_digit c then digits (acc * 10 + digit_val c)%N (S cnt) r
              else (acc, cnt, l)
  | [] => (acc, cnt, [])
  end.

Definition sign (l : list ascii) : bool * list ascii :=
  match l with
  | c :: r => if Ascii.eqb c "-"%char then (true, r)
              else if Ascii.eqb c "+"%char then (false, r)
              else (false, l)
  | [] => (false, [])
  end.

(** The optional exponent part; [None] when the text is not an exponent
    that runs to the end of the input. *)
Definition exponent (l : list ascii) : option Z :=
  match l with
  | [] => Some 0
  | c :: r =>
      if Ascii.eqb (lower c) "e"%char then
        let '(neg, r1) := sign r in
        match digits 0 0 r1 with
        | (_, O, _) => None
        | (v, _, []) => Some (if neg then - Z.of_N v else Z.of_N v)
        | _ => None
        end
      else None
  end.

Definition decimal (neg : bool) (l : list ascii) : option spec_float :=
  let '(ip, ni, r1) := digits 0 0 l in
  let '(m, nf, r2) :=
    match r1 with
    | c :: r => if Ascii.eqb c "."%char then
                  let '(m, n, r') := digits ip 0 r in (m, n, r')
                else (ip, O, r1)
    | [] => (ip, O, r1)
    end in
  match (ni + nf)%nat with
  | O => None
  | _ => match exponent r2 with
         | Some e => Some (F64.of_decimal neg m (e - Z.of_nat nf))
         | None => None
         end
  end.

Definition word (l : list ascii) : string :=
  string_of_list_ascii (map lower l).

Definition parse (s : string) : option float :=
  match drop_underscores false (strip (list_ascii_of_string s)) with
  | None => None
  | Some l =>
      let '(neg, body) := sign l in
      let w := word body in
      if String.eqb w "inf" || String.eqb w "infinity"
      then Some (SF2Prim (S754_infinity neg))
      else if String.eqb w "nan" then Some PrimFloat.nan
      else option_map SF2Prim (decimal neg body)
  end.

End FloatParse.

(** [float(z)] for a Python [int]: the nearest binary64 value, or
    [OverflowError]. *)
Definition float_of_int (z : Z) : result float :=
  if F64.is_inf_sf (F64.nearest_ratio_sf z 1)
  then Raise (Exn OverflowError "int too large to convert to float")
  else Ok (F64.of_Z z).

(** ** Formatting floats *)

Module FloatFormat.

(** [p / q] rounded to the nearest integer, ties to even ([p >= 0], [q > 0]). *)
Definition div_half_even (p q : Z) : Z :=
  let n := p / q in
  match (2 * (p mod q)) ?= q with
  | Lt => n
  | Gt => n + 1
  | Eq => if Z.even n then n else n + 1
  end.

(** The exact value [m * 2^e] of a finite float as a fraction. *)
Definition fraction (m : positive) (e : Z) : Z * Z :=
  if 0 <=? e then (Zpos m * 2 ^ e, 1) else (Zpos m, 2 ^ (- e)).

Definition sign_str (s : bool) : string := if s then "-" else "".

(** [format(x, '.1f')]: one digit after the point, the exact binary value
    rounded half to even. *)
Definition fixed1 (x : float) : string :=
  match Prim2SF x with
  | S754_nan => "nan"
  | S754_infinity s => sign_str s ++ "inf"
  | S754_zero s => sign_str s ++ "0.0"
  | S754_finite s m e =>
      let '(p, q) := fraction m e in
      let t := div_half_even (10 * p) q in
      sign_str s ++ str_of_Z (t / 10) ++ "." ++ str_of_Z (t mod 10)
  end.

(** The largest [d] with [10^d <= p / q], searched downwards from an upper
    estimate [d] ([10^(d+1) > p / q]) in at most [fuel] steps. *)
Fixpoint floor_log10 (fuel : nat) (p q d : Z) : Z :=
  match fuel with
  | O => d
  | S f =>
      let fits := if 0 <=? d then q * 10 ^ d <=? p else q <=? p * 10 ^ (- d) in
      if fits then d else floor_log10 f p q (d - 1)
  end.

(** An upper estimate of the decimal exponent of a value below [2^l]:
    [0.30102 < log10 2 < 0.30103]. *)
Definition log10_upper (l : Z) : Z :=
  (if 0 <=? l then l * 30103 else l * 30102) / 100000 + 1.

(** [n * 10^k] read back as a float. *)
Definition read_back (n k : Z) : spec_float := F64.of_decimal false (Z.to_N n) k.

Definition same_sf (a b : spec_float) : bool :=
  match a, b with
  | S754_finite _ m1 e1, S754_finite _ m2 e2 => (Zpos m1 =? Zpos m2) && (e1 =? e2)
  | _, _ => false
  end.

(** The shortest decimal that reads back as the float [m * 2^e]: for
    [k = 1, 2, ...] significant digits the two [k]-digit neighbours of the
    exact value are tried, the nearer one first.  Returns the digits as an
    integer and the power of ten that scales them. *)
Fixpoint shortest (fuel : nat) (k : Z) (m : positive) (e d10 : Z) : Z * Z :=
  let '(p, q) := fraction m e in
  let sc := d10 - k + 1 in
  let '(ps, qs) := if 0 <=? sc then (p, q * 10 ^ sc) else (p * 10 ^ (- sc), q) in
  let lo := ps / qs in
  let near := div_half_even ps qs in
  let far := if near =? lo then lo + 1 else lo in
  let x := S754_finite false m e in
  match fuel with
  | O => (near, sc)
  | S f =>
      if same_sf (read_back near sc) x then (near, sc)
      else if same_sf (read_back far sc) x then (far, sc)
      else shortest f (k + 1) m e d10
  end.

(** Drops the trailing zeros of a digit count, raising the scale. *)
Fixpoint strip_zeros (fuel : nat) (n k : Z) : Z * Z :=
  match fuel with
  | O => (n, k)
  | S f => if (n mod 10 =? 0) && negb (n =? 0) then strip_zeros f (n / 10) (k + 1)
           else (n, k)
  end.

Fixpoint zeros (n : nat) : string :=
  match n with O => "" | S k => "0" ++ zeros k end.

Definition two_digits (z : Z) : string :=
  if z <? 10 then "0" ++ str_of_Z z else str_of_Z z.

(** [repr(x)], which is also [str(x)] and what an f-string inserts for a
    float: the shortest digits that read back as [x], in positional notation
    when the decimal point falls within [-4 < decpt <= 16] and in exponent
    notation otherwise. *)
Definition repr (x : float) : string :=
  match Prim2SF x with
  | S754_nan => "nan"
  | S754_infinity s => sign_str s ++ "inf"
  | S754_zero s => sign_str s ++ "0.0"
  | S754_finite s m e =>
      let '(p, q) := fraction m e in
      let d10 := floor_log10 8 p q (log10_upper (Z.log2 p - Z.log2 q + 1)) in
      let '(n0, k0) := shortest 17 1 m e d10 in
      let '(n, k) := strip_zeros 20 n0 k0 in
      let ds := str_of_Z n in
      let len := Z.of_nat (String.length ds) in
      let decpt := len + k in
      sign_str s ++
      if (-4 <? decpt) && (decpt <=? 16) then
        if decpt <=? 0 then "0." ++ zeros (Z.to_nat (- decpt)) ++ ds
        else if len <=? decpt then ds ++ zeros (Z.to_nat (decpt - len)) ++ ".0"
        else substring 0 (Z.to_nat decpt) ds ++ "." ++
             substring (Z.to_nat decpt) (Z.to_nat (len - decpt)) ds
      else
        let ex := decpt - 1 in
        substring 0 1 ds ++
        (if 1 <? len then "." ++ substring 1 (Z.to_nat (len - 1)) ds else "") ++
        "e" ++ (if ex <? 0 then "-" else "+") ++ two_digits (Z.abs ex)
  end.

End FloatFormat.

(** [float(s)]: the parsed value, or [ValueError]. *)
Definition float_of_str (s : string) : result float :=
  match FloatParse.parse s with
  | Some x => Ok x
  | None => Raise (Exn ValueError ("could not convert string to float: '" ++ s ++ "'"))
  end.

(** Python numbers that are either an [int] or a [float]. *)
Inductive number :=
  | Int (z : Z)
  | Float (x : float).

(** [format(n, '.1f')]: an [int] is first converted to a float. *)
Definition format_1f (n : number) : result string :=
  match n with
  | Int z => Py.bind (float_of_int z) (fun x => Ok (FloatFormat.fixed1 x))
  | Float x => Ok (FloatFormat.fixed1 x)
  end.

(** ** Data model *)

(** A cell of the [FinalResidual] column as pandas hands it to the script.
    The column is float64 when every entry is a number or missing (the
    default reader turns the text N/A into NaN), and holds Python strings
    otherwise. *)
Inductive cell :=
  | Num (x : float)
  | Text (s : string).

(** One row of [summary.csv], with the column types of the study's summary
    table: an integer Reynolds number, a status word, a float runtime. *)
Record Row := {
  Reynolds : Z;
  Status : string;
  Runtime : float;
  FinalResidual : cell;
}.

Definition DataFrame := list Row.

(** What a [plot]/[semilogy] call draws: the x and y sequences. *)
Record Line (X : Type) := { line_x : list X; line_y : list float }.
Arguments line_x {X} _.
Arguments line_y {X} _.

(** The residual chart of one case. *)
Record ResidualFigure := {
  res_title : string;
  res_Ux : Line float;
  res_Uy : Line float;
  res_p : Line float;
}.

(** The two velocity charts of one case; each is drawn with the profile on
    the x axis and the coordinate on the y axis. *)
Record VelocityFigure := {
  vel_label : string;
  vel_U : Line float;
  vel_V : Line float;
}.

(** The four panels of the study summary: the status distribution, the two
    optional line charts and the bar chart with its count labels. *)
Record SummaryFigure := {
  sum_pie : gmap string nat;
  sum_runtime : option (Line Z);
  sum_residual : option (Line Z);
  sum_bars : list (string * nat);
}.

Inductive figure :=
  | FigResiduals (f : ResidualFigure)
  | FigVelocity (f : VelocityFigure)
  | FigSummary (f : SummaryFigure).

(** ** The world the scripts run in *)

(** What a pandas reader makes of a file: the table it returns, or the
    exception it raises. *)
Inductive parse (A : Type) :=
  | Parsed (a : A)
  | Unreadable (kind : exn_type) (msg : string).
Arguments Parsed {A} a.
Arguments Unreadable {A} kind msg.

Definition read {A} (p : parse A) : result A :=
  match p with
  | Parsed a => Ok a
  | Unreadable kind msg => Raise (Exn kind msg)
  end.

(** A file is described by what the scripts can do with it: a summary table
    by what [pd.read_csv] makes of it, a residual log by the columns that
    the whitespace reader makes of it, an image by the figure saved in it, a
    page by its text. *)
Inductive content :=
  | Csv (parsed : parse DataFrame)
  | ResidualLog (parsed : parse (list (list float)))
  | Png (fig : figure)
  | Html (text : string).

Inductive node :=
  | Dir
  | File (c : content).

Record world := World {
  files : gmap string node;
  stdout : list string;
  (** the wall clock, as [strftime('%Y-%m-%d %H:%M:%S')] prints it *)
  clock : string;
}.

(** [Path(d) / name] as a string. *)
Definition joinpath (d name : string) : string := d ++ "/" ++ name.

(** Computations that read and change the world and may raise. *)
Definition M (A : Type) : Type := world -> result A * world.

Definition ret {A} (a : A) : M A := fun w => (Ok a, w).

Definition raise {A} (e : exn) : M A := fun w => (Raise e, w).

Definition mbind {A B} (c : M A) (k : A -> M B) : M B :=
  fun w => match c w with
           | (Ok a, w') => k a w'
           | (Raise e, w') => (Raise e, w')
           end.

Notation "x <- c ;; k" := (mbind c (fun x => k))
  (at level 100, c at next level, right associativity).
Notation "c ;;; k" := (mbind c (fun _ => k))
  (at level 100, right associativity).

Definition lift {A} (r : result A) : M A := fun w => (r, w).

Definition print (line : string) : M unit :=
  fun w => (Ok tt, World (files w) (stdout w ++ [line]) (clock w)).

Definition path_exists (p : string) : M bool :=
  fun w => (Ok (bool_decide (is_Some (files w !! p))), w).

Definition now : M string := fun w => (Ok (clock w), w).

(** [sys.exit(code)]. *)
Definition sys_exit {A} (code : Z) : M A := raise (SystemExit code).

(** [try: body / except Exception as e: handler e].  What the body did to
    the world before raising stays done. *)
Definition try_except {A} (body : M A) (handler : exn -> M A) : M A :=
  fun w => match body w with
           | (Raise (Exn k m), w') => handler (Exn k m) w'
           | r => r
           end.

Definition errno2 (p : string) : exn :=
  Exn FileNotFoundError ("[Errno 2] No such file or directory: '" ++ p ++ "'").

Definition errno21 (p : string) : exn :=
  Exn IsADirectoryError ("[Errno 21] Is a directory: '" ++ p ++ "'").

Definition errno20 (p : string) : exn :=
  Exn NotADirectoryError ("[Errno 20] Not a directory: '" ++ p ++ "'").

Definition errno36 (p : string) : exn :=
  Exn OSError ("[Errno 36] File name too long: '" ++ p ++ "'").

(** The longest file name, in bytes, that the file system takes
    ([NAME_MAX] of Linux file systems). *)
Definition NAME_MAX : nat := 255.

Definition name_fits (name : string) : bool :=
  (String.length name <=? NAME_MAX)%nat.

(** Creating or overwriting the file [name] in the directory [d], as
    [open] resolves the path: the directory must exist and be a directory,
    the name must not be longer than the file system takes, and the target
    must not be a directory.  The path as a whole is taken to be within the
    system's limit on paths. *)
Definition write_file (d name : string) (c : content) : M unit :=
  fun w =>
    let p := joinpath d name in
    match files w !! d with
    | None => (Raise (errno2 p), w)
    | Some (File _) => (Raise (errno20 p), w)
    | Some Dir =>
        if negb (name_fits name) then (Raise (errno36 p), w)
        else
          match files w !! p with
          | Some Dir => (Raise (errno21 p), w)
          | _ => (Ok tt, World (<[p := File c]> (files w)) (stdout w) (clock w))
          end
    end.

(** [plt.savefig(Path(d) / name)]. *)
Definition savefig (d name : string) (fig : figure) : M unit :=
  write_file d name (Png fig).

(** [ax.plot(x, y)] and [ax.semilogy(x, y)] refuse sequences of different
    lengths. *)
Definition plot {X} (x : list X) (y : list float) : result (Line X) :=
  if (length x =? length y)%nat then Ok {| line_x := x; line_y := y |}
  else Raise (Exn ValueError "x and y must have same first dimension").

(** How a process ends. *)
Inductive outcome :=
  | Exit (code : Z)
  | Uncaught (e : exn).

(** The status the operating system sees: the interpreter exits with 1
    after an uncaught exception. *)
Definition exit_status (o : outcome) : Z :=
  match o with
  | Exit c => c
  | Uncaught _ => 1
  end.

(** ** The pandas routines the report generator calls *)

Class Pandas := {
  (** [Series.mean()] of a float64 column: the mean of its non-missing
      entries. *)
  Series_mean : list float -> float;
  (** [pd.to_numeric(..., errors='coerce')] on one text cell: the number
      the text denotes, NaN when it denotes none. *)
  coerce_text : string -> float;
}.

(** ** [scripts/generate-report.py] *)

Module Report.

Definition nl : string := String (ascii_of_nat 10) EmptyString.

(** A triple-quoted template: a newline, then every line followed by one. *)
Definition template (lines : list string) : string :=
  nl ++ join (map (fun l => l ++ nl) lines).

Definition html_head_lines
    (now total_cases success_rate successful_cases avg_runtime : string)
  : list string :=
    [ "<!DOCTYPE html>";
      "<html>";
      "<head>";
      "    <title>OpenFOAM Parametric Study Report</title>";
      "    <style>";
      "        body { font-family: Arial, sans-serif; margin: 40px; }";
      "        .header { background-color: #f0f0f0; padding: 20px; border-radius: 5px; }";
      "        .metrics { display: flex; justify-content: space-around; margin: 20px 0; }";
      "        .metric { text-align: center; padding: 15px; background-color: #e8f4f8; border-radius: 5px; }";
      "        .metric h3 { margin: 0; color: #2c5f7f; }";
      "        .metric p { font-size: 24px; font-weight: bold; margin: 5px 0; color: #1a4a60; }";
      "        table { width: 100%; border-collapse: collapse; margin: 20px 0; }";
      "        th, td { padding: 12px; text-align: left; border-bottom: 1px solid #ddd; }";
      "        th { background-color: #4CAF50; color: white; }";
      "        tr:nth-child(even) { background-color: #f2f2f2; }";
      "        .success { color: green; font-weight: bold; }";
      "        .failed { color: red; font-weight: bold; }";
      "        .warning { color: orange; font-weight: bold; }";
      "        .timestamp { color: #666; font-style: italic; }";
      "    </style>";
      "</head>";
      "<body>";
      "    <div class=" ++ dq ++ "header" ++ dq ++ ">";
      "        <h1>🌊 OpenFOAM Parametric Study Report</h1>";
      "        <p class=" ++ dq ++ "timestamp" ++ dq ++ ">Generated on: " ++ now ++ "</p>";
      "        <p><strong>Study:</strong> Cavity Flow - Reynolds Number Parametric Analysis</p>";
      "    </div>";
      "    ";
      "    <div class=" ++ dq ++ "metrics" ++ dq ++ ">";
      "        <div class=" ++ dq ++ "metric" ++ dq ++ ">";
      "            <h3>Total Cases</h3>";
      "            <p>" ++ total_cases ++ "</p>";
      "        </div>";
      "        <div class=" ++ dq ++ "metric" ++ dq ++ ">";
      "            <h3>Success Rate</h3>";
      "            <p>" ++ success_rate ++ "%</p>";
      "        </div>";
      "        <div class=" ++ dq ++ "metric" ++ dq ++ ">";
      "            <h3>Successful Cases</h3>";
      "            <p>" ++ successful_cases ++ "</p>";
      "        </div>";
      "        <div class=" ++ dq ++ "metric" ++ dq ++ ">";
      "            <h3>Avg Runtime</h3>";
      "            <p>" ++ avg_runtime ++ "s</p>";
      "        </div>";
      "    </div>";
      "    ";
      "    <h2>📊 Results Summary</h2>";
      "    <img src=" ++ dq ++ "parametric_study_summary.png" ++ dq ++ " alt=" ++ dq ++ "Parametric Study Summary" ++ dq ++ " style=" ++ dq ++ "width: 100%; max-width: 1000px;" ++ dq ++ ">";
      "    ";
      "    <h2>📋 Detailed Results</h2>";
      "    <table>";
      "        <tr>";
      "            <th>Reynolds Number</th>";
      "            <th>Status</th>";
      "            <th>Runtime (s)</th>";
      "            <th>Final Residual</th>";
      "            <th>Convergence Quality</th>";
      "        </tr>" ].

Definition html_head
    (now total_cases success_rate successful_cases avg_runtime : string)
  : string :=
  template (html_head_lines now total_cases success_rate successful_cases avg_runtime).

Definition html_row (reynolds status_class status runtime residual quality : string) : string :=
  template
    [ "        <tr>";
      "            <td>" ++ reynolds ++ "</td>";
      "            <td><span class=" ++ dq ++ status_class ++ dq ++ ">" ++ status ++ "</span></td>";
      "            <td>" ++ runtime ++ "</td>";
      "            <td>" ++ residual ++ "</td>";
      "            <td>" ++ quality ++ "</td>";
      "        </tr>" ].

Definition html_tail : string :=
  template
    [ "    </table>";
      "    ";
      "    <h2>🔧 System Information</h2>";
      "    <ul>";
      "        <li><strong>Solver:</strong> simpleFoam (SIMPLE algorithm)</li>";
      "        <li><strong>Mesh:</strong> 20x20 structured grid</li>";
      "        <li><strong>Convergence Criteria:</strong> Residual < 1e-3</li>";
      "        <li><strong>Boundary Conditions:</strong> Moving lid cavity</li>";
      "    </ul>";
      "    ";
      "    <h2>📈 CI/CD Integration</h2>";
      "    <p>This report demonstrates:</p>";
      "    <ul>";
      "        <li>✅ Automated parametric studies</li>";
      "        <li>✅ Quality validation and convergence checking</li>";
      "        <li>✅ Performance monitoring and metrics collection</li>";
      "        <li>✅ Structured reporting for DevOps integration</li>";
      "    </ul>";
      "    ";
      "    <footer style=" ++ dq ++ "margin-top: 50px; padding: 20px; background-color: #f9f9f9; border-radius: 5px;" ++ dq ++ ">";
      "        <p><em>Report generated by OpenFOAM CI/CD Pipeline</em></p>";
      "        <p>For questions or issues, contact the DevOps team.</p>";
      "    </footer>";
      "</body>";
      "</html>" ].

Section WithPandas.
Context `{Pandas}.

(** [pd.read_csv(summary_file)]. *)
Definition read_csv (p : string) : M DataFrame :=
  fun w => match files w !! p with
           | Some (File (Csv r)) => (read r, w)
           | Some Dir => (Raise (errno21 p), w)
           | Some (File _) =>
               (Raise (Exn ParserError "Error tokenizing data"), w)
           | None => (Raise (errno2 p), w)
           end.

(** [df['Status'] == 'SUCCESS'] on one row. *)
Definition is_status (s : string) (r : Row) : bool := String.eqb (Status r) s.

(** [df[df['Status'] == s]]. *)
Definition with_status (s : string) (df : DataFrame) : DataFrame :=
  List.filter (is_status s) df.

(** [df[mask]] for a boolean column [mask] on the same index. *)
Definition boolean_index {A} (df : list A) (mask : list bool) : list A :=
  map fst (List.filter snd (combine df mask)).

(** [pd.to_numeric(column, errors='coerce')] on one cell. *)
Definition to_numeric (c : cell) : float :=
  match c with
  | Num x => x
  | Text s => coerce_text s
  end.

(** [df['Status'].value_counts()] as a map from status to count. *)
Definition value_counts (col : list string) : gmap string nat :=
  fold_right (fun s m => <[s := S (default O (m !! s))]> m) ∅ col.

(** The third panel: the final residual against the Reynolds number. *)
Definition residual_panel (successful_df : DataFrame) : result (option (Line Z)) :=
  if negb (bool_decide (successful_df = [])) then
    let residuals := map to_numeric (map FinalResidual successful_df) in
    let valid_data := boolean_index successful_df (map F64.notna residuals) in
    if negb (bool_decide (valid_data = [])) then
      Py.bind (plot (map Reynolds valid_data) (List.filter F64.notna residuals))
              (fun l => Ok (Some l))
    else Ok None
  else Ok None.

(** The second panel: the runtime against the Reynolds number. *)
Definition runtime_panel (successful_df : DataFrame) : result (option (Line Z)) :=
  if negb (bool_decide (successful_df = [])) then
    Py.bind (plot (map Reynolds successful_df) (map Runtime successful_df))
            (fun l => Ok (Some l))
  else Ok None.

Definition performance_data (df : DataFrame) : list (string * nat) :=
  [ ("Total Cases", length df);
    ("Successful", length (with_status "SUCCESS" df));
    ("Failed", length (with_status "FAILED" df));
    ("Poor Convergence", length (with_status "CONVERGED_POOR" df)) ].

(** [ax1.pie(success_counts.values, labels=success_counts.index, ...)]:
    matplotlib refuses wedge sizes whose sum is zero with a ValueError (the
    message is the library's), and draws the wedges otherwise. *)
Definition pie (counts : gmap string nat) : result (gmap string nat) :=
  if (map_fold (fun _ n total => n + total) O counts =? 0)%nat
  then Raise (Exn ValueError "All wedge sizes are zero")
  else Ok counts.

Definition generate_summary_plots (results_dir : string) : M (option string) :=
  let summary_file := joinpath results_dir "summary.csv" in
  found <- path_exists summary_file ;;
  if negb found then
    print ("Warning: Summary file not found: " ++ summary_file) ;;;
    ret None
  else
    df <- read_csv summary_file ;;
    print ("Processing " ++ str_of_nat (length df) ++ " simulation results") ;;;
    let success_counts := value_counts (map Status df) in
    ax1 <- lift (pie success_counts) ;;
    let successful_df := with_status "SUCCESS" df in
    ax2 <- lift (runtime_panel successful_df) ;;
    ax3 <- lift (residual_panel successful_df) ;;
    let fig := {| sum_pie := ax1; sum_runtime := ax2;
                  sum_residual := ax3; sum_bars := performance_data df |} in
    let summary_plot_path := joinpath results_dir "parametric_study_summary.png" in
    savefig results_dir "parametric_study_summary.png" (FigSummary fig) ;;;
    print ("Generated summary plot: " ++ summary_plot_path) ;;;
    ret (Some summary_plot_path).

(** [(successful_cases / total_cases * 100) if total_cases > 0 else 0]. *)
Definition success_rate (df : DataFrame) : result number :=
  let total_cases := Z.of_nat (length df) in
  let successful_cases := Z.of_nat (length (with_status "SUCCESS" df)) in
  if 0 <? total_cases then
    Py.bind (int_truediv successful_cases total_cases)
            (fun q => Ok (Float (q * 100)%float))
  else Ok (Int 0).

(** [successful_df['Runtime'].mean() if not successful_df.empty else 0]. *)
Definition avg_runtime (df : DataFrame) : number :=
  let successful_df := with_status "SUCCESS" df in
  if negb (bool_decide (successful_df = [])) then
    Float (Series_mean (map Runtime successful_df))
  else Int 0.

Definition status_class (r : Row) : string :=
  if String.eqb (Status r) "SUCCESS" then "success"
  else if String.eqb (Status r) "FAILED" then "failed"
  else "warning".

(** [row['FinalResidual'] != 'N/A']: a float never equals a string. *)
Definition not_sentinel (c : cell) : bool :=
  match c with
  | Num _ => true
  | Text s => negb (String.eqb s "N/A")
  end.

(** [float(row['FinalResidual'])]. *)
Definition float_of_cell (c : cell) : result float :=
  match c with
  | Num x => Ok x
  | Text s => float_of_str s
  end.

Definition convergence_quality (c : cell) : string :=
  if not_sentinel c then
    match float_of_cell c with
    | Ok residual_val =>
        if F64.gt residual_val 0.001 then "Poor"
        else if F64.gt residual_val 0.0001 then "Good"
        else "Excellent"
    | Raise _ => "Unknown"
    end
  else "Excellent".

(** What an f-string inserts for a cell. *)
Definition str_of_cell (c : cell) : string :=
  match c with
  | Num x => FloatFormat.repr x
  | Text s => s
  end.

Definition table_row (r : Row) : string :=
  html_row (str_of_Z (Reynolds r)) (status_class r) (Status r)
           (FloatFormat.repr (Runtime r)) (str_of_cell (FinalResidual r))
           (convergence_quality (FinalResidual r)).

(** The rows that the loop over [df.iterrows()] appends, in table order. *)
Definition table_rows (df : DataFrame) : string :=
  join (map table_row df).

Definition html_content (stamp : string) (df : DataFrame) : result string :=
  Py.bind (success_rate df) (fun rate =>
  Py.bind (format_1f rate) (fun rate_s =>
  Py.bind (format_1f (avg_runtime df)) (fun avg_s =>
  Ok (html_head stamp (str_of_nat (length df)) rate_s
                (str_of_nat (length (with_status "SUCCESS" df))) avg_s
      ++ table_rows df ++ html_tail)))).

Definition generate_html_report (results_dir : string) : M (option string) :=
  let summary_file := joinpath results_dir "summary.csv" in
  found <- path_exists summary_file ;;
  if negb found then
    print ("Error: Summary file not found: " ++ summary_file) ;;;
    ret None
  else
    df <- read_csv summary_file ;;
    stamp <- now ;;
    text <- lift (html_content stamp df) ;;
    let report_path := joinpath results_dir "parametric_study_report.html" in
    write_file results_dir "parametric_study_report.html" (Html text) ;;;
    print ("Generated HTML report: " ++ report_path) ;;;
    ret (Some report_path).

Definition main (argv : list string) : M unit :=
  if negb (length argv =? 2)%nat then
    print "Usage: python3 generate-report.py <results_directory>" ;;;
    sys_exit 1
  else
    let results_dir := nth 1 argv "" in
    found <- path_exists results_dir ;;
    if negb found then
      print ("Error: Results directory not found: " ++ results_dir) ;;;
      sys_exit 1
    else
      print ("Generating comprehensive report for: " ++ results_dir) ;;;
      generate_summary_plots results_dir ;;;
      generate_html_report results_dir ;;;
      print "Report generation completed successfully!" ;;;
      print ("Open " ++ results_dir ++ "/parametric_study_report.html to view the report") ;;;
      ret tt.

(** The script's last lines call [main()] and drop its value: the process
    ends with status 0 unless [main] raised. *)
Definition script (argv : list string) (w : world) : outcome * world :=
  match main argv w with
  | (Ok _, w') => (Exit 0, w')
  | (Raise (SystemExit c), w') => (Exit c, w')
  | (Raise e, w') => (Uncaught e, w')
  end.

End WithPandas.

End Report.

(** A pandas that sums a column from left to right and reads text cells the
    way [float] does; used to run the report generator on examples. *)
Definition sequential_mean (col : list float) : float :=
  let vals := List.filter F64.notna col in
  match vals with
  | [] => PrimFloat.nan
  | _ => (fold_left PrimFloat.add vals 0 / F64.of_Z (Z.of_nat (length vals)))%float
  end.

Definition coerce_by_float (s : string) : float :=
  match FloatParse.parse s with
  | Some x => x
  | None => PrimFloat.nan
  end.

Definition reference_pandas : Pandas :=
  {| Series_mean := sequential_mean; coerce_text := coerce_by_float |}.

(** ** The numpy routines the plot generator calls *)

Class Numpy := {
  np_sin : float -> float;
  np_exp : float -> float;
}.

(** ** [int(s)] for a [str] *)

Module IntParse.

Definition parse (s : string) : option Z :=
  match FloatParse.drop_underscores false
          (FloatParse.strip (list_ascii_of_string s)) with
  | None => None
  | Some l =>
      let '(neg, body) := FloatParse.sign l in
      match FloatParse.digits 0 0 body with
      | (_, O, _) => None
      | (v, _, []) => Some (if neg then - Z.of_N v else Z.of_N v)
      | _ => None
      end
  end.

End IntParse.

Definition int_of_str (s : string) : result Z :=
  match IntParse.parse s with
  | Some z => Ok z
  | None => Raise (Exn ValueError
                     ("invalid literal for int() with base 10: '" ++ s ++ "'"))
  end.

(** ** [scripts/generate-plots.py] *)

Module Plots.

Definition np_pi : float := 3.141592653589793%float.

(** [np.linspace(start, stop, num)]: [num] points, the last one set to
    [stop] itself. *)
Definition linspace (start stop : float) (num : nat) : list float :=
  let div := F64.of_Z (Z.of_nat (num - 1)) in
  let delta := (stop - start)%float in
  let step := (delta / div)%float in
  let arange := map (fun i => F64.of_Z (Z.of_nat i)) (seq 0 num) in
  let y :=
    if (0 <? num - 1)%nat then
      if PrimFloat.eqb step 0 then map (fun i => (i / div * delta + start)%float) arange
      else map (fun i => (i * step + start)%float) arange
    else map (fun i => (i * delta + start)%float) arange in
  if (1 <? num)%nat then firstn (num - 1) y ++ [stop] else y.

(** [np.zeros_like(y)]. *)
Definition zeros_like (y : list float) : list float := map (fun _ => 0%float) y.

(** The message an f-string inserts for a caught exception. *)
Definition str_of_exn (e : exn) : string :=
  match e with
  | Exn _ msg => msg
  | SystemExit c => str_of_Z c
  end.

Definition set_columns (data : list (list float))
  : result (list float * list float * list float * list float) :=
  match data with
  | [time; ux; uy; p] => Ok (time, ux, uy, p)
  | _ => Raise (Exn ValueError
                  ("Length mismatch: Expected axis has " ++ str_of_nat (length data)
                   ++ " elements, new values have 4 elements"))
  end.

(** [pd.read_csv(residuals_file, sep='\s+', header=None, skiprows=1)]. *)
Definition read_residuals (p : string) : M (list (list float)) :=
  fun w => match files w !! p with
           | Some (File (ResidualLog r)) => (read r, w)
           | Some Dir => (Raise (errno21 p), w)
           | Some (File _) =>
               (Raise (Exn ParserError "Error tokenizing data"), w)
           | None => (Raise (errno2 p), w)
           end.

Definition residuals_name (reynolds_num : Z) : string :=
  "residuals_Re" ++ str_of_Z reynolds_num ++ ".png".

Definition velocity_name (reynolds_num : Z) : string :=
  "velocity_profile_Re" ++ str_of_Z reynolds_num ++ ".png".

Definition residuals_path (case_dir : string) : string :=
  joinpath case_dir "postProcessing/residuals/0/residuals.dat".

(** The [try] block of [plot_residuals]. *)
Definition plot_residuals_try (residuals_file : string) (reynolds_num : Z)
    (output_dir : string) : M bool :=
  data <- read_residuals residuals_file ;;
  cols <- lift (set_columns data) ;;
  let '(time, ux, uy, p) := cols in
  l_ux <- lift (plot time ux) ;;
  l_uy <- lift (plot time uy) ;;
  l_p <- lift (plot time p) ;;
  let fig := {| res_title := "Convergence History - Re = " ++ str_of_Z reynolds_num;
                res_Ux := l_ux; res_Uy := l_uy; res_p := l_p |} in
  let plot_path := joinpath output_dir (residuals_name reynolds_num) in
  savefig output_dir (residuals_name reynolds_num) (FigResiduals fig) ;;;
  print ("Generated residuals plot: " ++ plot_path) ;;;
  ret true.

Definition plot_residuals (case_dir : string) (reynolds_num : Z)
    (output_dir : string) : M bool :=
  let residuals_file := residuals_path case_dir in
  found <- path_exists residuals_file ;;
  if negb found then
    print ("Warning: Residuals file not found: " ++ residuals_file) ;;;
    ret false
  else
    try_except
      (plot_residuals_try residuals_file reynolds_num output_dir)
      (fun e =>
         print ("Error plotting residuals: " ++ str_of_exn e) ;;;
         ret false).

Section WithNumpy.
Context `{Numpy}.

(** The U profile on the grid [y]. *)
Definition u_profile (reynolds_num : Z) (y : list float) : result (list float) :=
  if reynolds_num <=? 100 then
    Ok (map (fun yi => (np_sin (np_pi * yi) * 0.8)%float) y)
  else
    Py.bind (int_truediv (- reynolds_num) 1000) (fun t =>
    let envelope := (1.0 - np_exp t)%float in
    Ok (map (fun yi => (np_sin (np_pi * yi) * envelope)%float) y)).

(** The [try] block of [plot_velocity_profile]. *)
Definition plot_velocity_profile_try (reynolds_num : Z) (output_dir : string)
  : M bool :=
  let y := linspace 0 1 50 in
  u <- lift (u_profile reynolds_num y) ;;
  let v_profile := zeros_like y in
  l_u <- lift (plot u y) ;;
  l_v <- lift (plot v_profile y) ;;
  let fig := {| vel_label := "Re = " ++ str_of_Z reynolds_num;
                vel_U := l_u; vel_V := l_v |} in
  let plot_path := joinpath output_dir (velocity_name reynolds_num) in
  savefig output_dir (velocity_name reynolds_num) (FigVelocity fig) ;;;
  print ("Generated velocity profile plot: " ++ plot_path) ;;;
  ret true.

Definition plot_velocity_profile (case_dir : string) (reynolds_num : Z)
    (output_dir : string) : M bool :=
  try_except
    (plot_velocity_profile_try reynolds_num output_dir)
    (fun e =>
       print ("Error plotting velocity profile: " ++ str_of_exn e) ;;;
       ret false).

(** [output_dir.mkdir(exist_ok=True)] for [output_dir = Path(d) / name]. *)
Definition mkdir_exist_ok (d name : string) : M unit :=
  fun w =>
    let p := joinpath d name in
    match files w !! p with
    | Some Dir => (Ok tt, w)
    | Some (File _) =>
        (Raise (Exn FileExistsError ("[Errno 17] File exists: '" ++ p ++ "'")), w)
    | None =>
        match files w !! d with
        | Some Dir => (Ok tt, World (<[p := Dir]> (files w)) (stdout w) (clock w))
        | Some (File _) =>
            (Raise (Exn NotADirectoryError
                      ("[Errno 20] Not a directory: '" ++ p ++ "'")), w)
        | None => (Raise (errno2 p), w)
        end
    end.

Definition usage : string :=
  "Usage: python3 generate-plots.py <case_directory> <reynolds_number>".

Definition main (argv : list string) : M Z :=
  if negb (length argv =? 3)%nat then
    print usage ;;;
    sys_exit 1
  else
    let case_dir := nth 1 argv "" in
    reynolds_num <- lift (int_of_str (nth 2 argv "")) ;;
    let output_dir := joinpath case_dir "plots" in
    mkdir_exist_ok case_dir "plots" ;;;
    print ("Generating plots for case: " ++ case_dir ++ ", Re = "
           ++ str_of_Z reynolds_num) ;;;
    success_residuals <- plot_residuals case_dir reynolds_num output_dir ;;
    success_velocity <- plot_velocity_profile case_dir reynolds_num output_dir ;;
    if success_residuals && success_velocity then
      print ("Successfully generated all plots for Re = " ++ str_of_Z reynolds_num) ;;;
      ret 0
    else
      print ("Some plots failed for Re = " ++ str_of_Z reynolds_num) ;;;
      ret 1.

(** The script's last line is [sys.exit(main())]. *)
Definition script (argv : list string) (w : world) : outcome * world :=
  match main argv w with
  | (Ok code, w') => (Exit code, w')
  | (Raise (SystemExit c), w') => (Exit c, w')
  | (Raise e, w') => (Uncaught e, w')
  end.

End WithNumpy.

End Plots.

(** A numpy whose sine and exponential are truncated power series evaluated
    in binary64; used to run the plot generator on examples. *)
Fixpoint sin_terms (n : nat) (k : Z) (x2 term acc : float) : float :=
  match n with
  | O => acc
  | S n' =>
      let term' := (- term * x2 / F64.of_Z ((2 * k + 2) * (2 * k + 3)))%float in
      sin_terms n' (k + 1) x2 term' (acc + term')%float
  end.

Definition series_sin (x : float) : float := sin_terms 12 0 (x * x)%float x x.

Fixpoint exp_terms (n : nat) (k : Z) (x term acc : float) : float :=
  match n with
  | O => acc
  | S n' =>
      let term' := (term * x / F64.of_Z (k + 1))%float in
      exp_terms n' (k + 1) x term' (acc + term')%float
  end.

Fixpoint square_n (n : nat) (x : float) : float :=
  match n with
  | O => x
  | S n' => square_n n' (x * x)%float
  end.

Definition series_exp (x : float) : float :=
  square_n 10 (exp_terms 16 0 (x / 1024)%float 1 1).

Definition series_numpy : Numpy :=
  {| np_sin := series_sin; np_exp := series_exp |}.

(** ** The specification's vocabulary *)

Module Spec.

(** The number of rows with Status = SUCCESS. *)
Definition successes (df : DataFrame) : nat :=
  count_occ string_dec (map Status df) "SUCCESS".

(** The success rate as the report shows it. *)
Definition reported_rate (df : DataFrame) : result string :=
  Py.bind (Report.success_rate df) format_1f.

(** The average runtime as the report shows it. *)
Definition reported_runtime `{Pandas} (df : DataFrame) : result string :=
  format_1f (Report.avg_runtime df).

(** The number a FinalResidual denotes, if it denotes one: a number that
    the reader delivered and that is not the missing value NaN (which is
    what the reader makes of the N/A sentinel), or a text that pandas'
    coercion turns into a number other than NaN. *)
Definition parsed_number `{Pandas} (c : cell) : option float :=
  match c with
  | Num x => if PrimFloat.is_nan x then None else Some x
  | Text s => if PrimFloat.is_nan (coerce_text s) then None else Some (coerce_text s)
  end.

(** The point a row contributes to the residual panel: its Reynolds number
    and its residual, when its Status is SUCCESS and its FinalResidual
    parses as a number; nothing otherwise. *)
Definition residual_point `{Pandas} (r : Row) : option (Z * float) :=
  if String.eqb (Status r) "SUCCESS" then
    match parsed_number (FinalResidual r) with
    | Some y => Some (Reynolds r, y)
    | None => None
    end
  else None.

(** The points of the residual panel, in table order. *)
Definition residual_points `{Pandas} (df : DataFrame) : list (Z * float) :=
  omap residual_point df.

(** The line of the residual panel: the points' Reynolds numbers against
    their residuals, and no line at all without a point. *)
Definition residual_line `{Pandas} (df : DataFrame) : option (Line Z) :=
  match residual_points df with
  | [] => None
  | pts => Some {| line_x := map fst pts; line_y := map snd pts |}
  end.

(** The report text before and after the generation timestamp. *)
Definition stamp_open : string :=
  "        <p class=" ++ dq ++ "timestamp" ++ dq ++ ">Generated on: ".

Definition before_stamp : string :=
  Report.nl ++
  join (map (fun l => l ++ Report.nl)
            (firstn 24 (Report.html_head_lines "" "" "" "" ""))) ++
  stamp_open.

Definition after_stamp (total_cases success_rate successful_cases avg_runtime : string)
  : string :=
  "</p>" ++ Report.nl ++
  join (map (fun l => l ++ Report.nl)
            (skipn 25 (Report.html_head_lines "" total_cases success_rate
                                              successful_cases avg_runtime))).

(** The synthesized grid of the velocity plotter. *)
Definition grid : list float := Plots.linspace 0 1 50.

(** The U profile at one sample point. *)
Definition u_at `{Numpy} (reynolds_num : Z) (y : float) : float :=
  if reynolds_num <=? 100 then (0.8 * np_sin (Plots.np_pi * y))%float
  else (np_sin (Plots.np_pi * y)
        * (1 - np_exp (F64.nearest_ratio (- reynolds_num) 1000)))%float.

(** The files the report generator reads and writes. *)
Definition summary_path (results_dir : string) : string :=
  joinpath results_dir "summary.csv".

Definition report_path (results_dir : string) : string :=
  joinpath results_dir "parametric_study_report.html".

(** The report step can run in [w]: the summary table [df] is there, the
    results directory is a directory, and the report path is not one. *)
Definition report_ready (results_dir : string) (df : DataFrame) (w : world) : Prop :=
  files w !! summary_path results_dir = Some (File (Csv (Parsed df)))
  /\ files w !! results_dir = Some Dir
  /\ files w !! report_path results_dir <> Some Dir.

(** The images the plot generator writes. *)
Definition residuals_image (output_dir : string) (reynolds_num : Z) : string :=
  joinpath output_dir (Plots.residuals_name reynolds_num).

Definition velocity_image (output_dir : string) (reynolds_num : Z) : string :=
  joinpath output_dir (Plots.velocity_name reynolds_num).

(** The velocity figure with the profile [u] and a zero V profile. *)
Definition velocity_figure (reynolds_num : Z) (u : list float) : figure :=
  FigVelocity
    {| vel_label := "Re = " ++ str_of_Z reynolds_num;
       vel_U := {| line_x := u; line_y := grid |};
       vel_V := {| line_x := repeat 0%float 50; line_y := grid |} |}.

Definition plots_dir (case_dir : string) : string := joinpath case_dir "plots".

(** The world after the plot generator announced its case. *)
Definition announce (case_dir : string) (reynolds_num : Z) (w : world) : world :=
  World (files w)
        (stdout w ++ ["Generating plots for case: " ++ case_dir ++ ", Re = "
                      ++ str_of_Z reynolds_num])
        (clock w).

(** Both plot operations ran and returned success. *)
Definition both_succeed `{Numpy} (argv : list string) (w : world) : Prop :=
  exists prog case_dir s n w1 w2 w3,
    argv = [prog; case_dir; s]
    /\ int_of_str s = Ok n
    /\ Plots.mkdir_exist_ok case_dir "plots" w = (Ok tt, w1)
    /\ Plots.plot_residuals case_dir n (plots_dir case_dir) (announce case_dir n w1)
       = (Ok true, w2)
    /\ Plots.plot_velocity_profile case_dir n (plots_dir case_dir) w2 = (Ok true, w3).

End Spec.

(** ** Sample worlds *)

Module Samples.

Definition table : DataFrame :=
  [ {| Reynolds := 100; Status := "SUCCESS"; Runtime := 12.5%float;
       FinalResidual := Num 0.0005%float |};
    {| Reynolds := 500; Status := "SUCCESS"; Runtime := 20%float;
       FinalResidual := Text "abc" |};
    {| Reynolds := 1000; Status := "FAILED"; Runtime := PrimFloat.nan;
       FinalResidual := Num PrimFloat.nan |};
    {| Reynolds := 2000; Status := "SUCCESS"; Runtime := 31.25%float;
       FinalResidual := Text "5e-05" |} ].

(** A results directory with no summary file. *)
Definition empty_results : world :=
  World (<["results" := Dir]> ∅) [] "2024-01-01 00:00:00".

(** A results directory with a summary table of four rows. *)
Definition results : world :=
  World (<["results/summary.csv" := File (Csv (Parsed table))]>
           (<["results" := Dir]> ∅)) [] "2024-01-01 00:00:00".

Definition log : list (list float) :=
  [ [1; 2; 3]%float; [0.1; 0.01; 0.001]%float;
    [0.2; 0.02; 0.002]%float; [0.5; 0.05; 0.005]%float ].

(** A case directory with a residual log of three iterations. *)
Definition case : world :=
  World (<["case/postProcessing/residuals/0/residuals.dat" := File (ResidualLog (Parsed log))]>
           (<["case/plots" := Dir]> (<["case" := Dir]> ∅))) [] "2024-01-01 00:00:00".

End Samples.

(** ** Which files a run may touch, and what a run needs *)

Module Runs.

(** The computation [c] changes no file outside [allowed]. *)
Definition only_touches {A} (allowed : string -> Prop) (c : M A) : Prop :=
  forall (w : world) (p : string),
    ~ allowed p -> files (snd (c w)) !! p = files w !! p.

(** The computation [c] never ends in [sys.exit]. *)
Definition never_exits {A} (c : M A) : Prop :=
  forall (w : world) (code : Z), fst (c w) <> Raise (SystemExit code).

(** The chart the report generator writes. *)
Definition summary_image (results_dir : string) : string :=
  joinpath results_dir "parametric_study_summary.png".

(** The two outputs of the report generator. *)
Definition report_outputs (results_dir : string) (p : string) : Prop :=
  p = summary_image results_dir \/ p = Spec.report_path results_dir.

(** The outputs of the plot generator: the plots directory and, once the
    Reynolds number has parsed, the two images. *)
Definition plot_outputs (case_dir s : string) (p : string) : Prop :=
  p = Spec.plots_dir case_dir
  \/ exists n, int_of_str s = Ok n
               /\ (p = Spec.residuals_image (Spec.plots_dir case_dir) n
                   \/ p = Spec.velocity_image (Spec.plots_dir case_dir) n).

(** The chart step can run in [w]: the summary table [df] is there and
    has a row, the results directory is a directory and the chart path is
    not one. *)
Definition chart_ready (results_dir : string) (df : DataFrame) (w : world) : Prop :=
  files w !! Spec.summary_path results_dir = Some (File (Csv (Parsed df)))
  /\ df <> []
  /\ files w !! results_dir = Some Dir
  /\ files w !! summary_image results_dir <> Some Dir.

(** The figure of the summary chart, panel by panel. *)
Definition summary_figure `{Pandas} (df : DataFrame) : SummaryFigure :=
  let ok := Report.with_status "SUCCESS" df in
  {| sum_pie := Report.value_counts (map Status df);
     sum_runtime :=
       match ok with
       | [] => None
       | _ => Some {| line_x := map Reynolds ok; line_y := map Runtime ok |}
       end;
     sum_residual := Spec.residual_line df;
     sum_bars := Report.performance_data df |}.

(** The residual plot can be rendered in [w]: the log parses into four
    columns of one length, the output directory is there, the image name is
    not longer than the file system takes, and the image path is not a
    directory. *)
Definition residuals_renderable (case_dir : string) (n : Z) (out : string)
    (w : world) : Prop :=
  exists time ux uy p,
    files w !! Plots.residuals_path case_dir
      = Some (File (ResidualLog (Parsed [time; ux; uy; p])))
    /\ length time = length ux /\ length time = length uy
    /\ length time = length p
    /\ files w !! out = Some Dir
    /\ name_fits (Plots.residuals_name n) = true
    /\ files w !! Spec.residuals_image out n <> Some Dir.

(** An image can be written at [joinpath out name]: the directory is
    there, the name is not longer than the file system takes, and the path
    is not a directory. *)
Definition writable (out name : string) (w : world) : Prop :=
  files w !! out = Some Dir
  /\ name_fits name = true
  /\ files w !! joinpath out name <> Some Dir.

(** The plot generator can write into the case: the case directory is
    there, the plots directory is there or can be made, the image names are
    not longer than the file system takes (the velocity image has the
    longer name of the two), and no image path is taken by a directory. *)
Definition case_ready (case_dir : string) (n : Z) (w : world) : Prop :=
  files w !! case_dir = Some Dir
  /\ (files w !! Spec.plots_dir case_dir = None
      \/ files w !! Spec.plots_dir case_dir = Some Dir)
  /\ name_fits (Plots.velocity_name n) = true
  /\ files w !! Spec.residuals_image (Spec.plots_dir case_dir) n <> Some Dir
  /\ files w !! Spec.velocity_image (Spec.plots_dir case_dir) n <> Some Dir.

(** The velocity image of a run. *)
Definition velocity_file `{Numpy} (n : Z) : node :=
  File (Png (Spec.velocity_figure n (map (Spec.u_at n) Spec.grid))).

(** A status of the summary table's vocabulary. *)
Definition known_status (s : string) : Prop :=
  s = "SUCCESS" \/ s = "FAILED" \/ s = "CONVERGED_POOR".

End Runs.

Module MoreSamples.

(** A results directory whose summary file pandas cannot read. *)
Definition broken_results : world :=
  World (<["results/summary.csv" :=
             File (Csv (Unreadable EmptyDataError "No columns to parse from file"))]>
           (<["results" := Dir]> ∅)) [] "2024-01-01 00:00:00".

(** A case directory without a residual log and without a plots directory. *)
Definition bare_case : world :=
  World (<["case" := Dir]> ∅) [] "2024-01-01 00:00:00".

(** A results directory whose summary file has the header line and no
    row. *)
Definition header_only : world :=
  World (<["results/summary.csv" := File (Csv (Parsed []))]>
           (<["results" := Dir]> ∅)) [] "2024-01-01 00:00:00".


End MoreSamples.

(** * Proofs *)

Section Digits.

Lemma digits2_pos_log2 (p : positive) :
  Zpos (digits2_pos p) = Z.log2 (Zpos p) + 1.
Proof.
  induction p as [p IH | p IH |]; cbn [digits2_pos]; try reflexivity.
  - rewrite Pos2Z.inj_succ, IH.
    change (Z.pos p~1) with (2 * Z.pos p + 1).
    rewrite Z.log2_succ_double by lia. lia.
  - rewrite Pos2Z.inj_succ, IH.
    change (Z.pos p~0) with (2 * Z.pos p).
    rewrite Z.log2_double by lia. lia.
Qed.

Lemma Zdigits2_nonneg (x : Z) : 0 <= Zdigits2 x.
Proof. destruct x; cbn; lia. Qed.

Lemma Zdigits2_bound (x k : Z) :
  0 <= x -> 0 <= k -> x < 2 ^ k -> Zdigits2 x <= k.
Proof.
  intros Hx Hk Hlt. destruct x as [| p | p]; cbn [Zdigits2]; try lia.
  rewrite digits2_pos_log2.
  assert (Z.log2 (Z.pos p) < k) by (apply Z.log2_lt_pow2; lia). lia.
Qed.

Lemma Zdigits2_succ (x : Z) : 0 <= x -> Zdigits2 (x + 1) <= Zdigits2 x + 1.
Proof.
  intros Hx. destruct x as [| p | p]; try lia.
  - cbv. discriminate.
  - change (Z.pos p + 1) with (Z.pos (p + 1)). cbn [Zdigits2].
    rewrite !digits2_pos_log2.
    pose proof (Z.log2_succ_le (Z.pos p)).
    replace (Z.pos (p + 1)) with (Z.succ (Z.pos p)) by lia. lia.
Qed.

Lemma shr_1_digits (mrs : shr_record) :
  Zdigits2 (shr_m (shr_1 mrs)) = Z.max 0 (Zdigits2 (shr_m mrs) - 1).
Proof.
  destruct mrs as [m r s]. destruct m as [| [p | p |] | [p | p |]];
    cbn [shr_1 shr_m Zdigits2 digits2_pos]; lia.
Qed.

Lemma shr_1_nonneg (mrs : shr_record) : 0 <= shr_m mrs -> 0 <= shr_m (shr_1 mrs).
Proof.
  destruct mrs as [m r s]. destruct m as [| [p | p |] | [p | p |]];
    cbn [shr_1 shr_m]; lia.
Qed.

Lemma iter_shr_1 (p : positive) (mrs : shr_record) :
  0 <= shr_m mrs ->
  0 <= shr_m (SpecFloat.iter_pos shr_1 p mrs) /\
  Zdigits2 (shr_m (SpecFloat.iter_pos shr_1 p mrs)) = Z.max 0 (Zdigits2 (shr_m mrs) - Zpos p).
Proof.
  revert mrs. induction p as [p IH | p IH |]; intros mrs Hm; cbn [SpecFloat.iter_pos].
  - pose proof (shr_1_nonneg mrs Hm) as H1.
    pose proof (shr_1_digits mrs) as D1.
    destruct (IH _ H1) as [H2 D2]. destruct (IH _ H2) as [H3 D3].
    split; [exact H3 | rewrite D3, D2, D1; lia].
  - destruct (IH _ Hm) as [H2 D2]. destruct (IH _ H2) as [H3 D3].
    split; [exact H3 | rewrite D3, D2; lia].
  - split; [apply shr_1_nonneg; exact Hm | rewrite shr_1_digits; lia].
Qed.

Lemma shr_record_of_loc_m (m : Z) (l : location) : shr_m (shr_record_of_loc m l) = m.
Proof. destruct l as [| []]; reflexivity. Qed.

Lemma shr_fexp_spec (m e : Z) (l : location) :
  0 <= m ->
  let n := fexp prec emax (Zdigits2 m + e) - e in
  let r := shr_fexp prec emax m e l in
  snd r = Z.max e (e + n) /\
  0 <= shr_m (fst r) /\
  Zdigits2 (shr_m (fst r)) + snd r <= Z.max (Zdigits2 m + e) (e + n).
Proof.
  intros Hm n r. subst r. unfold shr_fexp. fold n.
  pose proof (Zdigits2_nonneg m) as Hd.
  unfold shr. destruct n as [| p | p] eqn:En; cbn [fst snd];
    rewrite ?shr_record_of_loc_m. all: try (repeat split; lia).
  pose proof (iter_shr_1 p (shr_record_of_loc m l)) as HI.
  rewrite shr_record_of_loc_m in HI. destruct (HI Hm) as [H1 H2].
  repeat split; lia.
Qed.

Lemma round_nearest_even_bounds (m : Z) (l : location) :
  0 <= m -> 0 <= round_nearest_even m l /\
            Zdigits2 (round_nearest_even m l) <= Zdigits2 m + 1.
Proof.
  intros Hm. pose proof (Zdigits2_succ m Hm).
  destruct l as [| []]; cbn [round_nearest_even]; try (split; lia).
  destruct (Z.even m); split; lia.
Qed.

Lemma binary_round_aux_finite (s : bool) (mx ex : Z) (lx : location) :
  0 <= mx -> ex <= 0 -> Zdigits2 mx + ex <= 1023 ->
  F64.is_inf_sf (binary_round_aux prec emax s mx ex lx) = false.
Proof.
  intros Hm He Hd. unfold binary_round_aux.
  pose proof (shr_fexp_spec mx ex lx Hm) as S1. cbv zeta in S1.
  destruct (shr_fexp prec emax mx ex lx) as [mrs1 e1]. cbn [fst snd] in S1.
  destruct S1 as (E1 & N1 & D1).
  destruct (round_nearest_even_bounds (shr_m mrs1) (loc_of_shr_record mrs1) N1)
    as [N2 D2].
  pose proof (shr_fexp_spec _ e1 loc_Exact N2) as S2. cbv zeta in S2.
  destruct (shr_fexp prec emax _ e1 loc_Exact) as [mrs2 e2]. cbn [fst snd] in S2.
  destruct S2 as (E2 & _ & _).
  destruct (shr_m mrs2); try reflexivity.
  destruct (Z.leb_spec e2 (emax - prec)) as [_ | Hbig]; [reflexivity | exfalso].
  unfold fexp, emin, emax, prec in *. lia.
Qed.

Lemma round_ratio_finite (s : bool) (p q k : Z) :
  0 <= p -> 0 < q -> 0 <= k <= 1023 -> p < 2 ^ k * q ->
  F64.is_inf_sf (F64.round_ratio s p q) = false.
Proof.
  intros Hp Hq Hk Hlt. unfold F64.round_ratio, SFdiv_core_binary.
  set (e' := Z.min (fexp prec emax (Zdigits2 p + 0 - (Zdigits2 q + 0))) (0 - 0)).
  assert (He : e' <= 0) by (subst e'; lia).
  set (m' := match 0 - 0 - e' with
             | 0 => p | Z.pos _ => Z.shiftl p (0 - 0 - e') | Z.neg _ => 0 end).
  assert (Hm' : m' = p * 2 ^ (- e')).
  { subst m'. replace (0 - 0 - e') with (- e') by lia.
    destruct e' as [| n | n].
    1: { change (p = p * 1). lia. }
    1: { exfalso. lia. }
    cbn [Z.opp]. rewrite Z.shiftl_mul_pow2 by lia. reflexivity. }
  assert (Hdiv : fst (Z.div_eucl m' q) = m' / q) by reflexivity.
  destruct (Z.div_eucl m' q) as [mz r]. cbn [fst] in Hdiv. subst mz.
  assert (Hpow : 0 < 2 ^ (- e')) by (apply Z.pow_pos_nonneg; lia).
  assert (H0 : 0 <= m' / q) by (apply Z.div_pos; nia).
  apply binary_round_aux_finite; try assumption.
  assert (Zdigits2 (m' / q) <= k + - e'); [| lia].
  apply Zdigits2_bound; try lia.
  apply Z.div_lt_upper_bound; [lia |].
  rewrite Z.pow_add_r by lia. rewrite Hm'. nia.
Qed.

End Digits.

Section Overflow.

(** The limit of the binary64 range for a correctly rounded quotient: the
    midpoint between the largest finite value and [2^1024]. *)

Lemma Zdigits2_exact (x k : Z) :
  0 < k -> 2 ^ (k - 1) <= x < 2 ^ k -> Zdigits2 x = k.
Proof.
  intros Hk [Hlo Hhi].
  assert (Hx : 0 < x) by (pose proof (Z.pow_pos_nonneg 2 (k - 1)); lia).
  destruct x as [| p | p]; try lia. cbn [Zdigits2].
  rewrite digits2_pos_log2.
  rewrite (Z.log2_unique (Z.pos p) (k - 1)); try lia.
  replace (Z.succ (k - 1)) with k by lia. lia.
Qed.

Lemma Zdigits2_range (x : Z) :
  0 < x -> 2 ^ (Zdigits2 x - 1) <= x < 2 ^ Zdigits2 x.
Proof.
  intros Hx. destruct x as [| p | p]; try lia. cbn [Zdigits2].
  rewrite digits2_pos_log2.
  pose proof (Z.log2_spec (Z.pos p) Hx) as Hs.
  replace (Z.log2 (Z.pos p) + 1 - 1) with (Z.log2 (Z.pos p)) by lia.
  replace (Z.log2 (Z.pos p) + 1) with (Z.succ (Z.log2 (Z.pos p))) by lia.
  exact Hs.
Qed.

Lemma shr_1_value (mrs : shr_record) :
  0 <= shr_m mrs ->
  shr_m (shr_1 mrs) = shr_m mrs / 2 /\ shr_r (shr_1 mrs) = Z.odd (shr_m mrs).
Proof.
  destruct mrs as [m r s]. cbn [shr_m]. intros Hm.
  destruct m as [| [p | p |] | p]; [| | | | lia]; cbn [shr_1 shr_m shr_r].
  - split; reflexivity.
  - split; [| reflexivity].
    now rewrite <- Z.div2_div.
  - split; [| reflexivity].
    now rewrite <- Z.div2_div.
  - split; reflexivity.
Qed.

Lemma iter_shr_1_value (p : positive) (mrs : shr_record) :
  0 <= shr_m mrs ->
  shr_m (SpecFloat.iter_pos shr_1 p mrs) = shr_m mrs / 2 ^ Z.pos p
  /\ shr_r (SpecFloat.iter_pos shr_1 p mrs) = Z.testbit (shr_m mrs) (Z.pos p - 1).
Proof.
  revert mrs. induction p as [p IH | p IH |]; intros mrs Hm; cbn [SpecFloat.iter_pos].
  - destruct (shr_1_value mrs Hm) as [V1 _].
    pose proof (shr_1_nonneg mrs Hm) as N1.
    destruct (IH _ N1) as [V2 _].
    destruct (iter_shr_1 p _ N1) as [N2 _].
    destruct (IH _ N2) as [V3 R3].
    rewrite V3, R3, V2, V1.
    assert (Hpow : 2 ^ Z.pos p~1 = 2 * (2 ^ Z.pos p * 2 ^ Z.pos p)).
    { rewrite Pos2Z.inj_xI.
      replace (2 * Z.pos p + 1) with (1 + Z.pos p + Z.pos p) by lia.
      rewrite !Z.pow_add_r, Z.pow_1_r by lia. ring. }
    assert (H2p : 0 < 2 ^ Z.pos p) by (apply Z.pow_pos_nonneg; lia).
    split.
    + rewrite !Z.div_div by nia. now rewrite Hpow.
    + change (shr_m mrs / 2) with (shr_m mrs / 2 ^ 1).
      rewrite Z.div_div by nia.
      rewrite <- Z.pow_add_r by lia.
      rewrite Z.div_pow2_bits by lia. f_equal. lia.
  - destruct (IH _ Hm) as [V2 _].
    destruct (iter_shr_1 p _ Hm) as [N2 _].
    destruct (IH _ N2) as [V3 R3].
    rewrite V3, R3, V2.
    assert (H2p : 0 < 2 ^ Z.pos p) by (apply Z.pow_pos_nonneg; lia).
    split.
    + rewrite Z.div_div by lia.
      f_equal. rewrite <- Z.pow_add_r by lia. f_equal. lia.
    + rewrite Z.div_pow2_bits by lia. f_equal. lia.
  - destruct (shr_1_value mrs Hm) as [V1 R1]. rewrite V1, R1. split.
    + reflexivity.
    + now rewrite Z.bit0_odd.
Qed.

(** What [shr_fexp] leaves of a mantissa: the mantissa divided by the power
    of two it shifted out, the shifted exponent, and the last bit shifted
    out. *)
Lemma shr_fexp_value (m e : Z) (l : location) :
  0 <= m ->
  let n := fexp prec emax (Zdigits2 m + e) - e in
  let r := shr_fexp prec emax m e l in
  shr_m (fst r) = m / 2 ^ Z.max 0 n
  /\ snd r = Z.max e (e + n)
  /\ (0 < n -> shr_r (fst r) = Z.testbit m (n - 1)).
Proof.
  intros Hm n r. subst r. unfold shr_fexp. fold n. unfold shr.
  destruct n as [| p | p] eqn:En; cbn [fst snd]; rewrite ?shr_record_of_loc_m.
  - change (Z.max 0 0) with 0. rewrite Z.div_1_r. repeat split; lia.
  - pose proof (iter_shr_1_value p (shr_record_of_loc m l)) as HI.
    rewrite shr_record_of_loc_m in HI. destruct (HI Hm) as [V R].
    rewrite V, R. replace (Z.max 0 (Z.pos p)) with (Z.pos p) by lia.
    repeat split; lia.
  - replace (Z.max 0 (Z.neg p)) with 0 by lia. rewrite Z.div_1_r.
    repeat split; lia.
Qed.

Lemma round_nearest_even_cases (m : Z) (mrs : shr_record) :
  round_nearest_even m (loc_of_shr_record mrs) = m
  \/ (round_nearest_even m (loc_of_shr_record mrs) = m + 1 /\ shr_r mrs = true).
Proof.
  destruct mrs as [m0 [] []]; cbn [loc_of_shr_record round_nearest_even shr_r];
    try (left; reflexivity); try (right; split; reflexivity).
  destruct (Z.even m); [left | right]; try split; reflexivity.
Qed.

Lemma round_nearest_even_odd (m : Z) (mrs : shr_record) :
  Z.odd m = true -> shr_r mrs = true ->
  round_nearest_even m (loc_of_shr_record mrs) = m + 1.
Proof.
  intros Hodd Hr. destruct mrs as [m0 r s]. cbn [shr_r] in Hr. subst r.
  rewrite <- Z.negb_even in Hodd. apply negb_true_iff in Hodd.
  destruct s; cbn [loc_of_shr_record round_nearest_even]; [reflexivity |].
  now rewrite Hodd.
Qed.

(** A mantissa at exponent zero rounds to an infinity exactly from
    [2^1024 - 2^970] on. *)
Lemma binary_round_aux_inf (s : bool) (mx : Z) (lx : location) :
  0 <= mx ->
  F64.is_inf_sf (binary_round_aux prec emax s mx 0 lx)
  = (2 ^ 1024 - 2 ^ 970 <=? mx).
Proof.
  intros Hm.
  destruct (Z.lt_ge_cases mx (2 ^ 1023)) as [Hsmall | Hbig].
  { pose proof (Zdigits2_bound mx 1023 Hm ltac:(lia) Hsmall) as Hd.
    rewrite binary_round_aux_finite by lia.
    symmetry. apply Z.leb_gt. lia. }
  assert (Hpos : 0 < mx) by lia.
  pose proof (Zdigits2_range mx Hpos) as Hrange.
  set (d := Zdigits2 mx) in *.
  assert (Hd : 1024 <= d).
  { destruct (Z.lt_ge_cases d 1024) as [Hlt | ?]; [| assumption].
    assert (2 ^ d <= 2 ^ 1023) by (apply Z.pow_le_mono_r; lia). lia. }
  unfold binary_round_aux.
  pose proof (shr_fexp_value mx 0 lx Hm) as S1. cbv zeta in S1. fold d in S1.
  destruct (shr_fexp prec emax mx 0 lx) as [mrs1 e1]. cbn [fst snd] in S1.
  replace (fexp prec emax (d + 0) - 0) with (d - 53) in S1
    by (unfold fexp, emin, emax, prec; lia).
  replace (Z.max 0 (d - 53)) with (d - 53) in S1 by lia.
  destruct S1 as (V1 & E1 & R1). specialize (R1 ltac:(lia)).
  replace (Z.max 0 (0 + (d - 53))) with (d - 53) in E1 by lia.
  assert (Hm1 : 2 ^ 52 <= shr_m mrs1 < 2 ^ 53).
  { rewrite V1. split.
    - apply Z.div_le_lower_bound; [apply Z.pow_pos_nonneg; lia |].
      rewrite <- Z.pow_add_r by lia. replace (d - 53 + 52) with (d - 1) by lia. lia.
    - apply Z.div_lt_upper_bound; [apply Z.pow_pos_nonneg; lia |].
      rewrite <- Z.pow_add_r by lia. replace (d - 53 + 53) with d by lia. lia. }
  set (m1 := shr_m mrs1) in *.
  (* the last two bits above the cut: [t = 2 * m1 + r1] *)
  set (k := d - 54).
  set (t := mx / 2 ^ k).
  assert (H2k : 2 ^ 970 <= 2 ^ k) by (apply Z.pow_le_mono_r; lia).
  assert (Ht : m1 = t / 2 /\ Z.b2z (shr_r mrs1) = t mod 2).
  { split.
    - subst t. rewrite V1. change 2 with (2 ^ 1) at 3.
      rewrite Z.div_div, <- Z.pow_add_r by lia.
      f_equal. f_equal. lia.
    - rewrite R1. subst t k. replace (d - 53 - 1) with (d - 54) by lia.
      apply Z.testbit_spec'. lia. }
  destruct Ht as [Hm1t Hr1t].
  assert (Htsplit : t = 2 * m1 + Z.b2z (shr_r mrs1)).
  { rewrite Hm1t, Hr1t. apply Z.div_mod. lia. }
  assert (Htlo : 2 ^ k * t <= mx) by (subst t; apply Z.mul_div_le; lia).
  assert (Hthi : mx < 2 ^ k * (t + 1)).
  { subst t. pose proof (Z.mod_pos_bound mx (2 ^ k) ltac:(lia)).
    pose proof (Z.div_mod mx (2 ^ k) ltac:(lia)). lia. }
  set (rounded := round_nearest_even m1 (loc_of_shr_record mrs1)).
  assert (Hrounded : 2 ^ 52 <= rounded <= 2 ^ 53).
  { subst rounded.
    destruct (round_nearest_even_cases m1 mrs1) as [-> | [-> _]]; lia. }
  assert (N2 : 0 <= rounded) by lia.
  pose proof (shr_fexp_value rounded e1 loc_Exact N2) as S2. cbv zeta in S2.
  destruct (shr_fexp prec emax rounded e1 loc_Exact) as [mrs2 e2]. cbn [fst snd] in S2.
  destruct S2 as (V2 & E2 & _).
  destruct (Z.eq_dec rounded (2 ^ 53)) as [Htop | Hnot].
  - (* the mantissa carried into a 54th bit *)
    assert (Hcarry : m1 = 2 ^ 53 - 1 /\ shr_r mrs1 = true).
    { subst rounded.
      destruct (round_nearest_even_cases m1 mrs1) as [Heq | [Heq Hr]];
        rewrite Heq in Htop; [lia | split; [lia | exact Hr]]. }
    destruct Hcarry as [Hm1eq Hr1].
    rewrite Htop in V2, E2.
    replace (Zdigits2 (2 ^ 53)) with 54 in V2, E2 by reflexivity.
    replace (fexp prec emax (54 + e1) - e1) with 1 in V2, E2
      by (unfold fexp, emin, emax, prec; lia).
    change (2 ^ 53 / 2 ^ Z.max 0 1) with (2 ^ 52) in V2.
    rewrite V2. change (2 ^ 52) with (Z.pos (2 ^ 52)).
    assert (He2 : e2 = d - 52) by lia.
    destruct (Z.leb_spec e2 (emax - prec)) as [Hle | Hgt].
    + unfold emax, prec in Hle. lia.
    + cbn [F64.is_inf_sf]. symmetry. apply Z.leb_le.
      rewrite Hr1 in Htsplit. cbn [Z.b2z] in Htsplit.
      assert (t = 2 ^ 54 - 1) by lia.
      assert (2 ^ 970 * t <= 2 ^ k * t) by (apply Z.mul_le_mono_nonneg_r; lia).
      lia.
  - assert (Hdig : Zdigits2 rounded = 53) by (apply Zdigits2_exact; lia).
    rewrite Hdig in V2, E2.
    replace (fexp prec emax (53 + e1) - e1) with 0 in V2, E2
      by (unfold fexp, emin, emax, prec; lia).
    change (Z.max 0 0) with 0 in V2. rewrite Z.div_1_r in V2.
    rewrite V2. destruct rounded as [| r | r] eqn:Er; try lia.
    assert (He2 : e2 = d - 53) by lia.
    destruct (Z.leb_spec e2 (emax - prec)) as [Hle | Hgt].
    + unfold emax, prec in Hle. assert (Hd1024 : d = 1024) by lia.
      cbn [F64.is_inf_sf]. symmetry. apply Z.leb_gt.
      destruct (Z.lt_ge_cases mx (2 ^ 1024 - 2 ^ 970)) as [? | Hover];
        [assumption | exfalso].
      assert (Hpk : 2 ^ k = 2 ^ 970) by (f_equal; subst k; lia).
      assert (Htge : 2 ^ 54 - 1 <= t).
      { subst t. rewrite Hpk. apply Z.div_le_lower_bound; lia. }
      assert (Htlt : t < 2 ^ 54).
      { subst t. rewrite Hpk. apply Z.div_lt_upper_bound; [lia |].
        rewrite Hd1024 in Hrange. lia. }
      assert (Hteq : t = 2 ^ 54 - 1) by lia.
      assert (Hm1eq : m1 = 2 ^ 53 - 1) by (rewrite Hm1t, Hteq; reflexivity).
      assert (Hr1 : shr_r mrs1 = true).
      { destruct (shr_r mrs1); [reflexivity |]. cbn [Z.b2z] in Htsplit. lia. }
      assert (Hodd : Z.odd m1 = true) by (rewrite Hm1eq; reflexivity).
      pose proof (round_nearest_even_odd m1 mrs1 Hodd Hr1) as Hup.
      fold rounded in Hup. rewrite Er in Hup. lia.
    + cbn [F64.is_inf_sf]. symmetry. apply Z.leb_le.
      unfold emax, prec in Hgt.
      assert (2 ^ 1024 <= 2 ^ (d - 1)) by (apply Z.pow_le_mono_r; lia). lia.
Qed.

(** The quotient [p / q] rounds to an infinity exactly from
    [(2^1024 - 2^970) * q] on. *)
Lemma round_ratio_inf (s : bool) (p q : Z) :
  0 <= p -> 0 < q ->
  F64.is_inf_sf (F64.round_ratio s p q) = ((2 ^ 1024 - 2 ^ 970) * q <=? p).
Proof.
  intros Hp Hq.
  destruct (Z.lt_ge_cases p (2 ^ 1023 * q)) as [Hsmall | Hbig].
  { rewrite (round_ratio_finite s p q 1023) by lia.
    symmetry. apply Z.leb_gt. nia. }
  assert (Hppos : 0 < p) by nia.
  pose proof (Zdigits2_range p Hppos) as Rp.
  pose proof (Zdigits2_range q Hq) as Rq.
  pose proof (Zdigits2_nonneg q) as Nq.
  assert (Hdq : 0 < Zdigits2 q).
  { destruct (Z.eq_dec (Zdigits2 q) 0) as [E | ?]; [| lia].
    rewrite E in Rq. change (2 ^ 0) with 1 in Rq. lia. }
  assert (Hdd : 1023 + Zdigits2 q <= Zdigits2 p).
  { destruct (Z.lt_ge_cases (Zdigits2 p) (1023 + Zdigits2 q)) as [Hlt | ?];
      [exfalso | assumption].
    assert (2 ^ Zdigits2 p <= 2 ^ (1023 + (Zdigits2 q - 1)))
      by (apply Z.pow_le_mono_r; lia).
    rewrite Z.pow_add_r in * by lia. nia. }
  unfold F64.round_ratio, SFdiv_core_binary.
  replace (Z.min (fexp prec emax (Zdigits2 p + 0 - (Zdigits2 q + 0))) (0 - 0))
    with 0 by (unfold fexp, emin, emax, prec; lia).
  change (0 - 0 - 0) with 0. cbv iota.
  assert (Hdiv : fst (Z.div_eucl p q) = p / q) by reflexivity.
  destruct (Z.div_eucl p q) as [mz r]. cbn [fst] in Hdiv. subst mz.
  rewrite binary_round_aux_inf by (apply Z.div_pos; lia).
  destruct (Z.leb_spec ((2 ^ 1024 - 2 ^ 970) * q) p) as [Hle | Hgt].
  - apply Z.leb_le. apply Z.div_le_lower_bound; lia.
  - apply Z.leb_gt. apply Z.div_lt_upper_bound; lia.
Qed.

End Overflow.


Section Comparisons.

Lemma SFcompare_swap (x y : spec_float) :
  SFcompare y x = option_map CompOpp (SFcompare x y).
Proof.
  destruct x as [[] | [] | | [] mx ex], y as [[] | [] | | [] my ey];
    cbn [SFcompare option_map CompOpp]; try reflexivity;
    rewrite (Z.compare_antisym ex ey);
    destruct (ex ?= ey); cbn [CompOpp]; try reflexivity;
    rewrite (Pos.compare_cont_antisym mx my Eq); reflexivity.
Qed.

(** [x <= y] excludes [x > y]. *)
Lemma le_not_gt (x y : float) : F64.le x y = true -> F64.gt x y = false.
Proof.
  unfold F64.le, F64.gt. rewrite FloatAxioms.leb_spec, FloatAxioms.ltb_spec. unfold SFleb, SFltb.
  rewrite (SFcompare_swap (Prim2SF x) (Prim2SF y)).
  destruct (SFcompare (Prim2SF x) (Prim2SF y)) as [[] |]; cbn; congruence.
Qed.

(** A residual at most [1e-4] is not above [1e-3]. *)
Lemma le_1e4_not_gt_1e3 (x : float) :
  F64.le x 0.0001 = true -> F64.gt x 0.001 = false.
Proof.
  unfold F64.le, F64.gt. rewrite FloatAxioms.leb_spec, FloatAxioms.ltb_spec. unfold SFleb, SFltb.
  change (Prim2SF 0.0001) with (S754_finite false 7378697629483821 (-66)).
  change (Prim2SF 0.001) with (S754_finite false 4611686018427388 (-62)).
  destruct (Prim2SF x) as [[] | [] | | [] m e]; cbn [SFcompare]; try congruence.
  destruct (Z.compare_spec e (-66)); try congruence;
    destruct (Z.compare_spec (-62) e); try congruence; lia.
Qed.

Lemma SFmul_comm (x y : spec_float) : SF64mul x y = SF64mul y x.
Proof.
  unfold SF64mul.
  destruct x as [[] | [] | | [] mx ex], y as [[] | [] | | [] my ey];
    cbn [SFmul xorb]; try reflexivity;
    rewrite (Pos.mul_comm mx my), (Z.add_comm ex ey); reflexivity.
Qed.

Lemma mul_comm (x y : float) : (x * y)%float = (y * x)%float.
Proof.
  apply Prim2SF_inj. rewrite !mul_spec. apply SFmul_comm.
Qed.

End Comparisons.


(** *** The success rate and the average runtime *)

Lemma length_with_status (s : string) (df : DataFrame) :
  length (Report.with_status s df) = count_occ string_dec (map Status df) s.
Proof.
  unfold Report.with_status, Report.is_status.
  induction df as [| r df IH]; [reflexivity |].
  cbn [List.filter map count_occ].
  destruct (String.eqb_spec (Status r) s) as [Heq | Hne];
    destruct (string_dec (Status r) s) as [Heq' | Hne']; try contradiction.
  - cbn [length]. now rewrite IH.
  - exact IH.
Qed.

Lemma successes_le_length (df : DataFrame) : (Spec.successes df <= length df)%nat.
Proof.
  unfold Spec.successes. rewrite <- (length_map Status df).
  apply count_occ_bound.
Qed.

Lemma int_truediv_part (a b : Z) :
  0 <= a <= b -> 0 < b -> int_truediv a b = Ok (F64.nearest_ratio a b).
Proof.
  intros Ha Hb. unfold int_truediv.
  destruct (Z.eqb_spec b 0) as [-> | _]; [lia |].
  unfold F64.nearest_ratio_sf.
  rewrite (round_ratio_finite _ (Z.abs a) (Z.abs b) 1); [reflexivity | lia.. |].
  change (2 ^ 1) with 2. lia.
Qed.

Lemma success_rate_value (df : DataFrame) :
  Report.success_rate df =
  Ok (if (length df =? 0)%nat then Int 0
      else Float (F64.nearest_ratio (Z.of_nat (Spec.successes df))
                                    (Z.of_nat (length df)) * 100)).
Proof.
  unfold Report.success_rate. rewrite length_with_status. fold (Spec.successes df).
  pose proof (successes_le_length df) as Hle.
  destruct (Nat.eqb_spec (length df) 0) as [-> | Hne]; [reflexivity |].
  destruct (Z.ltb_spec 0 (Z.of_nat (length df))) as [Hpos | ?]; [| lia].
  rewrite int_truediv_part by lia. reflexivity.
Qed.

(** C3: the reported success rate is the correctly rounded quotient of the
    number of SUCCESS rows by the number of rows, times 100; it is the
    integer 0, shown as 0.0, when the table has no rows, so no division by
    zero occurs; a table of 4 rows with 3 SUCCESS rows yields 75.0. *)
Theorem success_rate_correct (df : DataFrame) :
  Report.success_rate df =
    Ok (if (length df =? 0)%nat then Int 0
        else Float (F64.nearest_ratio (Z.of_nat (Spec.successes df))
                                      (Z.of_nat (length df)) * 100))
  /\ (length df = 0%nat -> Spec.reported_rate df = Ok "0.0")
  /\ (length df = 4%nat -> Spec.successes df = 3%nat ->
      Report.success_rate df = Ok (Float 75) /\ Spec.reported_rate df = Ok "75.0").
Proof.
  split; [apply success_rate_value |].
  unfold Spec.reported_rate. rewrite success_rate_value. split.
  - intros ->. reflexivity.
  - intros -> ->. split; reflexivity.
Qed.

Lemma with_status_nil (s : string) (df : DataFrame) :
  Report.with_status s df = [] <-> count_occ string_dec (map Status df) s = 0%nat.
Proof.
  rewrite <- length_with_status. destruct (Report.with_status s df); cbn; split;
    congruence.
Qed.

(** C4: with no SUCCESS row the average-runtime metric is the integer 0,
    shown as 0.0, and pandas' mean is not called; otherwise it is the mean of
    Runtime over the SUCCESS rows.  Formatting the metric never raises. *)
Theorem avg_runtime_correct `{Pandas} (df : DataFrame) :
  Report.avg_runtime df =
    (if (Spec.successes df =? 0)%nat then Int 0
     else Float (Series_mean (map Runtime (Report.with_status "SUCCESS" df))))
  /\ (Spec.successes df = 0%nat -> Spec.reported_runtime df = Ok "0.0")
  /\ returns (Spec.reported_runtime df).
Proof.
  assert (Hv : Report.avg_runtime df =
    (if (Spec.successes df =? 0)%nat then Int 0
     else Float (Series_mean (map Runtime (Report.with_status "SUCCESS" df))))).
  { unfold Report.avg_runtime, Spec.successes.
    rewrite <- length_with_status.
    destruct (Report.with_status "SUCCESS" df) as [| r rows]; reflexivity. }
  split; [exact Hv |]. unfold Spec.reported_runtime. rewrite Hv. split.
  - intros ->. reflexivity.
  - destruct (Spec.successes df =? 0)%nat; exact I.
Qed.

(** *** The convergence-quality label *)

Lemma is_nan_spec (x : float) : PrimFloat.is_nan x = true -> Prim2SF x = S754_nan.
Proof.
  unfold PrimFloat.is_nan. rewrite negb_true_iff, FloatAxioms.eqb_spec.
  unfold SFeqb.
  destruct (Prim2SF x) as [[] | [] | | [] m e]; cbn [SFcompare];
    rewrite ?Z.compare_refl, ?Pos.compare_cont_refl; cbn; congruence.
Qed.

(** NaN is above nothing. *)
Lemma nan_not_gt (x y : float) : PrimFloat.is_nan x = true -> F64.gt x y = false.
Proof.
  intros Hnan. unfold F64.gt. rewrite FloatAxioms.ltb_spec, (is_nan_spec x Hnan).
  unfold SFltb. now destruct (Prim2SF y).
Qed.

(** C2: the convergence-quality label.  The N/A sentinel, whether as the
    text itself or as the NaN the reader makes of it, gives Excellent;
    otherwise a value that parses gives Poor above 1e-3, Good above 1e-4 (and
    at most 1e-3) and Excellent at most 1e-4 (as whenever it is above
    neither threshold), and a value that does not parse gives Unknown.  The five sample residuals get the labels of the
    specification, both as numbers and as text cells. *)
Theorem convergence_quality_correct (c : cell) :
  (c = Text "N/A" -> Report.convergence_quality c = "Excellent")
  /\ (forall x, c = Num x -> PrimFloat.is_nan x = true ->
      Report.convergence_quality c = "Excellent")
  /\ (forall v, c <> Text "N/A" -> Report.float_of_cell c = Ok v ->
      (F64.gt v 0.001 = true -> Report.convergence_quality c = "Poor")
      /\ (F64.le v 0.001 = true -> F64.gt v 0.0001 = true ->
          Report.convergence_quality c = "Good")
      /\ (F64.le v 0.0001 = true -> Report.convergence_quality c = "Excellent")
      /\ (F64.gt v 0.001 = false -> F64.gt v 0.0001 = false ->
          Report.convergence_quality c = "Excellent"))
  /\ (c <> Text "N/A" -> raises (Report.float_of_cell c) ->
      Report.convergence_quality c = "Unknown")
  /\ Report.convergence_quality (Num 0.0005) = "Good"
  /\ Report.convergence_quality (Num 0.00005) = "Excellent"
  /\ Report.convergence_quality (Num 0.01) = "Poor"
  /\ Report.convergence_quality (Text "0.0005") = "Good"
  /\ Report.convergence_quality (Text "0.00005") = "Excellent"
  /\ Report.convergence_quality (Text "0.01") = "Poor"
  /\ Report.convergence_quality (Text "N/A") = "Excellent"
  /\ Report.convergence_quality (Num PrimFloat.nan) = "Excellent"
  /\ Report.convergence_quality (Text "abc") = "Unknown".
Proof.
  assert (Hs : c <> Text "N/A" -> Report.not_sentinel c = true).
  { destruct c as [x | s]; [reflexivity |]. cbn. intros Hne.
    destruct (String.eqb_spec s "N/A") as [-> | _]; [now destruct Hne | reflexivity]. }
  split; [intros ->; reflexivity |].
  split.
  { intros x -> Hnan. unfold Report.convergence_quality.
    cbn [Report.not_sentinel Report.float_of_cell].
    now rewrite !nan_not_gt. }
  split.
  { intros v Hne Hv. unfold Report.convergence_quality.
    rewrite (Hs Hne), Hv. repeat split.
    - intros ->. reflexivity.
    - intros H1 ->. now rewrite (le_not_gt _ _ H1).
    - intros H1. now rewrite (le_1e4_not_gt_1e3 _ H1), (le_not_gt _ _ H1).
    - intros -> ->. reflexivity. }
  split.
  { intros Hne Hr. unfold Report.convergence_quality. rewrite (Hs Hne).
    destruct (Report.float_of_cell c); [destruct Hr | reflexivity]. }
  repeat split; vm_compute; reflexivity.
Qed.


(** *** The residual panel *)

Section ResidualPanel.
Context `{Pandas}.

Lemma boolean_index_map {A} (f : A -> bool) (l : list A) :
  Report.boolean_index l (map f l) = List.filter f l.
Proof.
  unfold Report.boolean_index.
  induction l as [| a l IH]; [reflexivity |].
  cbn [map combine List.filter snd]. destruct (f a); cbn [map fst]; now rewrite IH.
Qed.

Lemma filter_map {A B} (g : A -> B) (f : B -> bool) (l : list A) :
  List.filter f (map g l) = map g (List.filter (fun a => f (g a)) l).
Proof.
  induction l as [| a l IH]; [reflexivity |].
  cbn [map List.filter]. destruct (f (g a)); cbn [map]; now rewrite IH.
Qed.

Lemma filter_filter {A} (f g : A -> bool) (l : list A) :
  List.filter g (List.filter f l) = List.filter (fun a => f a && g a) l.
Proof.
  induction l as [| a l IH]; [reflexivity |].
  cbn [List.filter]. destruct (f a); cbn [List.filter andb]; [| exact IH].
  destruct (g a); now rewrite IH.
Qed.

Lemma plot_same_length {X} (x : list X) (y : list float) :
  length x = length y -> plot x y = Ok {| line_x := x; line_y := y |}.
Proof. intros Hl. unfold plot. now rewrite Hl, Nat.eqb_refl. Qed.

(** The point of a row, as the code's mask and coercion compute it. *)
Lemma residual_point_code (r : Row) :
  Spec.residual_point r =
  if Report.is_status "SUCCESS" r then
    if F64.notna (Report.to_numeric (FinalResidual r))
    then Some (Reynolds r, Report.to_numeric (FinalResidual r))
    else None
  else None.
Proof.
  unfold Spec.residual_point, Report.is_status, Spec.parsed_number, F64.notna.
  destruct (String.eqb _ _); [| reflexivity].
  destruct (FinalResidual r); cbn [Report.to_numeric];
    destruct (PrimFloat.is_nan _); reflexivity.
Qed.

(** The rows that the code's mask selects and the values that its
    [dropna] keeps are the points of the panel, row by row. *)
Lemma selected_points (df : DataFrame) :
  let ok := Report.with_status "SUCCESS" df in
  let residuals := map Report.to_numeric (map FinalResidual ok) in
  map Reynolds (Report.boolean_index ok (map F64.notna residuals))
  = map fst (Spec.residual_points df)
  /\ List.filter F64.notna residuals = map snd (Spec.residual_points df).
Proof.
  cbv zeta. rewrite !map_map, boolean_index_map.
  unfold Report.with_status, Spec.residual_points.
  induction df as [| r df [IHx IHy]]; [split; reflexivity |].
  cbn [List.filter omap list_omap]. rewrite residual_point_code.
  destruct (Report.is_status "SUCCESS" r); [| split; assumption].
  cbn [List.filter map].
  destruct (F64.notna (Report.to_numeric (FinalResidual r)));
    cbn [map fst snd]; split; try f_equal; assumption.
Qed.

(** The third panel of the chart is the line of the residual points. *)
Lemma residual_panel_line (df : DataFrame) :
  Report.residual_panel (Report.with_status "SUCCESS" df)
  = Ok (Spec.residual_line df).
Proof.
  destruct (selected_points df) as [Hx Hy]. cbv zeta in Hx, Hy.
  unfold Report.residual_panel, Spec.residual_line.
  rewrite Hy.
  set (valid := Report.boolean_index _ _) in *.
  assert (Hlen : length valid = length (Spec.residual_points df)).
  { rewrite <- (length_map Reynolds valid), Hx. apply length_map. }
  destruct (Report.with_status "SUCCESS" df) as [| r0 rows0] eqn:Hs.
  - rewrite bool_decide_eq_true_2 by reflexivity. cbn [negb].
    subst valid. cbn in Hlen.
    destruct (Spec.residual_points df); [reflexivity | discriminate].
  - rewrite bool_decide_eq_false_2 by discriminate. cbn [negb].
    destruct (Spec.residual_points df) as [| pt pts] eqn:Hp.
    + destruct valid; [| discriminate].
      rewrite bool_decide_eq_true_2 by reflexivity. reflexivity.
    + destruct valid as [| v valid']; [discriminate |].
      rewrite bool_decide_eq_false_2 by discriminate. cbn [negb].
      rewrite Hx. rewrite plot_same_length by now rewrite !length_map.
      reflexivity.
Qed.

Lemma residual_points_In (df : DataFrame) (re : Z) (y : float) :
  In (re, y) (Spec.residual_points df) <->
  exists r, In r df /\ Status r = "SUCCESS" /\ Reynolds r = re
            /\ Spec.parsed_number (FinalResidual r) = Some y.
Proof.
  unfold Spec.residual_points. rewrite <- list_elem_of_In, list_elem_of_omap.
  split.
  - intros (r & Hin & Hpt). exists r. apply list_elem_of_In in Hin.
    unfold Spec.residual_point in Hpt.
    destruct (String.eqb_spec (Status r) "SUCCESS") as [Hs | ?]; [| discriminate].
    destruct (Spec.parsed_number (FinalResidual r)) as [y' |]; [| discriminate].
    injection Hpt as <- <-. auto.
  - intros (r & Hin & Hs & <- & Hnum). exists r. split; [now apply list_elem_of_In |].
    unfold Spec.residual_point. rewrite Hs, Hnum. reflexivity.
Qed.

Lemma parsed_number_notna (c : cell) (y : float) :
  Spec.parsed_number c = Some y ->
  PrimFloat.is_nan y = false
  /\ (c = Num y \/ exists s, c = Text s /\ coerce_text s = y).
Proof.
  destruct c as [x | s]; cbn [Spec.parsed_number].
  - destruct (PrimFloat.is_nan x) eqn:Hx; [discriminate |].
    intros [= <-]. auto.
  - destruct (PrimFloat.is_nan (coerce_text s)) eqn:Hx; [discriminate |].
    intros [= <-]. eauto.
Qed.

(** C8: the residual panel is drawn from exactly the rows with Status =
    SUCCESS whose FinalResidual parses as a number, in table order, each
    contributing its Reynolds number and that number.  Every such row is
    drawn: one whose residual the reader delivered as a number other than
    NaN, with that number, and one whose residual is a text that pandas
    coerces to a number other than NaN, with the coerced number.  Nothing
    else is drawn: every point comes from such a row, none is NaN, and a
    row whose residual is missing (the NaN that the reader makes of the
    N/A sentinel) or a text that pandas cannot coerce contributes no point,
    not a zero.  The panel is omitted exactly when no row qualifies. *)
Theorem residual_panel_rows (df : DataFrame) :
  Report.residual_panel (Report.with_status "SUCCESS" df) =
    Ok (match Spec.residual_points df with
        | [] => None
        | pts => Some {| line_x := map fst pts; line_y := map snd pts |}
        end)
  /\ (forall r x, In r df -> Status r = "SUCCESS" -> FinalResidual r = Num x ->
        PrimFloat.is_nan x = false ->
        In (Reynolds r, x) (Spec.residual_points df))
  /\ (forall r s, In r df -> Status r = "SUCCESS" -> FinalResidual r = Text s ->
        PrimFloat.is_nan (coerce_text s) = false ->
        In (Reynolds r, coerce_text s) (Spec.residual_points df))
  /\ (forall re y, In (re, y) (Spec.residual_points df) ->
        PrimFloat.is_nan y = false
        /\ exists r, In r df /\ Status r = "SUCCESS" /\ Reynolds r = re
                     /\ (FinalResidual r = Num y
                         \/ exists s, FinalResidual r = Text s /\ coerce_text s = y))
  /\ (forall r, FinalResidual r = Num PrimFloat.nan -> Spec.residual_point r = None)
  /\ (forall r s, FinalResidual r = Text s ->
        PrimFloat.is_nan (coerce_text s) = true -> Spec.residual_point r = None)
  /\ (forall r, Status r <> "SUCCESS" -> Spec.residual_point r = None)
  /\ ((exists l, Report.residual_panel (Report.with_status "SUCCESS" df) = Ok (Some l))
      <-> exists r, In r df /\ Status r = "SUCCESS"
                    /\ is_Some (Spec.parsed_number (FinalResidual r))).
Proof.
  split; [apply residual_panel_line |].
  split; [| split; [| split; [| split; [| split; [| split]]]]].
  - intros r x Hin Hs Hres Hx. apply residual_points_In.
    exists r. rewrite Hres. cbn [Spec.parsed_number]. now rewrite Hx.
  - intros r s Hin Hs Hres Hx. apply residual_points_In.
    exists r. rewrite Hres. cbn [Spec.parsed_number]. now rewrite Hx.
  - intros re y Hin. apply residual_points_In in Hin as (r & Hin & Hs & Hre & Hnum).
    destruct (parsed_number_notna _ _ Hnum) as [Hy Hcell].
    split; [exact Hy |]. exists r. auto.
  - intros r Hres. unfold Spec.residual_point. rewrite Hres.
    now destruct (String.eqb (Status r) "SUCCESS").
  - intros r s Hres Hx. unfold Spec.residual_point. rewrite Hres.
    cbn [Spec.parsed_number]. rewrite Hx.
    now destruct (String.eqb (Status r) "SUCCESS").
  - intros r Hs. unfold Spec.residual_point.
    now destruct (String.eqb_spec (Status r) "SUCCESS").
  - rewrite residual_panel_line. unfold Spec.residual_line.
    destruct (Spec.residual_points df) as [| [re y] pts] eqn:Hp.
    + split; [intros [l [=]] |].
      intros (r & Hin & Hs & [y Hnum]).
      assert (Hpt : In (Reynolds r, y) (Spec.residual_points df))
        by (apply residual_points_In; eauto).
      rewrite Hp in Hpt. destruct Hpt.
    + split; [intros _ | eauto].
      assert (Hpt : In (re, y) (Spec.residual_points df))
        by (rewrite Hp; now left).
      apply residual_points_In in Hpt as (r & Hin & Hs & _ & Hnum).
      exists r. eauto.
Qed.

End ResidualPanel.


(** *** Text *)

Lemma append_assoc (a b c : string) : (a ++ b) ++ c = a ++ b ++ c.
Proof.
  induction a as [| ch a IH]; [reflexivity |].
  change (String ch ((a ++ b) ++ c) = String ch (a ++ b ++ c)). now f_equal.
Qed.

Lemma join_app (l1 l2 : list string) : join (l1 ++ l2) = join l1 ++ join l2.
Proof.
  unfold join. induction l1 as [| a l1 IH]; cbn [app fold_right]; [reflexivity |].
  now rewrite IH, append_assoc.
Qed.

(** *** Text lengths *)

Lemma length_append (a b : string) :
  String.length (a ++ b) = (String.length a + String.length b)%nat.
Proof.
  induction a as [| c a IH]; [reflexivity |].
  change (S (String.length (a ++ b)) = S (String.length a + String.length b)).
  now rewrite IH.
Qed.

(** *** How long the decimal text of a number is *)

Section DecimalLength.

Lemma of_lu_bound (d : Decimal.uint) :
  (DecimalPos.Unsigned.of_lu d < 10 ^ N.of_nat (Decimal.nb_digits d))%N.
Proof.
  induction d as [| d IH | d IH | d IH | d IH | d IH | d IH | d IH | d IH | d IH | d IH];
    cbn [DecimalPos.Unsigned.of_lu Decimal.nb_digits];
    rewrite ?Nat2N.inj_succ, ?N.pow_succ_r'; cbn [N.of_nat]; lia.
Qed.

Lemma string_of_uint_length (d : Decimal.uint) :
  String.length (NilEmpty.string_of_uint d) = Decimal.nb_digits d.
Proof.
  induction d; cbn [NilEmpty.string_of_uint String.length Decimal.nb_digits];
    congruence.
Qed.

Lemma NilZero_length (d : Decimal.uint) :
  (Decimal.nb_digits d <= String.length (NilZero.string_of_uint d))%nat.
Proof.
  unfold NilZero.string_of_uint.
  destruct d; rewrite ?string_of_uint_length; cbn [Decimal.nb_digits String.length]; lia.
Qed.

Lemma str_of_N_bound (n : N) :
  (n < 10 ^ N.of_nat (String.length (str_of_N n)))%N.
Proof.
  unfold str_of_N.
  rewrite <- (DecimalN.Unsigned.of_to n) at 1.
  change (N.of_uint (N.to_uint n)) with (Pos.of_uint (N.to_uint n)).
  rewrite DecimalPos.Unsigned.of_uint_alt.
  pose proof (of_lu_bound (Decimal.rev (N.to_uint n))) as Hb.
  rewrite DecimalFacts.nb_digits_rev in Hb.
  pose proof (NilZero_length (N.to_uint n)) as Hl.
  eapply N.lt_le_trans; [exact Hb |].
  apply N.pow_le_mono_r; lia.
Qed.

(** A number whose decimal text has at most [k] characters is below
    [10^k] in absolute value. *)
Lemma str_of_Z_bound (z : Z) (k : nat) :
  (String.length (str_of_Z z) <= k)%nat -> Z.abs z < 10 ^ Z.of_nat k.
Proof.
  intros Hlen.
  assert (Hpow : forall p : positive,
             (String.length (str_of_N (N.pos p)) <= k)%nat ->
             Z.pos p < 10 ^ Z.of_nat k).
  { intros p Hp. pose proof (str_of_N_bound (N.pos p)) as Hb.
    apply N2Z.inj_lt in Hb. rewrite N2Z.inj_pow in Hb.
    rewrite nat_N_Z in Hb. cbn [Z.of_N] in Hb.
    eapply Z.lt_le_trans; [exact Hb |].
    apply Z.pow_le_mono_r; lia. }
  destruct z as [| p | p]; cbn [Z.abs].
  - apply Z.pow_pos_nonneg; lia.
  - apply Hpow. exact Hlen.
  - apply Hpow. unfold str_of_Z in Hlen.
    change (String.length (String "-" (str_of_N (N.pos p))) <= k)%nat in Hlen.
    cbn [String.length] in Hlen. lia.
Qed.

End DecimalLength.

(** *** Image names that the file system takes

    An image name carries every digit of the Reynolds number, so a name
    that fits bounds the number, far below the range of the division. *)

Lemma velocity_name_fits (n : Z) :
  name_fits (Plots.velocity_name n) = true -> Z.abs n < 10 ^ 232.
Proof.
  unfold name_fits, Plots.velocity_name, NAME_MAX. intros Hfit.
  apply Nat.leb_le in Hfit. rewrite !length_append in Hfit.
  cbn [String.length] in Hfit.
  apply (str_of_Z_bound n 232). lia.
Qed.

Lemma residuals_name_fits (n : Z) :
  name_fits (Plots.residuals_name n) = true -> Z.abs n < 10 ^ 239.
Proof.
  unfold name_fits, Plots.residuals_name, NAME_MAX. intros Hfit.
  apply Nat.leb_le in Hfit. rewrite !length_append in Hfit.
  cbn [String.length] in Hfit.
  apply (str_of_Z_bound n 239). lia.
Qed.

Lemma shorter_name_fits (n : Z) :
  name_fits (Plots.velocity_name n) = true ->
  name_fits (Plots.residuals_name n) = true.
Proof.
  unfold name_fits, Plots.velocity_name, Plots.residuals_name, NAME_MAX.
  intros Hfit. apply Nat.leb_le in Hfit. apply Nat.leb_le.
  rewrite !length_append in *. cbn [String.length] in *. lia.
Qed.

Lemma fitting_name_in_range (n : Z) :
  name_fits (Plots.velocity_name n) = true -> n < 1000 * (2 ^ 1024 - 2 ^ 970).
Proof.
  intros Hfit. apply velocity_name_fits in Hfit.
  assert (10 ^ 232 < 1000 * (2 ^ 1024 - 2 ^ 970)) by reflexivity. lia.
Qed.

(** *** Running in the world *)

Lemma path_exists_Some (w : world) (p : string) (n : node) :
  files w !! p = Some n -> path_exists p w = (Ok true, w).
Proof.
  intros Hp. unfold path_exists. rewrite bool_decide_eq_true_2; [reflexivity |].
  rewrite Hp. eauto.
Qed.

Lemma path_exists_None (w : world) (p : string) :
  files w !! p = None -> path_exists p w = (Ok false, w).
Proof.
  intros Hp. unfold path_exists. rewrite bool_decide_eq_false_2; [reflexivity |].
  rewrite Hp. intros [? ?]. discriminate.
Qed.

Lemma write_file_ok (d name : string) (c : content) (w : world) :
  files w !! d = Some Dir -> name_fits name = true ->
  files w !! joinpath d name <> Some Dir ->
  write_file d name c w =
  (Ok tt, World (<[joinpath d name := File c]> (files w)) (stdout w) (clock w)).
Proof.
  intros Hd Hfit Hp. unfold write_file. rewrite Hd, Hfit. cbn [negb].
  destruct (files w !! joinpath d name) as [[| c'] |]; congruence.
Qed.

(** A write succeeds only under the three conditions of [write_file_ok]. *)
Lemma write_file_inv (d name : string) (c : content) (w w' : world) :
  write_file d name c w = (Ok tt, w') ->
  files w !! d = Some Dir /\ name_fits name = true
  /\ files w !! joinpath d name <> Some Dir.
Proof.
  unfold write_file.
  destruct (files w !! d) as [[| c'] |]; try discriminate.
  destruct (name_fits name); try discriminate. cbn [negb].
  destruct (files w !! joinpath d name) as [[| c'] |]; try discriminate;
    intros _; repeat split; congruence.
Qed.

(** A failed write raises one of the operating system's errors and leaves
    the world as it was. *)
Lemma write_file_exception (d name : string) (c : content) (w : world) :
  (exists w', write_file d name c w = (Ok tt, w'))
  \/ (exists kind msg, write_file d name c w = (Raise (Exn kind msg), w)).
Proof.
  unfold write_file, errno2, errno20, errno21, errno36.
  destruct (files w !! d) as [[| c'] |]; [| right; eauto | right; eauto].
  destruct (name_fits name); cbn [negb]; [| right; eauto].
  destruct (files w !! joinpath d name) as [[| c'] |]; [right | left | left]; eauto.
Qed.

(** *** The report text *)

Section ReportText.
Context `{Pandas}.

Lemma html_head_split (stamp t r s a : string) :
  Report.html_head stamp t r s a =
  Spec.before_stamp ++ stamp ++ Spec.after_stamp t r s a.
Proof.
  unfold Report.html_head, Report.template, Spec.before_stamp, Spec.after_stamp.
  assert (Hl : Report.html_head_lines stamp t r s a =
               (firstn 24 (Report.html_head_lines "" "" "" "" "")
                ++ [(Spec.stamp_open ++ stamp ++ "</p>")%string]
                ++ skipn 25 (Report.html_head_lines "" t r s a))%list)
    by reflexivity.
  rewrite Hl, !map_app, !join_app. cbn [map join fold_right].
  now rewrite !append_assoc.
Qed.

Lemma format_rate_total (df : DataFrame) :
  exists rate_s, Py.bind (Report.success_rate df) format_1f = Ok rate_s.
Proof.
  rewrite success_rate_value.
  destruct (length df =? 0)%nat; cbn [Py.bind format_1f]; eauto.
Qed.

Lemma format_runtime_total (df : DataFrame) :
  exists avg_s, format_1f (Report.avg_runtime df) = Ok avg_s.
Proof.
  unfold Report.avg_runtime.
  destruct (negb _); cbn [format_1f]; eauto.
Qed.

(** The report text never fails to build, and the stamp sits between two
    texts that the table alone determines. *)
Lemma html_content_split (df : DataFrame) :
  exists mid,
    forall stamp, Report.html_content stamp df =
                  Ok (Spec.before_stamp ++ stamp ++ mid
                      ++ Report.table_rows df ++ Report.html_tail).
Proof.
  destruct (format_rate_total df) as [rate_s Hr].
  destruct (format_runtime_total df) as [avg_s Ha].
  exists (Spec.after_stamp (str_of_nat (length df)) rate_s
            (str_of_nat (length (Report.with_status "SUCCESS" df))) avg_s).
  intros stamp. unfold Report.html_content.
  destruct (Report.success_rate df) as [rate | e]; [| discriminate].
  cbn [Py.bind] in Hr |- *. rewrite Hr, Ha. cbn [Py.bind].
  now rewrite html_head_split, !append_assoc.
Qed.

Lemma append_nil_r (a : string) : a ++ "" = a.
Proof.
  induction a as [| ch a IH]; [reflexivity |].
  change (String ch (a ++ "") = String ch a). now f_equal.
Qed.

Lemma joinpath_inj (d a b : string) : joinpath d a = joinpath d b -> a = b.
Proof.
  unfold joinpath. intros Heq. apply String.app_inj in Heq.
  now apply (String.app_inj "/") in Heq.
Qed.

Lemma joinpath_not_dir (d a : string) : joinpath d a <> d.
Proof.
  unfold joinpath. intros Heq. rewrite <- (append_nil_r d) in Heq at 2.
  apply String.app_inj in Heq. discriminate.
Qed.

Lemma generate_html_report_run (df : DataFrame) :
  exists mid : string,
    forall (results_dir : string) (w : world),
      Spec.report_ready results_dir df w ->
      Report.generate_html_report results_dir w =
      (Ok (Some (Spec.report_path results_dir)),
       World (<[Spec.report_path results_dir :=
                  File (Html (Spec.before_stamp ++ clock w ++ mid
                              ++ Report.table_rows df ++ Report.html_tail))]> (files w))
             (stdout w ++ ["Generated HTML report: " ++ Spec.report_path results_dir])
             (clock w)).
Proof.
  destruct (html_content_split df) as [mid Hmid].
  exists mid. intros results_dir w Hready.
  destruct Hready as (Hsum & Hdir & Hrep).
  unfold Report.generate_html_report, mbind.
  fold (Spec.summary_path results_dir).
  rewrite (path_exists_Some _ _ _ Hsum). cbn [negb].
  unfold Report.read_csv. rewrite Hsum. cbn [read].
  unfold now, lift. rewrite Hmid.
  rewrite (write_file_ok _ "parametric_study_report.html" _ _ Hdir eq_refl Hrep).
  reflexivity.
Qed.

(** Writing the report leaves the world ready for the next run. *)
Lemma report_ready_after (results_dir : string) (df : DataFrame) (w : world)
    (text : string) (out : list string) (later : string) :
  Spec.report_ready results_dir df w ->
  Spec.report_ready results_dir df
    (World (<[Spec.report_path results_dir := File (Html text)]> (files w)) out later).
Proof.
  intros (Hsum & Hdir & _). unfold Spec.report_ready. cbn [files].
  split; [| split].
  - rewrite lookup_insert_ne; [exact Hsum |].
    unfold Spec.report_path, Spec.summary_path. intros Heq.
    apply joinpath_inj in Heq. discriminate.
  - rewrite lookup_insert_ne; [exact Hdir |]. apply joinpath_not_dir.
  - now rewrite lookup_insert_eq.
Qed.

(** C9: the report is determined by the summary table up to the
    timestamp.  For a given table there are two fixed texts such that every
    run, whatever the clock, the output so far and the other files, writes
    the first text, the clock reading, the second text, the table rows and
    the closing part; and the world a run leaves is ready for the next run,
    which therefore writes the same text around its own clock reading. *)
Theorem report_deterministic_up_to_stamp (results_dir : string) (df : DataFrame) :
  exists before mid : string,
    forall w : world,
      Spec.report_ready results_dir df w ->
      exists w' : world,
        Report.generate_html_report results_dir w
          = (Ok (Some (Spec.report_path results_dir)), w')
        /\ files w' =
             <[Spec.report_path results_dir :=
                 File (Html (before ++ clock w ++ mid
                             ++ Report.table_rows df ++ Report.html_tail))]> (files w)
        /\ forall later : string,
             Spec.report_ready results_dir df (World (files w') (stdout w') later).
Proof.
  destruct (generate_html_report_run df) as [mid Hrun].
  exists Spec.before_stamp, mid. intros w Hready.
  eexists. split; [apply (Hrun results_dir w Hready) |].
  cbn [files stdout]. split; [reflexivity |].
  intros later. now apply report_ready_after.
Qed.

(** C1, as the code has it: when the results directory exists and
    [summary.csv] does not, the report generator prints a warning and an
    error, writes no file, and the process exits with status 0. *)
Theorem missing_summary_exits_zero (prog results_dir : string) (w : world) :
  is_Some (files w !! results_dir) ->
  files w !! Spec.summary_path results_dir = None ->
  Report.script [prog; results_dir] w =
  (Exit 0,
   World (files w)
         (stdout w ++
          [ "Generating comprehensive report for: " ++ results_dir;
            "Warning: Summary file not found: " ++ Spec.summary_path results_dir;
            "Error: Summary file not found: " ++ Spec.summary_path results_dir;
            "Report generation completed successfully!";
            "Open " ++ results_dir ++ "/parametric_study_report.html to view the report" ])
         (clock w)).
Proof.
  intros [n Hdir] Hsum.
  unfold Report.script, Report.main. cbn [length Nat.eqb negb nth].
  unfold mbind at 1. rewrite (path_exists_Some _ _ _ Hdir). cbn [negb].
  unfold Report.generate_summary_plots, Report.generate_html_report.
  fold (Spec.summary_path results_dir).
  unfold mbind, print, ret. cbn [files stdout clock].
  rewrite path_exists_None by exact Hsum. cbn [negb files stdout clock].
  rewrite path_exists_None by exact Hsum. cbn [negb files stdout clock].
  rewrite <- !app_assoc. reflexivity.
Qed.

End ReportText.


(** *** The residual plotter *)

Ltac caught := right; do 2 eexists; reflexivity.

(** The [try] block either writes the image and returns true, or raises an
    [Exception] before anything was written. *)
Lemma plot_residuals_try_cases (log : string) (n : Z) (out : string) (w : world) :
  (exists fig,
      Plots.plot_residuals_try log n out w =
      (Ok true,
       World (<[Spec.residuals_image out n := File (Png (FigResiduals fig))]> (files w))
             (stdout w ++ ["Generated residuals plot: " ++ Spec.residuals_image out n])
             (clock w)))
  \/ (exists kind msg, Plots.plot_residuals_try log n out w = (Raise (Exn kind msg), w)).
Proof.
  unfold Plots.plot_residuals_try, mbind, Plots.read_residuals, lift, errno2, errno21.
  destruct (files w !! log) as [[| [[df | k m] | [data | k m] | f | t]] |];
    cbn [read]; try caught.
  unfold Plots.set_columns.
  destruct data as [| time [| ux [| uy [| p [| extra rest]]]]]; try caught.
  unfold plot.
  destruct (length time =? length ux)%nat; [| caught].
  destruct (length time =? length uy)%nat; [| caught].
  destruct (length time =? length p)%nat; [| caught].
  unfold savefig. fold (Spec.residuals_image out n).
  match goal with |- context [write_file out ?name ?c w] =>
    destruct (write_file_exception out name c w) as [[w' Hw] | (k & m & ->)];
      [pose proof Hw as Hok; apply write_file_inv in Hok as (Hd & Hfit & Hp);
       rewrite (write_file_ok _ _ _ _ Hd Hfit Hp) | caught]
  end.
  left; eexists; reflexivity.
Qed.

Lemma plot_residuals_absent (case_dir : string) (n : Z) (out : string) (w : world) :
  files w !! Plots.residuals_path case_dir = None ->
  Plots.plot_residuals case_dir n out w =
  (Ok false,
   World (files w)
         (stdout w ++ ["Warning: Residuals file not found: "
                       ++ Plots.residuals_path case_dir])
         (clock w)).
Proof.
  intros Hlog. unfold Plots.plot_residuals, mbind.
  rewrite (path_exists_None _ _ Hlog). reflexivity.
Qed.

Lemma plot_residuals_valid (case_dir : string) (n : Z) (out : string) (w : world)
    (time ux uy p : list float) :
  files w !! Plots.residuals_path case_dir
    = Some (File (ResidualLog (Parsed [time; ux; uy; p]))) ->
  length ux = length time -> length uy = length time -> length p = length time ->
  files w !! out = Some Dir ->
  name_fits (Plots.residuals_name n) = true ->
  files w !! Spec.residuals_image out n <> Some Dir ->
  Plots.plot_residuals case_dir n out w =
  (Ok true,
   World (<[Spec.residuals_image out n :=
              File (Png (FigResiduals
                {| res_title := "Convergence History - Re = " ++ str_of_Z n;
                   res_Ux := {| line_x := time; line_y := ux |};
                   res_Uy := {| line_x := time; line_y := uy |};
                   res_p := {| line_x := time; line_y := p |} |}))]> (files w))
         (stdout w ++ ["Generated residuals plot: " ++ Spec.residuals_image out n])
         (clock w)).
Proof.
  intros Hlog Hux Huy Hp Hout Hfit Himg.
  unfold Plots.plot_residuals, mbind at 1.
  rewrite (path_exists_Some _ _ _ Hlog). cbn [negb].
  unfold try_except, Plots.plot_residuals_try, mbind, Plots.read_residuals, lift.
  rewrite Hlog. cbn [read Plots.set_columns].
  rewrite !plot_same_length by congruence.
  unfold savefig. rewrite (write_file_ok _ _ _ _ Hout Hfit Himg). reflexivity.
Qed.

Lemma plot_residuals_total (case_dir : string) (n : Z) (out : string) (w : world) :
  exists (ok : bool) (w' : world),
    Plots.plot_residuals case_dir n out w = (Ok ok, w')
    /\ (ok = false -> files w' = files w).
Proof.
  unfold Plots.plot_residuals, mbind at 1, path_exists.
  destruct (bool_decide _); cbn [negb].
  - unfold try_except.
    destruct (plot_residuals_try_cases (Plots.residuals_path case_dir) n out w)
      as [[fig ->] | (k & m & ->)].
    + eexists _, _. split; [reflexivity | discriminate].
    + eexists _, _. split; [reflexivity | reflexivity].
  - eexists _, _. split; [reflexivity | reflexivity].
Qed.

Lemma plot_lengths {X} (x : list X) (y : list float) (l : Line X) :
  plot x y = Ok l -> length x = length y /\ l = {| line_x := x; line_y := y |}.
Proof.
  unfold plot. destruct (Nat.eqb_spec (length x) (length y)); [| discriminate].
  intros [= <-]. auto.
Qed.

(** A true result tells that the log was valid and the image could be
    written. *)
Lemma plot_residuals_true_inv (case_dir : string) (n : Z) (out : string)
    (w : world) :
  fst (Plots.plot_residuals case_dir n out w) = Ok true ->
  exists time ux uy p,
    files w !! Plots.residuals_path case_dir
      = Some (File (ResidualLog (Parsed [time; ux; uy; p])))
    /\ length time = length ux /\ length time = length uy
    /\ length time = length p
    /\ files w !! out = Some Dir
    /\ name_fits (Plots.residuals_name n) = true
    /\ files w !! Spec.residuals_image out n <> Some Dir.
Proof.
  unfold Plots.plot_residuals, mbind at 1, path_exists.
  destruct (files w !! Plots.residuals_path case_dir) as [node |] eqn:Hlog.
  2:{ rewrite bool_decide_eq_false_2 by (intros [? ?]; discriminate).
      cbn. discriminate. }
  rewrite bool_decide_eq_true_2 by eauto. cbn [negb].
  unfold try_except, Plots.plot_residuals_try, mbind at 1, Plots.read_residuals.
  rewrite Hlog.
  destruct node as [| [df | [data | k m] | f | t]]; cbn [read];
    try (cbn; discriminate).
  unfold mbind at 1. unfold lift at 1. unfold Plots.set_columns.
  destruct data as [| time [| ux [| uy [| p [| extra rest]]]]];
    try (cbn; discriminate).
  unfold mbind at 1. unfold lift at 1.
  destruct (plot time ux) as [l1 | e1] eqn:H1; [| destruct e1; cbn; discriminate].
  unfold mbind at 1. unfold lift at 1.
  destruct (plot time uy) as [l2 | e2] eqn:H2; [| destruct e2; cbn; discriminate].
  unfold mbind at 1. unfold lift at 1.
  destruct (plot time p) as [l3 | e3] eqn:H3; [| destruct e3; cbn; discriminate].
  apply plot_lengths in H1 as [H1 _], H2 as [H2 _], H3 as [H3 _].
  unfold mbind at 1. unfold savefig. fold (Spec.residuals_image out n).
  match goal with |- context [write_file out ?name ?c w] =>
    destruct (write_file_exception out name c w) as [[w' Hw] | (k & m & Hw)];
      rewrite Hw; [| cbn; discriminate]
  end.
  apply write_file_inv in Hw as (Hout & Hfit & Himg).
  intros _. exists time, ux, uy, p. repeat split; assumption.
Qed.

(** C5, as the code has it: the residual plotter.  Without the log it
    returns false and writes nothing.  With a log of four equally long
    columns it writes the image and returns true when the image can be
    written: the output directory is there, the image name, which carries
    every digit of the Reynolds number, is not longer than the file system
    takes (which needs a number below [10^239] in absolute value), and the
    image path is not a directory; and it returns true in no other case.
    It never raises, it returns false whenever its [try] block
    raises, and a false result leaves the files as they were. *)
Theorem plot_residuals_contract (case_dir : string) (n : Z) (out : string)
    (w : world) :
  (files w !! Plots.residuals_path case_dir = None ->
   Plots.plot_residuals case_dir n out w =
   (Ok false,
    World (files w)
          (stdout w ++ ["Warning: Residuals file not found: "
                        ++ Plots.residuals_path case_dir])
          (clock w)))
  /\ (forall time ux uy p,
        files w !! Plots.residuals_path case_dir
          = Some (File (ResidualLog (Parsed [time; ux; uy; p]))) ->
        length ux = length time -> length uy = length time ->
        length p = length time ->
        files w !! out = Some Dir ->
        name_fits (Plots.residuals_name n) = true ->
        files w !! Spec.residuals_image out n <> Some Dir ->
        exists fig w',
          Plots.plot_residuals case_dir n out w = (Ok true, w')
          /\ files w' = <[Spec.residuals_image out n := File (Png (FigResiduals fig))]>
                          (files w))
  /\ (fst (Plots.plot_residuals case_dir n out w) = Ok true ->
      files w !! out = Some Dir
      /\ name_fits (Plots.residuals_name n) = true
      /\ files w !! Spec.residuals_image out n <> Some Dir
      /\ Z.abs n < 10 ^ 239)
  /\ (exists (ok : bool) (w' : world),
        Plots.plot_residuals case_dir n out w = (Ok ok, w')
        /\ (ok = false -> files w' = files w))
  /\ (forall e w1,
        is_Some (files w !! Plots.residuals_path case_dir) ->
        Plots.plot_residuals_try (Plots.residuals_path case_dir) n out w
          = (Raise e, w1) ->
        exists w', Plots.plot_residuals case_dir n out w = (Ok false, w')
                   /\ files w' = files w).
Proof.
  split; [apply plot_residuals_absent |].
  split; [| split; [| split; [apply plot_residuals_total |]]].
  - intros time ux uy p Hlog Hux Huy Hp Hout Hfit Himg.
    eexists _, _. split.
    + now apply (plot_residuals_valid case_dir n out w time ux uy p).
    + reflexivity.
  - intros Htrue.
    destruct (plot_residuals_true_inv _ _ _ _ Htrue)
      as (time & ux & uy & p & _ & _ & _ & _ & Hout & Hfit & Himg).
    repeat split; try assumption. now apply residuals_name_fits.
  - intros e w1 [node Hlog] Hraise.
    unfold Plots.plot_residuals, mbind at 1.
    rewrite (path_exists_Some _ _ _ Hlog). cbn [negb]. unfold try_except.
    destruct (plot_residuals_try_cases (Plots.residuals_path case_dir) n out w)
      as [[fig Hok] | (k & m & Hexn)].
    + rewrite Hok in Hraise. discriminate.
    + rewrite Hexn. eexists. split; reflexivity.
Qed.


(** *** The velocity plotter *)

(** Python's true division of integers succeeds exactly while the
    quotient is below [2^1024 - 2^970] in absolute value, the midpoint
    between the largest float and [2^1024]. *)
Lemma int_truediv_in_range (a b : Z) :
  b <> 0 -> Z.abs a < (2 ^ 1024 - 2 ^ 970) * Z.abs b ->
  int_truediv a b = Ok (F64.nearest_ratio a b).
Proof.
  intros Hb Hlt. unfold int_truediv.
  destruct (Z.eqb_spec b 0) as [-> | _]; [congruence |].
  unfold F64.nearest_ratio_sf.
  rewrite round_ratio_inf by lia.
  destruct (Z.leb_spec ((2 ^ 1024 - 2 ^ 970) * Z.abs b) (Z.abs a)); [lia | reflexivity].
Qed.

Lemma int_truediv_overflow (a b : Z) :
  b <> 0 -> (2 ^ 1024 - 2 ^ 970) * Z.abs b <= Z.abs a ->
  int_truediv a b
  = Raise (Exn OverflowError "integer division result too large for a float").
Proof.
  intros Hb Hge. unfold int_truediv.
  destruct (Z.eqb_spec b 0) as [-> | _]; [congruence |].
  unfold F64.nearest_ratio_sf.
  rewrite round_ratio_inf by lia.
  destruct (Z.leb_spec ((2 ^ 1024 - 2 ^ 970) * Z.abs b) (Z.abs a)); [reflexivity | lia].
Qed.

Lemma int_truediv_exception (a b : Z) :
  (exists q, int_truediv a b = Ok q)
  \/ (exists kind msg, int_truediv a b = Raise (Exn kind msg)).
Proof.
  unfold int_truediv. destruct (b =? 0); [caught |].
  destruct (F64.is_inf_sf _); [caught | left; eauto].
Qed.

Lemma grid_length : length Spec.grid = 50%nat.
Proof. reflexivity. Qed.

Section Velocity.
Context `{Numpy}.

Lemma u_profile_exception (n : Z) (y : list float) :
  (exists u, Plots.u_profile n y = Ok u /\ length u = length y)
  \/ (exists kind msg, Plots.u_profile n y = Raise (Exn kind msg)).
Proof.
  unfold Plots.u_profile. destruct (n <=? 100).
  - left. eexists. split; [reflexivity | apply length_map].
  - destruct (int_truediv_exception (- n) 1000) as [[q ->] | (k & m & ->)];
      cbn [Py.bind]; [| caught].
    left. eexists. split; [reflexivity | apply length_map].
Qed.

(** The profile the plotter computes, for every Reynolds number whose
    thousandth fits a float. *)
Lemma u_profile_value (n : Z) (y : list float) :
  n < 1000 * (2 ^ 1024 - 2 ^ 970) ->
  Plots.u_profile n y = Ok (map (Spec.u_at n) y).
Proof.
  intros Hn. unfold Plots.u_profile, Spec.u_at.
  destruct (Z.leb_spec n 100) as [Hle | Hgt].
  - f_equal. apply map_ext. intros yi. apply mul_comm.
  - rewrite int_truediv_in_range by lia. reflexivity.
Qed.

(** From that Reynolds number on the division overflows and no profile is
    computed. *)
Lemma u_profile_overflow (n : Z) (y : list float) :
  1000 * (2 ^ 1024 - 2 ^ 970) <= n ->
  Plots.u_profile n y
  = Raise (Exn OverflowError "integer division result too large for a float").
Proof.
  intros Hn. unfold Plots.u_profile.
  destruct (Z.leb_spec n 100) as [Hle | Hgt]; [lia |].
  rewrite int_truediv_overflow by lia. reflexivity.
Qed.

Lemma plot_velocity_profile_try_cases (n : Z) (out : string) (w : world) :
  (exists u,
      Plots.u_profile n Spec.grid = Ok u /\
      Plots.plot_velocity_profile_try n out w =
      (Ok true,
       World (<[Spec.velocity_image out n := File (Png (Spec.velocity_figure n u))]> (files w))
             (stdout w ++ ["Generated velocity profile plot: " ++ Spec.velocity_image out n])
             (clock w)))
  \/ (exists kind msg,
         Plots.plot_velocity_profile_try n out w = (Raise (Exn kind msg), w)).
Proof.
  unfold Plots.plot_velocity_profile_try, mbind, lift. fold Spec.grid.
  destruct (u_profile_exception n Spec.grid) as [(u & Hu & Hlen) | (k & m & ->)];
    [| caught].
  rewrite Hu. rewrite plot_same_length by exact Hlen.
  rewrite plot_same_length by (unfold Plots.zeros_like; apply length_map).
  unfold savefig. fold (Spec.velocity_image out n).
  match goal with |- context [write_file out ?name ?c w] =>
    destruct (write_file_exception out name c w) as [[w' Hw] | (k & m & ->)];
      [pose proof Hw as Hok; apply write_file_inv in Hok as (Hd & Hfit & Hp);
       rewrite (write_file_ok _ _ _ _ Hd Hfit Hp) | caught]
  end.
  left; exists u; (split; reflexivity).
Qed.

Lemma plot_velocity_profile_total (case_dir : string) (n : Z) (out : string)
    (w : world) :
  exists (ok : bool) (w' : world),
    Plots.plot_velocity_profile case_dir n out w = (Ok ok, w').
Proof.
  unfold Plots.plot_velocity_profile, try_except.
  destruct (plot_velocity_profile_try_cases n out w)
    as [(u & _ & ->) | (k & m & ->)]; eexists _, _; reflexivity.
Qed.

(** What the velocity plotter does when the image can be written. *)
Lemma plot_velocity_profile_saved (n : Z) (case_dir out : string) (w : world) :
  files w !! out = Some Dir ->
  name_fits (Plots.velocity_name n) = true ->
  files w !! Spec.velocity_image out n <> Some Dir ->
  Plots.plot_velocity_profile case_dir n out w =
  (Ok true,
   World (<[Spec.velocity_image out n :=
              File (Png (Spec.velocity_figure n (map (Spec.u_at n) Spec.grid)))]>
            (files w))
         (stdout w ++ ["Generated velocity profile plot: " ++ Spec.velocity_image out n])
         (clock w)).
Proof.
  intros Hout Hfit Himg.
  unfold Plots.plot_velocity_profile, try_except,
    Plots.plot_velocity_profile_try, mbind, lift.
  fold Spec.grid. rewrite (u_profile_value n _ (fitting_name_in_range n Hfit)).
  rewrite plot_same_length by apply length_map.
  rewrite plot_same_length by (unfold Plots.zeros_like; apply length_map).
  unfold savefig. fold (Spec.velocity_image out n).
  unfold Spec.velocity_image in *.
  rewrite (write_file_ok _ _ _ _ Hout Hfit Himg). reflexivity.
Qed.

(** What the velocity plotter does when the division overflows. *)
Lemma plot_velocity_profile_overflow (n : Z) (case_dir out : string) (w : world) :
  1000 * (2 ^ 1024 - 2 ^ 970) <= n ->
  Plots.plot_velocity_profile case_dir n out w =
  (Ok false,
   World (files w)
         (stdout w ++ ["Error plotting velocity profile: "
                       ++ "integer division result too large for a float"])
         (clock w)).
Proof.
  intros Hn.
  unfold Plots.plot_velocity_profile, try_except,
    Plots.plot_velocity_profile_try, mbind, lift.
  fold Spec.grid. rewrite (u_profile_overflow n _ Hn). reflexivity.
Qed.

(** C7, as the code has it.  The U profile at a grid point [y] is
    [0.8 * sin(pi * y)] when [n <= 100] and
    [sin(pi * y) * (1 - exp(-n/1000))] otherwise exactly for the Reynolds
    numbers [n] below [1000 * (2^1024 - 2^970)], where the quotient still
    rounds to a float; from that number on Python's true division raises
    OverflowError, no profile is computed and the plotter returns false
    without writing.  The V profile is zero at all 50 points.  These
    profiles make the figure that is saved whenever the image can be
    written, which needs an image name (it carries every digit of [n]) that
    the file system takes. *)
Theorem velocity_profiles (n : Z) (case_dir out : string) (w : world) :
  (Plots.u_profile n Spec.grid = Ok (map (Spec.u_at n) Spec.grid)
   <-> n < 1000 * (2 ^ 1024 - 2 ^ 970))
  /\ (1000 * (2 ^ 1024 - 2 ^ 970) <= n ->
      Plots.u_profile n Spec.grid
      = Raise (Exn OverflowError "integer division result too large for a float")
      /\ fst (Plots.plot_velocity_profile case_dir n out w) = Ok false
      /\ files (snd (Plots.plot_velocity_profile case_dir n out w)) = files w)
  /\ Plots.zeros_like Spec.grid = repeat 0%float 50
  /\ (files w !! out = Some Dir ->
      name_fits (Plots.velocity_name n) = true ->
      files w !! Spec.velocity_image out n <> Some Dir ->
      Plots.plot_velocity_profile case_dir n out w =
      (Ok true,
       World (<[Spec.velocity_image out n :=
                  File (Png (Spec.velocity_figure n (map (Spec.u_at n) Spec.grid)))]>
                (files w))
             (stdout w ++ ["Generated velocity profile plot: " ++ Spec.velocity_image out n])
             (clock w))).
Proof.
  split; [| split; [| split; [reflexivity | apply plot_velocity_profile_saved]]].
  - split; [| apply u_profile_value].
    intros Hok.
    destruct (Z.lt_ge_cases n (1000 * (2 ^ 1024 - 2 ^ 970))) as [? | Hge];
      [assumption |].
    rewrite (u_profile_overflow n _ Hge) in Hok. discriminate.
  - intros Hn. split; [now apply u_profile_overflow |].
    now rewrite (plot_velocity_profile_overflow n case_dir out w Hn).
Qed.

(** *** The plot generator's exit code *)

Lemma mkdir_exception (d name : string) (w : world) :
  (exists w', Plots.mkdir_exist_ok d name w = (Ok tt, w'))
  \/ (exists kind msg, Plots.mkdir_exist_ok d name w = (Raise (Exn kind msg), w)).
Proof.
  unfold Plots.mkdir_exist_ok, errno2.
  destruct (files w !! joinpath d name) as [[| c] |]; [left; eauto | caught |].
  destruct (files w !! d) as [[| c] |]; [left; eauto | caught | caught].
Qed.

(** What the process does once the argument count is right, the Reynolds
    number parses and the plots directory is there. *)
Lemma script_run (prog case_dir s : string) (n : Z) (w w1 : world) :
  int_of_str s = Ok n ->
  Plots.mkdir_exist_ok case_dir "plots" w = (Ok tt, w1) ->
  exists (r v : bool) (w2 w3 w4 : world),
    Plots.plot_residuals case_dir n (Spec.plots_dir case_dir) (Spec.announce case_dir n w1)
      = (Ok r, w2)
    /\ Plots.plot_velocity_profile case_dir n (Spec.plots_dir case_dir) w2 = (Ok v, w3)
    /\ Plots.script [prog; case_dir; s] w = (Exit (if r && v then 0 else 1), w4).
Proof.
  intros Hs Hmk.
  destruct (plot_residuals_total case_dir n (Spec.plots_dir case_dir) (Spec.announce case_dir n w1))
    as (r & w2 & Hr & _).
  destruct (plot_velocity_profile_total case_dir n (Spec.plots_dir case_dir) w2)
    as (v & w3 & Hv).
  exists r, v, w2, w3.
  exists (World (files w3)
                (stdout w3 ++
                 [(if r && v then "Successfully generated all plots for Re = "
                   else "Some plots failed for Re = ") ++ str_of_Z n])
                (clock w3)).
  split; [exact Hr |]. split; [exact Hv |].
  unfold Plots.script, Plots.main. cbn [length Nat.eqb negb nth].
  unfold mbind at 1. unfold lift at 1. rewrite Hs.
  unfold mbind at 1. rewrite Hmk.
  unfold mbind at 1. unfold print at 1. fold (Spec.announce case_dir n w1).
  unfold mbind at 1. fold (Spec.plots_dir case_dir). rewrite Hr.
  unfold mbind at 1. rewrite Hv.
  destruct (r && v); reflexivity.
Qed.

(** C6: the plot generator exits with status 0 exactly when both plot
    operations ran and returned success, and with status 1 otherwise; with
    an argument count other than two it prints the usage line and exits
    with code 1. *)
Theorem plots_exit_code (argv : list string) (w : world) :
  (exit_status (fst (Plots.script argv w)) = 0 <-> Spec.both_succeed argv w)
  /\ (exit_status (fst (Plots.script argv w)) = 0
      \/ exit_status (fst (Plots.script argv w)) = 1)
  /\ (length argv <> 3%nat ->
      Plots.script argv w =
      (Exit 1, World (files w) (stdout w ++ [Plots.usage]) (clock w))).
Proof.
  assert (Husage : length argv <> 3%nat ->
            Plots.script argv w =
            (Exit 1, World (files w) (stdout w ++ [Plots.usage]) (clock w))).
  { intros Hlen. unfold Plots.script, Plots.main.
    destruct (Nat.eqb_spec (length argv) 3) as [? | _]; [contradiction |].
    reflexivity. }
  assert (Hmain :
    (exit_status (fst (Plots.script argv w)) = 0 <-> Spec.both_succeed argv w)
    /\ (exit_status (fst (Plots.script argv w)) = 0
        \/ exit_status (fst (Plots.script argv w)) = 1));
    [| destruct Hmain; auto].
  destruct (Nat.eq_dec (length argv) 3%nat) as [Hlen | Hlen].
  2:{ rewrite (Husage Hlen). cbn [fst exit_status].
      split; [| now right]. split; [discriminate |].
      intros (prog & case_dir & s & n & w1 & w2 & w3 & -> & _). now destruct Hlen. }
  destruct argv as [| prog [| case_dir [| s [| extra rest]]]]; try discriminate.
  clear Hlen Husage.
  destruct (int_of_str s) as [n | e] eqn:Hs.
  2:{ assert (Hrun : fst (Plots.script [prog; case_dir; s] w) = Uncaught e).
      { unfold Plots.script, Plots.main. cbn [length Nat.eqb negb nth].
        unfold mbind, lift. rewrite Hs.
        unfold int_of_str in Hs. destruct (IntParse.parse s); inversion Hs.
        reflexivity. }
      rewrite Hrun. cbn [exit_status].
      split; [| now right]. split; [discriminate |].
      intros (? & ? & ? & n & ? & ? & ? & Heq & Hn & _).
      inversion Heq; subst. congruence. }
  destruct (mkdir_exception case_dir "plots" w) as [[w1 Hmk] | (k & m & Hmk)].
  2:{ assert (Hrun : fst (Plots.script [prog; case_dir; s] w) = Uncaught (Exn k m)).
      { unfold Plots.script, Plots.main. cbn [length Nat.eqb negb nth].
        unfold mbind at 1. unfold lift at 1. rewrite Hs.
        unfold mbind at 1. rewrite Hmk. reflexivity. }
      rewrite Hrun. cbn [exit_status].
      split; [| now right]. split; [discriminate |].
      intros (? & ? & ? & n' & ? & ? & ? & Heq & Hn & Hmk' & _).
      inversion Heq; subst. congruence. }
  destruct (script_run prog case_dir s n w w1 Hs Hmk)
    as (r & v & w2 & w3 & w4 & Hr & Hv & Hrun).
  rewrite Hrun. cbn [fst exit_status].
  split; [| destruct (r && v); auto].
  split.
  - intros Hz. destruct r, v; try discriminate.
    exists prog, case_dir, s, n, w1, w2, w3. auto.
  - intros (? & ? & ? & n' & w1' & w2' & w3' & Heq & Hn & Hmk' & Hr' & Hv').
    inversion Heq; subst.
    assert (n' = n) by congruence. subst n'.
    assert (w1' = w1) by congruence. subst w1'.
    assert (r = true /\ w2' = w2) as [-> ->].
    { rewrite Hr in Hr'. inversion Hr'. auto. }
    assert (v = true) as ->.
    { rewrite Hv in Hv'. now inversion Hv'. }
    reflexivity.
Qed.

(** C10: with two arguments of which the second is not an integer literal,
    [int] raises [ValueError] out of [main]: the process dies of the uncaught
    exception, having printed nothing and created nothing. *)
Theorem bad_reynolds_is_uncaught (prog case_dir s : string) (w : world) :
  IntParse.parse s = None ->
  Plots.script [prog; case_dir; s] w =
  (Uncaught (Exn ValueError ("invalid literal for int() with base 10: '" ++ s ++ "'")),
   w).
Proof.
  intros Hs. unfold Plots.script, Plots.main. cbn [length Nat.eqb negb nth].
  unfold mbind, lift, int_of_str. rewrite Hs. reflexivity.
Qed.

End Velocity.

(** *** The claims at sample inputs *)

Lemma missing_summary_exits_zero_witness :
  is_Some (files Samples.empty_results !! "results")
  /\ files Samples.empty_results !! Spec.summary_path "results" = None
  /\ fst (Report.script (H := reference_pandas) ["generate-report.py"; "results"]
                        Samples.empty_results) = Exit 0.
Proof.
  assert (H1 : is_Some (files Samples.empty_results !! "results"))
    by (eexists; reflexivity).
  assert (H2 : files Samples.empty_results !! Spec.summary_path "results" = None)
    by reflexivity.
  split; [exact H1 | split; [exact H2 |]].
  rewrite (missing_summary_exits_zero (H := reference_pandas)
             "generate-report.py" "results" Samples.empty_results H1 H2).
  reflexivity.
Defined.

(** At this input the summary file is missing, yet the exit status is 0 and
    not a nonzero code. *)
Lemma missing_summary_status_counterexample :
  files Samples.empty_results !! "results/summary.csv" = None
  /\ exit_status (fst (Report.script (H := reference_pandas)
                         ["generate-report.py"; "results"] Samples.empty_results))
     = 0.
Proof. split; vm_compute; reflexivity. Qed.

(** At this input the log is present and valid and the output directory
    is there, yet no image is produced and the flag is false: the image
    name, with the 241 digits of the Reynolds number, is longer than the
    file system takes, and the plotter catches the error of the write. *)
Lemma long_name_counterexample :
  files Samples.case !! Plots.residuals_path "case"
  = Some (File (ResidualLog (Parsed Samples.log)))
  /\ files Samples.case !! "case/plots" = Some Dir
  /\ Plots.plot_residuals "case" (10 ^ 240) "case/plots" Samples.case
     = (Ok false,
        World (files Samples.case)
              ["Error plotting residuals: [Errno 36] File name too long: '"
               ++ Spec.residuals_image "case/plots" (10 ^ 240) ++ "'"]
              (clock Samples.case)).
Proof. repeat split; vm_compute; reflexivity. Qed.

(** At this Reynolds number, the first whose thousandth no longer rounds
    to a float, no U profile is computed: the true division overflows, the
    plotter catches the exception, returns false and writes nothing.  One
    below, the quotient is still a float, the largest in magnitude. *)
Lemma huge_reynolds_counterexample :
  Plots.u_profile (H := series_numpy) (1000 * (2 ^ 1024 - 2 ^ 970)) Spec.grid
  = Raise (Exn OverflowError "integer division result too large for a float")
  /\ Plots.plot_velocity_profile (H := series_numpy) "case"
       (1000 * (2 ^ 1024 - 2 ^ 970)) "case/plots" Samples.case
     = (Ok false,
        World (files Samples.case)
              ["Error plotting velocity profile: integer division result too large for a float"]
              (clock Samples.case))
  /\ int_truediv (- (1000 * (2 ^ 1024 - 2 ^ 970) - 1)) 1000
     = Ok (-0x1.fffffffffffffp+1023)%float.
Proof. repeat split; vm_compute; reflexivity. Qed.

Lemma bad_reynolds_is_uncaught_witness :
  IntParse.parse "abc" = None
  /\ fst (Plots.script (H := series_numpy) ["generate-plots.py"; "case"; "abc"]
                       Samples.case)
     = Uncaught (Exn ValueError "invalid literal for int() with base 10: 'abc'").
Proof.
  assert (H1 : IntParse.parse "abc" = None) by reflexivity.
  split; [exact H1 |].
  rewrite (bad_reynolds_is_uncaught (H := series_numpy)
             "generate-plots.py" "case" "abc" Samples.case H1).
  reflexivity.
Defined.

(** The report of the sample table: three of four cases succeeded. *)
Example sample_report_metrics :
  Spec.reported_rate Samples.table = Ok "75.0"
  /\ Spec.reported_runtime (H := reference_pandas) Samples.table = Ok "21.2"
  /\ map (fun r => Report.convergence_quality (FinalResidual r)) Samples.table
     = ["Good"; "Unknown"; "Excellent"; "Excellent"]
  /\ Report.residual_panel (H := reference_pandas)
       (Report.with_status "SUCCESS" Samples.table)
     = Ok (Some {| line_x := [100; 2000];
                   line_y := [0.0005; 0.00005]%float |}).
Proof. repeat split; vm_compute; reflexivity. Qed.

(** A full run of the plot generator on the sample case. *)
Example sample_plots_run :
  fst (Plots.script (H := series_numpy) ["generate-plots.py"; "case"; "100"]
                    Samples.case) = Exit 0
  /\ stdout (snd (Plots.script (H := series_numpy)
                    ["generate-plots.py"; "case"; "100"] Samples.case))
     = [ "Generating plots for case: case, Re = 100";
         "Generated residuals plot: case/plots/residuals_Re100.png";
         "Generated velocity profile plot: case/plots/velocity_profile_Re100.png";
         "Successfully generated all plots for Re = 100" ].
Proof. split; vm_compute; reflexivity. Qed.

(** A full run of the report generator on the sample table, and the first
    row of the table it writes. *)
Example sample_report_run :
  fst (Report.script (H := reference_pandas) ["generate-report.py"; "results"]
                     Samples.results) = Exit 0
  /\ stdout (snd (Report.script (H := reference_pandas)
                    ["generate-report.py"; "results"] Samples.results))
     = [ "Generating comprehensive report for: results";
         "Processing 4 simulation results";
         "Generated summary plot: results/parametric_study_summary.png";
         "Generated HTML report: results/parametric_study_report.html";
         "Report generation completed successfully!";
         "Open results/parametric_study_report.html to view the report" ]
  /\ Report.table_row {| Reynolds := 100; Status := "SUCCESS"; Runtime := 12.5%float;
                         FinalResidual := Num 0.0005%float |}
     = Report.template
         [ "        <tr>";
           "            <td>100</td>";
           "            <td><span class=" ++ dq ++ "success" ++ dq ++ ">SUCCESS</span></td>";
           "            <td>12.5</td>";
           "            <td>0.0005</td>";
           "            <td>Good</td>";
           "        </tr>" ].
Proof. repeat split; vm_compute; reflexivity. Qed.

(** * Beyond the claims *)

(** ** Files a computation leaves alone *)

Section Frames.
Context {A B : Type} (allowed : string -> Prop).

Lemma only_touches_ret (a : A) : Runs.only_touches allowed (ret a).
Proof. intros w p _. reflexivity. Qed.

Lemma only_touches_raise (e : exn) : Runs.only_touches allowed (@raise A e).
Proof. intros w p _. reflexivity. Qed.

Lemma only_touches_lift (r : result A) : Runs.only_touches allowed (lift r).
Proof. intros w p _. reflexivity. Qed.

Lemma only_touches_bind (c : M A) (k : A -> M B) :
  Runs.only_touches allowed c ->
  (forall a, Runs.only_touches allowed (k a)) ->
  Runs.only_touches allowed (mbind c k).
Proof.
  intros Hc Hk w p Hp. unfold mbind.
  specialize (Hc w p Hp). destruct (c w) as [[a | e] w']; cbn [snd] in *.
  - now rewrite (Hk a w' p Hp).
  - exact Hc.
Qed.

Lemma only_touches_try (body : M A) (handler : exn -> M A) :
  Runs.only_touches allowed body ->
  (forall e, Runs.only_touches allowed (handler e)) ->
  Runs.only_touches allowed (try_except body handler).
Proof.
  intros Hb Hh w p Hp. unfold try_except.
  specialize (Hb w p Hp). destruct (body w) as [[a | [k m | c]] w']; cbn [snd] in *;
    try exact Hb.
  now rewrite (Hh (Exn k m) w' p Hp).
Qed.

End Frames.

Lemma only_touches_print (allowed : string -> Prop) (line : string) :
  Runs.only_touches allowed (print line).
Proof. intros w p _. reflexivity. Qed.

Lemma only_touches_exists (allowed : string -> Prop) (q : string) :
  Runs.only_touches allowed (path_exists q).
Proof. intros w p _. reflexivity. Qed.

Lemma only_touches_now (allowed : string -> Prop) : Runs.only_touches allowed now.
Proof. intros w p _. reflexivity. Qed.

Lemma only_touches_write (allowed : string -> Prop) (d name : string) (c : content) :
  allowed (joinpath d name) -> Runs.only_touches allowed (write_file d name c).
Proof.
  intros Hin w p Hp. unfold write_file.
  assert (Hne : joinpath d name <> p) by (intros <-; contradiction).
  destruct (files w !! d) as [[| c'] |]; try reflexivity.
  destruct (name_fits name); cbn [negb]; try reflexivity.
  destruct (files w !! joinpath d name) as [[| c'] |]; cbn [snd files];
    try reflexivity; now rewrite lookup_insert_ne.
Qed.

Lemma only_touches_read_csv (allowed : string -> Prop) (q : string) :
  Runs.only_touches allowed (Report.read_csv q).
Proof.
  intros w p _. unfold Report.read_csv.
  destruct (files w !! q) as [[| []] |]; reflexivity.
Qed.

Lemma only_touches_read_residuals (allowed : string -> Prop) (q : string) :
  Runs.only_touches allowed (Plots.read_residuals q).
Proof.
  intros w p _. unfold Plots.read_residuals.
  destruct (files w !! q) as [[| []] |]; reflexivity.
Qed.

Lemma only_touches_mkdir (allowed : string -> Prop) (d name : string) :
  allowed (joinpath d name) -> Runs.only_touches allowed (Plots.mkdir_exist_ok d name).
Proof.
  intros Hin w p Hp. unfold Plots.mkdir_exist_ok.
  assert (Hne : joinpath d name <> p) by (intros <-; contradiction).
  destruct (files w !! joinpath d name) as [[| c'] |]; try reflexivity.
  destruct (files w !! d) as [[| c'] |]; cbn [snd files]; try reflexivity.
  now rewrite lookup_insert_ne.
Qed.

Create HintDb touches discriminated.

Ltac frame :=
  repeat first
    [ solve [auto 1 with touches nocore]
    | apply only_touches_bind; [| intros ?]
    | apply only_touches_try; [| intros ?]
    | apply only_touches_print
    | apply only_touches_exists
    | apply only_touches_now
    | apply only_touches_lift
    | apply only_touches_ret
    | apply only_touches_raise
    | apply only_touches_read_csv
    | apply only_touches_read_residuals
    | match goal with
      | |- Runs.only_touches _ (if ?b then _ else _) => destruct b
      | |- Runs.only_touches _ (let '(_, _) := ?x in _) => destruct x
      end ].

(** ** The report generator as a whole *)

Section ReportRuns.
Context `{Pandas}.

Lemma summary_plots_frame (results_dir : string) :
  Runs.only_touches (Runs.report_outputs results_dir)
    (Report.generate_summary_plots results_dir).
Proof.
  unfold Report.generate_summary_plots. frame.
  unfold savefig. apply only_touches_write. now left.
Qed.

#[local] Hint Resolve summary_plots_frame : touches.

Lemma html_report_frame (results_dir : string) :
  Runs.only_touches (Runs.report_outputs results_dir)
    (Report.generate_html_report results_dir).
Proof.
  unfold Report.generate_html_report. frame.
  apply only_touches_write. now right.
Qed.

#[local] Hint Resolve html_report_frame : touches.

Lemma report_main_frame (argv : list string) :
  Runs.only_touches (Runs.report_outputs (nth 1 argv "")) (Report.main argv).
Proof. unfold Report.main, sys_exit. frame. Qed.

Lemma report_script_world (argv : list string) (w : world) :
  snd (Report.script argv w) = snd (Report.main argv w).
Proof.
  unfold Report.script. now destruct (Report.main argv w) as [[u | [k m | c]] w'].
Qed.

Lemma summary_not_output (results_dir : string) :
  ~ Runs.report_outputs results_dir (Spec.summary_path results_dir).
Proof.
  unfold Runs.report_outputs, Runs.summary_image, Spec.report_path, Spec.summary_path.
  intros [Heq | Heq]; apply joinpath_inj in Heq; discriminate.
Qed.

Lemma results_dir_not_output (results_dir : string) :
  ~ Runs.report_outputs results_dir results_dir.
Proof.
  unfold Runs.report_outputs, Runs.summary_image, Spec.report_path.
  intros [Heq | Heq]; symmetry in Heq; now apply joinpath_not_dir in Heq.
Qed.

(** X1: whatever its arguments and whatever the file system holds, a run of
    the report generator leaves every path other than the summary chart and
    the HTML report as it was; in particular the summary file it reads and
    the results directory themselves are unchanged. *)
Theorem report_touches_only_its_outputs (argv : list string) (w : world) :
  (forall p, ~ Runs.report_outputs (nth 1 argv "") p ->
             files (snd (Report.script argv w)) !! p = files w !! p)
  /\ files (snd (Report.script argv w)) !! Spec.summary_path (nth 1 argv "")
     = files w !! Spec.summary_path (nth 1 argv "")
  /\ files (snd (Report.script argv w)) !! nth 1 argv "" = files w !! nth 1 argv "".
Proof.
  rewrite report_script_world.
  pose proof (report_main_frame argv w) as Hframe.
  split; [exact Hframe |]. split.
  - apply Hframe, summary_not_output.
  - apply Hframe, results_dir_not_output.
Qed.

End ReportRuns.

(** ** The summary chart *)

Lemma value_counts_lookup (col : list string) (s : string) :
  Report.value_counts col !! s =
  match count_occ string_dec col s with
  | O => None
  | S n => Some (S n)
  end.
Proof.
  unfold Report.value_counts.
  induction col as [| a col IH]; cbn [fold_right count_occ]; [apply lookup_empty |].
  destruct (string_dec a s) as [-> | Hne].
  - rewrite lookup_insert_eq, IH. now destruct (count_occ string_dec col s).
  - now rewrite lookup_insert_ne.
Qed.

Lemma value_counts_total (col : list string) :
  map_fold (fun _ n total => (n + total)%nat) O (Report.value_counts col)
  = length col.
Proof.
  unfold Report.value_counts.
  induction col as [| a col IH]; cbn [fold_right length]; [apply map_fold_empty |].
  set (m := fold_right _ ∅ col) in *.
  assert (Hcomm : forall (m' : gmap string nat) (j1 j2 : string) (z1 z2 y : nat),
             j1 <> j2 -> m' !! j1 = Some z1 -> m' !! j2 = Some z2 ->
             (z1 + (z2 + y) = z2 + (z1 + y))%nat) by (intros; lia).
  destruct (m !! a) as [k |] eqn:Ha; cbn [default].
  - rewrite (map_fold_delete_L _ _ a (S k) (<[a:=S k]> m));
      [| apply Hcomm | apply lookup_insert_eq].
    rewrite delete_insert_eq.
    rewrite (map_fold_delete_L _ _ a k m) in IH; [| apply Hcomm | exact Ha].
    lia.
  - rewrite map_fold_insert_L; [| apply Hcomm | exact Ha]. now rewrite IH.
Qed.

(** The pie chart is drawn for every table with at least one row, and
    refused for a table without rows. *)
Lemma pie_drawn (col : list string) :
  col <> [] -> Report.pie (Report.value_counts col) = Ok (Report.value_counts col).
Proof.
  intros Hne. unfold Report.pie. rewrite value_counts_total.
  destruct col; [congruence | reflexivity].
Qed.

Lemma pie_refused :
  Report.pie (Report.value_counts []) = Raise (Exn ValueError "All wedge sizes are zero").
Proof. unfold Report.pie. now rewrite value_counts_total. Qed.

Lemma pie_exception (counts : gmap string nat) :
  Report.pie counts = Ok counts
  \/ exists msg, Report.pie counts = Raise (Exn ValueError msg).
Proof.
  unfold Report.pie. destruct (_ =? _)%nat; [right; eauto | left; reflexivity].
Qed.

(** X2: the status counts behind the pie chart: a status is a key exactly
    when it occurs in the Status column, its count is its number of
    occurrences there, and the counts add up to the number of rows (the
    Status column holding text in every row). *)
Theorem value_counts_correct (col : list string) :
  (forall s n, Report.value_counts col !! s = Some n <->
               n = count_occ string_dec col s /\ In s col)
  /\ (forall s, Report.value_counts col !! s = None <-> ~ In s col)
  /\ map_fold (fun _ n total => (n + total)%nat) O (Report.value_counts col)
     = length col.
Proof.
  split; [| split].
  - intros s n. rewrite value_counts_lookup.
    destruct (count_occ string_dec col s) as [| k] eqn:Hc.
    + split; [discriminate |]. intros [_ Hin].
      apply (count_occ_In string_dec) in Hin. lia.
    + split.
      * intros [= <-]. split; [reflexivity |].
        apply (count_occ_In string_dec). lia.
      * now intros [-> _].
  - intros s. rewrite value_counts_lookup.
    destruct (count_occ string_dec col s) as [| k] eqn:Hc.
    + split; [| reflexivity]. intros _.
      now apply (count_occ_not_In string_dec).
    + split; [discriminate |]. intros Hnot.
      apply (count_occ_not_In string_dec) in Hnot. lia.
  - apply value_counts_total.
Qed.

Lemma count_three (df : DataFrame) :
  (count_occ string_dec (map Status df) "SUCCESS"
   + count_occ string_dec (map Status df) "FAILED"
   + count_occ string_dec (map Status df) "CONVERGED_POOR"
   + length (List.filter
               (fun r => negb (String.eqb (Status r) "SUCCESS")
                         && negb (String.eqb (Status r) "FAILED")
                         && negb (String.eqb (Status r) "CONVERGED_POOR")) df)
   = length df)%nat.
Proof.
  induction df as [| r df IH]; [reflexivity |].
  cbn [map count_occ List.filter length].
  destruct (String.eqb_spec (Status r) "SUCCESS") as [-> | H1];
    [cbn; lia |].
  destruct (String.eqb_spec (Status r) "FAILED") as [-> | H2];
    [cbn; lia |].
  destruct (String.eqb_spec (Status r) "CONVERGED_POOR") as [-> | H3];
    [cbn; lia |].
  destruct (string_dec (Status r) "SUCCESS"); [contradiction |].
  destruct (string_dec (Status r) "FAILED"); [contradiction |].
  destruct (string_dec (Status r) "CONVERGED_POOR"); [contradiction |].
  cbn [negb andb length]. lia.
Qed.

(** X3: the four bars of the performance chart are the number of rows, of
    SUCCESS rows, of FAILED rows and of CONVERGED_POOR rows; the last three
    never add up to more than the first, and add up to it exactly when
    every status is one of those three. *)
Theorem performance_data_counts (df : DataFrame) :
  Report.performance_data df =
    [ ("Total Cases", length df);
      ("Successful", Spec.successes df);
      ("Failed", count_occ string_dec (map Status df) "FAILED");
      ("Poor Convergence", count_occ string_dec (map Status df) "CONVERGED_POOR") ]
  /\ (Spec.successes df
       + count_occ string_dec (map Status df) "FAILED"
       + count_occ string_dec (map Status df) "CONVERGED_POOR" <= length df)%nat
  /\ ((Spec.successes df
        + count_occ string_dec (map Status df) "FAILED"
        + count_occ string_dec (map Status df) "CONVERGED_POOR" = length df)%nat
      <-> Forall (fun r => Runs.known_status (Status r)) df).
Proof.
  unfold Report.performance_data. rewrite !length_with_status.
  split; [reflexivity |].
  pose proof (count_three df) as Hsum. unfold Spec.successes.
  split; [lia |]. split.
  - intros Heq.
    assert (Hnone : List.filter
               (fun r => negb (String.eqb (Status r) "SUCCESS")
                         && negb (String.eqb (Status r) "FAILED")
                         && negb (String.eqb (Status r) "CONVERGED_POOR")) df = []).
    { destruct (List.filter _ df); [reflexivity | cbn [length] in Hsum; lia]. }
    apply Forall_forall. intros r Hr. apply list_elem_of_In in Hr.
    unfold Runs.known_status.
    destruct (String.eqb_spec (Status r) "SUCCESS") as [| H1]; [auto |].
    destruct (String.eqb_spec (Status r) "FAILED") as [| H2]; [auto |].
    destruct (String.eqb_spec (Status r) "CONVERGED_POOR") as [| H3]; [auto |].
    exfalso.
    assert (Hin : In r (List.filter
               (fun r => negb (String.eqb (Status r) "SUCCESS")
                         && negb (String.eqb (Status r) "FAILED")
                         && negb (String.eqb (Status r) "CONVERGED_POOR")) df)).
    { apply filter_In. split; [exact Hr |].
      apply String.eqb_neq in H1, H2, H3. now rewrite H1, H2, H3. }
    rewrite Hnone in Hin. destruct Hin.
  - intros Hall.
    assert (Hnone : List.filter
               (fun r => negb (String.eqb (Status r) "SUCCESS")
                         && negb (String.eqb (Status r) "FAILED")
                         && negb (String.eqb (Status r) "CONVERGED_POOR")) df = []).
    { clear Hsum. induction Hall as [| r df Hr _ IH]; [reflexivity |].
      cbn [List.filter]. rewrite IH.
      destruct Hr as [-> | [-> | ->]]; reflexivity. }
    rewrite Hnone in Hsum. cbn [length] in Hsum. lia.
Qed.

(** ** Runs of the report generator *)

Section ReportRuns2.
Context `{Pandas}.

Lemma runtime_panel_value (df : DataFrame) :
  Report.runtime_panel (Report.with_status "SUCCESS" df) =
  Ok (sum_runtime (Runs.summary_figure df)).
Proof.
  unfold Report.runtime_panel, Runs.summary_figure. cbn [sum_runtime].
  destruct (Report.with_status "SUCCESS" df) as [| r rows]; [reflexivity |].
  rewrite bool_decide_eq_false_2 by discriminate. cbn [negb].
  rewrite plot_same_length by now rewrite !length_map. reflexivity.
Qed.

Lemma residual_panel_value (df : DataFrame) :
  Report.residual_panel (Report.with_status "SUCCESS" df) =
  Ok (sum_residual (Runs.summary_figure df)).
Proof. apply residual_panel_line. Qed.

(** The chart step on a readable table. *)
Lemma generate_summary_plots_run (results_dir : string) (df : DataFrame) (w : world) :
  Runs.chart_ready results_dir df w ->
  Report.generate_summary_plots results_dir w =
  (Ok (Some (Runs.summary_image results_dir)),
   World (<[Runs.summary_image results_dir :=
              File (Png (FigSummary (Runs.summary_figure df)))]> (files w))
         (stdout w ++ ["Processing " ++ str_of_nat (length df) ++ " simulation results";
                       "Generated summary plot: " ++ Runs.summary_image results_dir])
         (clock w)).
Proof.
  intros (Hsum & Hrows & Hdir & Himg).
  assert (Hcol : map Status df <> []) by (destruct df; [congruence | discriminate]).
  unfold Report.generate_summary_plots, mbind at 1.
  fold (Spec.summary_path results_dir).
  rewrite (path_exists_Some _ _ _ Hsum). cbn [negb].
  unfold mbind at 1. unfold Report.read_csv. rewrite Hsum. cbn [read].
  unfold mbind at 1. unfold print at 1.
  unfold mbind at 1. unfold lift at 1. rewrite (pie_drawn _ Hcol).
  unfold mbind at 1. unfold lift at 1. rewrite runtime_panel_value.
  unfold mbind at 1. unfold lift at 1. rewrite residual_panel_value.
  unfold mbind at 1. unfold savefig.
  rewrite write_file_ok; [| exact Hdir | reflexivity | exact Himg].
  unfold mbind, print, ret. cbn [files stdout clock].
  rewrite <- app_assoc. reflexivity.
Qed.

(** X4: on a readable summary table with at least one row, with the
    results directory present and the chart path not a directory, the chart
    step returns the chart path and writes exactly that file; its runtime
    panel is missing exactly when no row has status SUCCESS, and otherwise
    has one point per SUCCESS row. *)
Theorem summary_chart_saved (results_dir : string) (df : DataFrame) (w : world) :
  Runs.chart_ready results_dir df w ->
  exists w',
    Report.generate_summary_plots results_dir w
      = (Ok (Some (Runs.summary_image results_dir)), w')
    /\ files w' = <[Runs.summary_image results_dir :=
                     File (Png (FigSummary (Runs.summary_figure df)))]> (files w)
    /\ (sum_runtime (Runs.summary_figure df) = None <-> Spec.successes df = 0%nat)
    /\ (forall l, sum_runtime (Runs.summary_figure df) = Some l ->
          length (line_x l) = Spec.successes df
          /\ length (line_y l) = Spec.successes df).
Proof.
  intros Hready. eexists. split; [exact (generate_summary_plots_run _ _ _ Hready) |].
  cbn [files]. split; [reflexivity |].
  unfold Runs.summary_figure, Spec.successes. cbn [sum_runtime].
  rewrite <- length_with_status.
  destruct (Report.with_status "SUCCESS" df) as [| r rows]; (split; [split |]).
  - reflexivity.
  - reflexivity.
  - discriminate.
  - discriminate.
  - discriminate.
  - intros l [= <-]. cbn [line_x line_y map length]. now rewrite !length_map.
Qed.

(** X5: when the results directory exists and pandas cannot read the
    summary file, the exception of read_csv leaves the chart step and main
    uncaught: the process ends on that exception after the first progress
    line, and no file is written. *)
Theorem report_unreadable_summary (prog results_dir : string) (w : world)
    (kind : exn_type) (msg : string) :
  is_Some (files w !! results_dir) ->
  files w !! Spec.summary_path results_dir = Some (File (Csv (Unreadable kind msg))) ->
  Report.script [prog; results_dir] w =
  (Uncaught (Exn kind msg),
   World (files w)
         (stdout w ++ ["Generating comprehensive report for: " ++ results_dir])
         (clock w)).
Proof.
  intros [node Hdir] Hsum.
  unfold Report.script, Report.main. cbn [length Nat.eqb negb nth].
  unfold mbind at 1. rewrite (path_exists_Some _ _ _ Hdir). cbn [negb].
  unfold mbind at 1. unfold print at 1.
  unfold mbind at 1. unfold Report.generate_summary_plots.
  fold (Spec.summary_path results_dir).
  unfold mbind at 1.
  rewrite (path_exists_Some _ _ (File (Csv (Unreadable kind msg)))) by exact Hsum.
  cbn [negb]. unfold mbind at 1. unfold Report.read_csv. cbn [files].
  rewrite Hsum. reflexivity.
Qed.

(** X15: a summary table without rows stops the report generator in the
    chart step: matplotlib refuses the pie chart of no wedge, the ValueError
    is caught nowhere, and the process ends on it after two progress lines
    with neither the chart nor the report written. *)
Theorem report_empty_table (prog results_dir : string) (w : world) :
  is_Some (files w !! results_dir) ->
  files w !! Spec.summary_path results_dir = Some (File (Csv (Parsed []))) ->
  exists msg : string,
    Report.script [prog; results_dir] w =
    (Uncaught (Exn ValueError msg),
     World (files w)
           (stdout w ++ ["Generating comprehensive report for: " ++ results_dir;
                         "Processing 0 simulation results"])
           (clock w)).
Proof.
  intros [node Hdir] Hsum. eexists.
  unfold Report.script, Report.main. cbn [length Nat.eqb negb nth].
  unfold mbind at 1. rewrite (path_exists_Some _ _ _ Hdir). cbn [negb].
  unfold mbind at 1. unfold print at 1.
  unfold mbind at 1. unfold Report.generate_summary_plots.
  fold (Spec.summary_path results_dir).
  unfold mbind at 1.
  rewrite (path_exists_Some _ _ (File (Csv (Parsed [])))) by exact Hsum.
  cbn [negb]. unfold mbind at 1. unfold Report.read_csv. cbn [files].
  rewrite Hsum. cbn [read].
  unfold mbind at 1. unfold print at 1.
  unfold mbind at 1. unfold lift at 1. cbn [map]. rewrite pie_refused.
  cbn [files stdout clock length]. rewrite <- app_assoc. reflexivity.
Qed.

Lemma chart_then_report_ready (results_dir : string) (df : DataFrame) (w : world)
    (fig : figure) (out : list string) :
  Spec.report_ready results_dir df w ->
  Spec.report_ready results_dir df
    (World (<[Runs.summary_image results_dir := File (Png fig)]> (files w)) out (clock w)).
Proof.
  intros (Hsum & Hdir & Hrep). unfold Spec.report_ready. cbn [files].
  unfold Runs.summary_image, Spec.summary_path, Spec.report_path in *.
  split; [| split].
  - rewrite lookup_insert_ne; [exact Hsum |].
    intros Heq. apply joinpath_inj in Heq. discriminate.
  - rewrite lookup_insert_ne; [exact Hdir |]. apply joinpath_not_dir.
  - rewrite lookup_insert_ne; [exact Hrep |].
    intros Heq. apply joinpath_inj in Heq. discriminate.
Qed.

(** The report step with the text it writes. *)
Lemma generate_html_report_text (results_dir : string) (df : DataFrame) (w : world)
    (text : string) :
  Spec.report_ready results_dir df w ->
  Report.html_content (clock w) df = Ok text ->
  Report.generate_html_report results_dir w =
  (Ok (Some (Spec.report_path results_dir)),
   World (<[Spec.report_path results_dir := File (Html text)]> (files w))
         (stdout w ++ ["Generated HTML report: " ++ Spec.report_path results_dir])
         (clock w)).
Proof.
  intros (Hsum & Hdir & Hrep) Htext.
  unfold Report.generate_html_report, mbind.
  fold (Spec.summary_path results_dir).
  rewrite (path_exists_Some _ _ _ Hsum). cbn [negb].
  unfold Report.read_csv. rewrite Hsum. cbn [read].
  unfold now, lift. rewrite Htext.
  rewrite (write_file_ok _ "parametric_study_report.html" _ _ Hdir eq_refl Hrep). reflexivity.
Qed.

(** X6: a complete run of the report generator on a readable summary table
    with at least one row exits with code 0, writes the chart and then the
    HTML report (whose text is html_content at the clock of the start) and
    nothing else, and prints its six progress lines in order. *)
Theorem report_full_run (prog results_dir : string) (df : DataFrame) (w : world) :
  Spec.report_ready results_dir df w ->
  df <> [] ->
  files w !! Runs.summary_image results_dir <> Some Dir ->
  exists (text : string) (w' : world),
    Report.script [prog; results_dir] w = (Exit 0, w')
    /\ Report.html_content (clock w) df = Ok text
    /\ files w' =
       <[Spec.report_path results_dir := File (Html text)]>
         (<[Runs.summary_image results_dir :=
              File (Png (FigSummary (Runs.summary_figure df)))]> (files w))
    /\ stdout w' =
       (stdout w ++
        [ "Generating comprehensive report for: " ++ results_dir;
          "Processing " ++ str_of_nat (length df) ++ " simulation results";
          "Generated summary plot: " ++ Runs.summary_image results_dir;
          "Generated HTML report: " ++ Spec.report_path results_dir;
          "Report generation completed successfully!";
          "Open " ++ results_dir
          ++ "/parametric_study_report.html to view the report" ]%string)%list.
Proof.
  intros Hready Hrows Himg.
  destruct (html_content_split df) as [mid Hsplit].
  assert (Hchart : Runs.chart_ready results_dir df
            (World (files w)
                   (stdout w ++ ["Generating comprehensive report for: " ++ results_dir])
                   (clock w))).
  { destruct Hready as (Hsum & Hdir & _). repeat split; assumption. }
  eexists _, _. split; [| split; [apply Hsplit | split]].
  - unfold Report.script, Report.main. cbn [length Nat.eqb negb nth].
    pose proof Hready as (Hsum & Hdir & Hrep).
    unfold mbind at 1. rewrite (path_exists_Some _ _ _ Hdir). cbn [negb].
    unfold mbind at 1. unfold print at 1.
    unfold mbind at 1.
    rewrite (generate_summary_plots_run _ _ _ Hchart). cbn [files stdout clock].
    unfold mbind at 1.
    rewrite (generate_html_report_text results_dir df _ _
               (chart_then_report_ready _ _ _ _ _ Hready) (Hsplit (clock w))).
    unfold mbind, print, ret. cbn [files stdout clock]. reflexivity.
  - reflexivity.
  - cbn [stdout]. rewrite <- !app_assoc. reflexivity.
Qed.

End ReportRuns2.

(** ** How the report generator ends *)

Section Exits.
Context {A B : Type}.

Lemma never_exits_ret (a : A) : Runs.never_exits (ret a).
Proof. intros w code. discriminate. Qed.

Lemma never_exits_ok (a : A) : Runs.never_exits (lift (Ok a)).
Proof. intros w code. discriminate. Qed.

Lemma never_exits_bind (c : M A) (k : A -> M B) :
  Runs.never_exits c -> (forall a, Runs.never_exits (k a)) ->
  Runs.never_exits (mbind c k).
Proof.
  intros Hc Hk w code. unfold mbind. specialize (Hc w).
  destruct (c w) as [[a | e] w']; cbn [fst] in *.
  - apply Hk.
  - intros [= ->]. now apply (Hc code).
Qed.

End Exits.

Lemma never_exits_print (line : string) : Runs.never_exits (print line).
Proof. intros w code. discriminate. Qed.

Lemma never_exits_exists (q : string) : Runs.never_exits (path_exists q).
Proof. intros w code. discriminate. Qed.

Lemma never_exits_now : Runs.never_exits now.
Proof. intros w code. discriminate. Qed.

Lemma never_exits_write (d name : string) (c : content) :
  Runs.never_exits (write_file d name c).
Proof.
  intros w code. unfold write_file.
  destruct (files w !! d) as [[| c'] |]; try discriminate.
  destruct (name_fits name); cbn [negb]; try discriminate.
  destruct (files w !! joinpath d name) as [[| c'] |]; discriminate.
Qed.

Lemma never_exits_read_csv (q : string) : Runs.never_exits (Report.read_csv q).
Proof.
  intros w code. unfold Report.read_csv.
  destruct (files w !! q) as [[| [[] | [] | |]] |]; discriminate.
Qed.

Lemma never_exits_pie (counts : gmap string nat) :
  Runs.never_exits (lift (Report.pie counts)).
Proof.
  intros w code. unfold lift. cbn [fst].
  destruct (pie_exception counts) as [-> | [msg ->]]; discriminate.
Qed.

Ltac plain :=
  repeat first
    [ apply never_exits_bind; [| intros ?]
    | apply never_exits_pie
    | apply never_exits_print
    | apply never_exits_exists
    | apply never_exits_now
    | apply never_exits_ret
    | apply never_exits_ok
    | apply never_exits_write
    | apply never_exits_read_csv
    | match goal with
      | |- Runs.never_exits (if ?b then _ else _) => destruct b
      end ].

Section ReportExits.
Context `{Pandas}.

Lemma summary_plots_never_exit (results_dir : string) :
  Runs.never_exits (Report.generate_summary_plots results_dir).
Proof.
  unfold Report.generate_summary_plots. plain.
  all: rewrite ?runtime_panel_value, ?residual_panel_value; plain.
  all: unfold savefig; plain.
Qed.

Lemma html_report_never_exits (results_dir : string) :
  Runs.never_exits (Report.generate_html_report results_dir).
Proof.
  unfold Report.generate_html_report. plain.
  match goal with |- context [Report.html_content ?s ?df] =>
    destruct (html_content_split df) as [mid ->] end.
  plain.
Qed.

(** X7: the ways the report generator ends: with any argument count other
    than one it prints the usage line and exits 1; with a missing results
    directory it prints the error line and exits 1, in both cases without
    touching a file; and once the directory exists the process never ends
    through sys.exit: it exits 0 or dies on an uncaught exception. *)
Theorem report_exit_outcomes (argv : list string) (w : world) :
  (length argv <> 2%nat ->
   Report.script argv w =
   (Exit 1,
    World (files w)
          (stdout w ++ ["Usage: python3 generate-report.py <results_directory>"])
          (clock w)))
  /\ (length argv = 2%nat -> files w !! nth 1 argv "" = None ->
      Report.script argv w =
      (Exit 1,
       World (files w)
             (stdout w ++ ["Error: Results directory not found: " ++ nth 1 argv ""])
             (clock w)))
  /\ (length argv = 2%nat -> is_Some (files w !! nth 1 argv "") ->
      fst (Report.script argv w) = Exit 0
      \/ exists kind msg, fst (Report.script argv w) = Uncaught (Exn kind msg)).
Proof.
  split; [| split].
  - intros Hlen. unfold Report.script, Report.main.
    destruct (Nat.eqb_spec (length argv) 2) as [? | _]; [contradiction |].
    reflexivity.
  - intros Hlen Hdir. unfold Report.script, Report.main.
    rewrite Hlen. cbn [Nat.eqb negb].
    unfold mbind at 1. rewrite (path_exists_None _ _ Hdir). reflexivity.
  - intros Hlen [node Hdir].
    assert (Hplain : Runs.never_exits
              (print ("Generating comprehensive report for: " ++ nth 1 argv "") ;;;
               Report.generate_summary_plots (nth 1 argv "") ;;;
               Report.generate_html_report (nth 1 argv "") ;;;
               print "Report generation completed successfully!" ;;;
               print ("Open " ++ nth 1 argv ""
                      ++ "/parametric_study_report.html to view the report") ;;;
               ret tt)).
    { apply never_exits_bind; [apply never_exits_print | intros _].
      apply never_exits_bind; [apply summary_plots_never_exit | intros _].
      apply never_exits_bind; [apply html_report_never_exits | intros _].
      plain. }
    remember (Report.script argv w) as run eqn:Hrun.
    unfold Report.script, Report.main in Hrun. rewrite Hlen in Hrun.
    cbn [Nat.eqb negb] in Hrun.
    unfold mbind at 1 in Hrun. rewrite (path_exists_Some _ _ _ Hdir) in Hrun.
    cbn [negb] in Hrun.
    specialize (Hplain w).
    match type of Hrun with context [let (_, _) := ?body in _] =>
      destruct body as [[u | [k m | c]] w']
    end; cbn [fst] in *; subst run; cbn [fst].
    + now left.
    + right. eauto.
    + now destruct (Hplain c).
Qed.

End ReportExits.

(** ** File names *)

Lemma to_uint_nonnil (n : N) : N.to_uint n <> Decimal.Nil.
Proof.
  destruct n as [| p]; [discriminate |]. apply DecimalPos.Unsigned.to_uint_nonnil.
Qed.

Lemma str_of_N_read (n : N) :
  NilZero.uint_of_string (str_of_N n) = Some (N.to_uint n).
Proof. apply NilZero.usu, to_uint_nonnil. Qed.

Lemma str_of_N_inj (a b : N) : str_of_N a = str_of_N b -> a = b.
Proof.
  intros Heq. apply DecimalN.Unsigned.to_uint_inj.
  pose proof (str_of_N_read a) as Ha. rewrite Heq, str_of_N_read in Ha.
  now injection Ha.
Qed.

Lemma str_of_N_no_sign (n : N) (s : string) : str_of_N n <> "-" ++ s.
Proof.
  intros Heq. pose proof (str_of_N_read n) as Hn. rewrite Heq in Hn.
  change ("-" ++ s) with (String "-"%char s) in Hn.
  cbn [NilZero.uint_of_string NilEmpty.uint_of_string] in Hn.
  unfold uint_of_char in Hn.
  destruct (NilEmpty.uint_of_string s); discriminate.
Qed.

Lemma str_of_Z_inj (a b : Z) : str_of_Z a = str_of_Z b -> a = b.
Proof.
  destruct a as [| p | p], b as [| q | q]; cbn [str_of_Z]; intros Heq;
    try reflexivity.
  - change "0" with (str_of_N 0) in Heq. now apply str_of_N_inj in Heq.
  - change "0" with (str_of_N 0) in Heq. now apply str_of_N_no_sign in Heq.
  - change "0" with (str_of_N 0) in Heq. now apply str_of_N_inj in Heq.
  - apply str_of_N_inj in Heq. now injection Heq as ->.
  - now apply str_of_N_no_sign in Heq.
  - change "0" with (str_of_N 0) in Heq. symmetry in Heq.
    now apply str_of_N_no_sign in Heq.
  - symmetry in Heq. now apply str_of_N_no_sign in Heq.
  - apply (String.app_inj "-") in Heq. apply str_of_N_inj in Heq.
    now injection Heq as ->.
Qed.

Lemma append_cancel_r (a b t : string) : a ++ t = b ++ t -> a = b.
Proof.
  revert b. induction a as [| c a IH]; intros [| d b] Heq.
  - reflexivity.
  - apply (f_equal String.length) in Heq.
    change (String.length t = S (String.length (b ++ t))) in Heq.
    rewrite length_append in Heq. lia.
  - apply (f_equal String.length) in Heq.
    change (S (String.length (a ++ t)) = String.length t) in Heq.
    rewrite length_append in Heq. lia.
  - change (String c (a ++ t) = String d (b ++ t)) in Heq.
    injection Heq as -> Heq. f_equal. now apply IH.
Qed.

(** X8: the image names encode the Reynolds number: two residual images, or
    two velocity images, of one output directory have the same path exactly
    when their Reynolds numbers are equal; a residual image is never a
    velocity image, and neither is the output directory itself. *)
Theorem image_names_distinct (out : string) (n m : Z) :
  (Spec.residuals_image out n = Spec.residuals_image out m <-> n = m)
  /\ (Spec.velocity_image out n = Spec.velocity_image out m <-> n = m)
  /\ Spec.residuals_image out n <> Spec.velocity_image out m
  /\ Spec.residuals_image out n <> out
  /\ Spec.velocity_image out n <> out.
Proof.
  unfold Spec.residuals_image, Spec.velocity_image, Plots.residuals_name,
    Plots.velocity_name.
  repeat split; try (intros ->; reflexivity); try apply joinpath_not_dir.
  - intros Heq. apply joinpath_inj in Heq.
    apply (String.app_inj "residuals_Re") in Heq.
    apply append_cancel_r in Heq. now apply str_of_Z_inj.
  - intros Heq. apply joinpath_inj in Heq.
    apply (String.app_inj "velocity_profile_Re") in Heq.
    apply append_cancel_r in Heq. now apply str_of_Z_inj.
  - intros Heq. apply joinpath_inj in Heq. discriminate.
Qed.

Lemma images_differ (out : string) (n : Z) :
  Spec.residuals_image out n <> Spec.velocity_image out n.
Proof.
  unfold Spec.residuals_image, Spec.velocity_image, Plots.residuals_name,
    Plots.velocity_name.
  intros Heq. apply joinpath_inj in Heq. discriminate.
Qed.

(** ** The plot operations *)

(** X9: plot_residuals returns True exactly when the residual log parses
    into four columns of one length, the output directory exists, the
    image name (which carries every digit of the Reynolds number) is not
    longer than the file system takes, and the image path is not a
    directory. *)
Theorem plot_residuals_true_iff (case_dir : string) (n : Z) (out : string)
    (w : world) :
  fst (Plots.plot_residuals case_dir n out w) = Ok true
  <-> Runs.residuals_renderable case_dir n out w.
Proof.
  split.
  - apply plot_residuals_true_inv.
  - intros (time & ux & uy & p & Hlog & H1 & H2 & H3 & Hout & Hfit & Himg).
    now rewrite (plot_residuals_valid case_dir n out w time ux uy p).
Qed.

Section VelocityRuns.
Context `{Numpy}.

(** A true result of the velocity plotter tells that the image could be
    written. *)
Lemma plot_velocity_true_inv (case_dir : string) (n : Z) (out : string)
    (w : world) :
  fst (Plots.plot_velocity_profile case_dir n out w) = Ok true ->
  Runs.writable out (Plots.velocity_name n) w.
Proof.
  unfold Plots.plot_velocity_profile, try_except,
    Plots.plot_velocity_profile_try, mbind, lift.
  fold Spec.grid.
  destruct (u_profile_exception n Spec.grid) as [(u & -> & Hlen) | (k & m & ->)];
    [| cbn; discriminate].
  rewrite plot_same_length by exact Hlen.
  rewrite plot_same_length by (unfold Plots.zeros_like; apply length_map).
  unfold savefig.
  match goal with |- context [write_file out ?name ?c w] =>
    destruct (write_file_exception out name c w) as [[w' Hw] | (k & m & Hw)];
      rewrite Hw; [| cbn; discriminate]
  end.
  intros _. exact (write_file_inv _ _ _ _ _ Hw).
Qed.

(** X10: for every Reynolds number, plot_velocity_profile returns True
    exactly when the image can be written (the output directory exists, the
    image name, which carries every digit of the number, is not longer than
    the file system takes, and the image path is not a directory) and False
    exactly otherwise: it reads nothing from the case directory. *)
Theorem plot_velocity_true_iff (case_dir : string) (n : Z) (out : string)
    (w : world) :
  (fst (Plots.plot_velocity_profile case_dir n out w) = Ok true
   <-> Runs.writable out (Plots.velocity_name n) w)
  /\ (fst (Plots.plot_velocity_profile case_dir n out w) = Ok false
      <-> ~ Runs.writable out (Plots.velocity_name n) w).
Proof.
  assert (Htrue : fst (Plots.plot_velocity_profile case_dir n out w) = Ok true
                  <-> Runs.writable out (Plots.velocity_name n) w).
  { split; [apply plot_velocity_true_inv |].
    intros (Hout & Hfit & Himg).
    now rewrite (plot_velocity_profile_saved n case_dir out w Hout Hfit Himg). }
  split; [exact Htrue |].
  destruct (plot_velocity_profile_total case_dir n out w) as (ok & w' & Hrun).
  rewrite Hrun in Htrue |- *. cbn [fst] in *.
  destruct ok; split.
  - discriminate.
  - intros Hnot. exfalso. apply Hnot. now apply Htrue.
  - intros _ Hw. apply Htrue in Hw. discriminate.
  - reflexivity.
Qed.

End VelocityRuns.

(** ** Runs of the plot generator *)

Lemma log_not_plots_dir (case_dir : string) :
  Plots.residuals_path case_dir <> Spec.plots_dir case_dir.
Proof.
  unfold Plots.residuals_path, Spec.plots_dir. intros Heq.
  apply joinpath_inj in Heq. discriminate.
Qed.

Lemma log_not_in_plots_dir (case_dir name : string) :
  Plots.residuals_path case_dir <> joinpath (Spec.plots_dir case_dir) name.
Proof.
  unfold Plots.residuals_path, Spec.plots_dir, joinpath. intros Heq.
  rewrite !append_assoc in Heq.
  apply String.app_inj in Heq. apply (String.app_inj "/") in Heq.
  revert Heq. generalize ("/" ++ name). intros rest Heq.
  change ("plots" ++ rest)
    with (String "p" (String "l" (String "o" (String "t" (String "s" rest))))) in Heq.
  discriminate.
Qed.

Lemma case_not_in_plots_dir (case_dir name : string) :
  joinpath (Spec.plots_dir case_dir) name <> case_dir.
Proof.
  unfold Spec.plots_dir, joinpath. rewrite !append_assoc. intros Heq.
  rewrite <- (append_nil_r case_dir) in Heq at 2.
  apply String.app_inj in Heq. discriminate.
Qed.

(** What [mkdir] does in a case that is ready. *)
Lemma mkdir_ready (case_dir : string) (n : Z) (w : world) :
  Runs.case_ready case_dir n w ->
  exists w1,
    Plots.mkdir_exist_ok case_dir "plots" w = (Ok tt, w1)
    /\ files w1 = <[Spec.plots_dir case_dir := Dir]> (files w)
    /\ stdout w1 = stdout w /\ clock w1 = clock w.
Proof.
  intros (Hcase & Hplots & _). unfold Plots.mkdir_exist_ok.
  fold (Spec.plots_dir case_dir).
  destruct Hplots as [Hnone | Hdir].
  - rewrite Hnone, Hcase. eexists. repeat split.
  - rewrite Hdir. exists w. repeat split. symmetry. now apply insert_id.
Qed.

Section PlotRuns.
Context `{Numpy}.

Lemma plot_residuals_frame (case_dir : string) (n : Z) (out : string)
    (allowed : string -> Prop) :
  allowed (Spec.residuals_image out n) ->
  Runs.only_touches allowed (Plots.plot_residuals case_dir n out).
Proof.
  intros Hin. unfold Plots.plot_residuals, Plots.plot_residuals_try. frame.
  unfold savefig. now apply only_touches_write.
Qed.

Lemma plot_velocity_frame (case_dir : string) (n : Z) (out : string)
    (allowed : string -> Prop) :
  allowed (Spec.velocity_image out n) ->
  Runs.only_touches allowed (Plots.plot_velocity_profile case_dir n out).
Proof.
  intros Hin. unfold Plots.plot_velocity_profile, Plots.plot_velocity_profile_try.
  frame. unfold savefig. now apply only_touches_write.
Qed.

Lemma plots_main_frame (argv : list string) :
  Runs.only_touches (Runs.plot_outputs (nth 1 argv "") (nth 2 argv ""))
                    (Plots.main argv).
Proof.
  unfold Plots.main.
  destruct (negb (length argv =? 3)%nat); [unfold sys_exit; frame |].
  destruct (int_of_str (nth 2 argv "")) as [n | e] eqn:Hs.
  2:{ intros w p _. reflexivity. }
  assert (Hstep : forall k : Z -> M Z,
             Runs.only_touches (Runs.plot_outputs (nth 1 argv "") (nth 2 argv "")) (k n) ->
             Runs.only_touches (Runs.plot_outputs (nth 1 argv "") (nth 2 argv ""))
                               (mbind (lift (Ok n)) k)).
  { intros k Hk w p Hp. exact (Hk w p Hp). }
  apply Hstep.
  apply only_touches_bind; [apply only_touches_mkdir; now left | intros _].
  apply only_touches_bind; [apply only_touches_print | intros _].
  apply only_touches_bind; [| intros r].
  { apply plot_residuals_frame. right. exists n. auto. }
  apply only_touches_bind; [| intros v].
  { apply plot_velocity_frame. right. exists n. auto. }
  frame.
Qed.

Lemma plots_script_world (argv : list string) (w : world) :
  snd (Plots.script argv w) = snd (Plots.main argv w).
Proof.
  unfold Plots.script. now destruct (Plots.main argv w) as [[u | [k m | c]] w'].
Qed.

(** X11: whatever its arguments and whatever the file system holds, a run
    of the plot generator leaves every path other than the plots directory
    and the two images of the parsed Reynolds number as it was; in
    particular the residual log and the case directory are unchanged. *)
Theorem plots_touch_only_their_outputs (argv : list string) (w : world) :
  (forall p, ~ Runs.plot_outputs (nth 1 argv "") (nth 2 argv "") p ->
             files (snd (Plots.script argv w)) !! p = files w !! p)
  /\ files (snd (Plots.script argv w)) !! Plots.residuals_path (nth 1 argv "")
     = files w !! Plots.residuals_path (nth 1 argv "")
  /\ files (snd (Plots.script argv w)) !! nth 1 argv "" = files w !! nth 1 argv "".
Proof.
  rewrite plots_script_world.
  pose proof (plots_main_frame argv w) as Hframe.
  split; [exact Hframe |]. split; apply Hframe.
  - intros [Heq | (n & _ & [Heq | Heq])].
    + now apply log_not_plots_dir in Heq.
    + now apply log_not_in_plots_dir in Heq.
    + now apply log_not_in_plots_dir in Heq.
  - intros [Heq | (n & _ & [Heq | Heq])].
    + symmetry in Heq. now apply joinpath_not_dir in Heq.
    + symmetry in Heq. now apply case_not_in_plots_dir in Heq.
    + symmetry in Heq. now apply case_not_in_plots_dir in Heq.
Qed.


(** X13: a complete run of the plot generator: with a valid Reynolds
    number, a case directory that can take the plots (which includes image
    names that the file system takes) and a residual log of four columns of
    one length, the process exits 0, the file system gains the plots
    directory, the residual image and the velocity image and nothing else,
    and four lines are printed in order. *)
Theorem plots_full_run (prog case_dir s : string) (n : Z) (w : world)
    (time ux uy p : list float) :
  int_of_str s = Ok n ->
  Runs.case_ready case_dir n w ->
  files w !! Plots.residuals_path case_dir
    = Some (File (ResidualLog (Parsed [time; ux; uy; p]))) ->
  length ux = length time -> length uy = length time -> length p = length time ->
  exists w',
    Plots.script [prog; case_dir; s] w = (Exit 0, w')
    /\ files w' =
       <[Spec.velocity_image (Spec.plots_dir case_dir) n := Runs.velocity_file n]>
         (<[Spec.residuals_image (Spec.plots_dir case_dir) n :=
              File (Png (FigResiduals
                {| res_title := "Convergence History - Re = " ++ str_of_Z n;
                   res_Ux := {| line_x := time; line_y := ux |};
                   res_Uy := {| line_x := time; line_y := uy |};
                   res_p := {| line_x := time; line_y := p |} |}))]>
            (<[Spec.plots_dir case_dir := Dir]> (files w)))
    /\ stdout w' =
       (stdout w ++
        [ "Generating plots for case: " ++ case_dir ++ ", Re = " ++ str_of_Z n;
          "Generated residuals plot: "
          ++ Spec.residuals_image (Spec.plots_dir case_dir) n;
          "Generated velocity profile plot: "
          ++ Spec.velocity_image (Spec.plots_dir case_dir) n;
          "Successfully generated all plots for Re = " ++ str_of_Z n ]%string)%list.
Proof.
  intros Hs Hready Hlog Hux Huy Hp.
  destruct (mkdir_ready case_dir n w Hready) as (w1 & Hmk & Hf1 & Ho1 & Hc1).
  destruct Hready as (Hcase & _ & Hfit & Hres & Hvel).
  set (out := Spec.plots_dir case_dir) in *.
  pose proof (plot_residuals_valid case_dir n out (Spec.announce case_dir n w1)
                time ux uy p) as Hr.
  cbn [Spec.announce files stdout clock] in Hr. rewrite Hf1 in Hr.
  rewrite lookup_insert_ne in Hr by (apply not_eq_sym, log_not_plots_dir).
  rewrite lookup_insert_eq in Hr.
  rewrite lookup_insert_ne in Hr by (apply not_eq_sym, joinpath_not_dir).
  specialize (Hr Hlog Hux Huy Hp eq_refl (shorter_name_fits n Hfit) Hres).
  eexists. split; [| split].
  - unfold Plots.script, Plots.main. cbn [length Nat.eqb negb nth].
    unfold mbind at 1. unfold lift at 1. rewrite Hs.
    unfold mbind at 1. rewrite Hmk.
    unfold mbind at 1. unfold print at 1. fold (Spec.announce case_dir n w1).
    unfold mbind at 1. fold (Spec.plots_dir case_dir). fold out. rewrite Hr.
    unfold mbind at 1.
    rewrite (plot_velocity_profile_saved n case_dir out).
    2:{ cbn [files].
        rewrite lookup_insert_ne by apply joinpath_not_dir. apply lookup_insert_eq. }
    2:{ exact Hfit. }
    2:{ cbn [files].
        rewrite lookup_insert_ne by apply images_differ.
        rewrite lookup_insert_ne by (apply not_eq_sym, joinpath_not_dir).
        exact Hvel. }
    cbn [andb]. unfold mbind, print, ret. cbn [files stdout clock]. reflexivity.
  - cbn [files]. reflexivity.
  - cbn [stdout]. rewrite Ho1, <- !app_assoc. reflexivity.
Qed.

(** X14: a run of the plot generator without the residual log, in a case
    directory that can take the plots (which includes image names that the
    file system takes): the process exits 1, yet the velocity image is
    still written (with the plots directory) and no residual image is; the
    warning and the failure line are printed. *)
Theorem plots_run_without_log (prog case_dir s : string) (n : Z) (w : world) :
  int_of_str s = Ok n ->
  Runs.case_ready case_dir n w ->
  files w !! Plots.residuals_path case_dir = None ->
  exists w',
    Plots.script [prog; case_dir; s] w = (Exit 1, w')
    /\ files w' =
       <[Spec.velocity_image (Spec.plots_dir case_dir) n := Runs.velocity_file n]>
         (<[Spec.plots_dir case_dir := Dir]> (files w))
    /\ stdout w' =
       (stdout w ++
        [ "Generating plots for case: " ++ case_dir ++ ", Re = " ++ str_of_Z n;
          "Warning: Residuals file not found: " ++ Plots.residuals_path case_dir;
          "Generated velocity profile plot: "
          ++ Spec.velocity_image (Spec.plots_dir case_dir) n;
          "Some plots failed for Re = " ++ str_of_Z n ]%string)%list.
Proof.
  intros Hs Hready Hlog.
  destruct (mkdir_ready case_dir n w Hready) as (w1 & Hmk & Hf1 & Ho1 & Hc1).
  destruct Hready as (Hcase & _ & Hfit & Hres & Hvel).
  set (out := Spec.plots_dir case_dir) in *.
  pose proof (plot_residuals_absent case_dir n out (Spec.announce case_dir n w1)) as Hr.
  cbn [Spec.announce files stdout clock] in Hr. rewrite Hf1 in Hr.
  rewrite lookup_insert_ne in Hr by (apply not_eq_sym, log_not_plots_dir).
  specialize (Hr Hlog).
  eexists. split; [| split].
  - unfold Plots.script, Plots.main. cbn [length Nat.eqb negb nth].
    unfold mbind at 1. unfold lift at 1. rewrite Hs.
    unfold mbind at 1. rewrite Hmk.
    unfold mbind at 1. unfold print at 1. fold (Spec.announce case_dir n w1).
    unfold mbind at 1. fold (Spec.plots_dir case_dir). fold out. rewrite Hr.
    unfold mbind at 1.
    rewrite (plot_velocity_profile_saved n case_dir out).
    2:{ cbn [files]. apply lookup_insert_eq. }
    2:{ exact Hfit. }
    2:{ cbn [files].
        rewrite lookup_insert_ne by (apply not_eq_sym, joinpath_not_dir).
        exact Hvel. }
    cbn [andb]. unfold mbind, print, ret. cbn [files stdout clock]. reflexivity.
  - cbn [files]. reflexivity.
  - cbn [stdout]. rewrite Ho1, <- !app_assoc. reflexivity.
Qed.

End PlotRuns.

(** ** The runs at concrete inputs *)

Lemma summary_chart_saved_witness :
  Runs.chart_ready "results" Samples.table Samples.results
  /\ fst (Report.generate_summary_plots (H := reference_pandas) "results"
            Samples.results)
     = Ok (Some "results/parametric_study_summary.png").
Proof.
  assert (H1 : Runs.chart_ready "results" Samples.table Samples.results)
    by (split; [reflexivity | split; [discriminate | split; [reflexivity | discriminate]]]).
  split; [exact H1 |].
  destruct (summary_chart_saved (H := reference_pandas) "results" Samples.table
              Samples.results H1) as (w' & Hrun & _).
  rewrite Hrun. reflexivity.
Defined.

Lemma report_unreadable_summary_witness :
  is_Some (files MoreSamples.broken_results !! "results")
  /\ files MoreSamples.broken_results !! Spec.summary_path "results"
     = Some (File (Csv (Unreadable EmptyDataError "No columns to parse from file")))
  /\ exit_status (fst (Report.script (H := reference_pandas)
                         ["generate-report.py"; "results"]
                         MoreSamples.broken_results)) = 1.
Proof.
  assert (H1 : is_Some (files MoreSamples.broken_results !! "results"))
    by (eexists; reflexivity).
  assert (H2 : files MoreSamples.broken_results !! Spec.summary_path "results"
               = Some (File (Csv (Unreadable EmptyDataError
                                    "No columns to parse from file"))))
    by reflexivity.
  split; [exact H1 | split; [exact H2 |]].
  rewrite (report_unreadable_summary (H := reference_pandas)
             "generate-report.py" "results" MoreSamples.broken_results
             EmptyDataError "No columns to parse from file" H1 H2).
  reflexivity.
Defined.

Lemma report_empty_table_witness :
  is_Some (files MoreSamples.header_only !! "results")
  /\ files MoreSamples.header_only !! Spec.summary_path "results"
     = Some (File (Csv (Parsed [])))
  /\ exit_status (fst (Report.script (H := reference_pandas)
                         ["generate-report.py"; "results"]
                         MoreSamples.header_only)) = 1
  /\ files (snd (Report.script (H := reference_pandas)
                   ["generate-report.py"; "results"] MoreSamples.header_only))
     = files MoreSamples.header_only.
Proof.
  assert (H1 : is_Some (files MoreSamples.header_only !! "results"))
    by (eexists; reflexivity).
  assert (H2 : files MoreSamples.header_only !! Spec.summary_path "results"
               = Some (File (Csv (Parsed [])))) by reflexivity.
  split; [exact H1 | split; [exact H2 |]].
  destruct (report_empty_table (H := reference_pandas) "generate-report.py"
              "results" MoreSamples.header_only H1 H2) as [msg Hrun].
  rewrite Hrun. split; reflexivity.
Defined.

Lemma report_full_run_witness :
  Spec.report_ready "results" Samples.table Samples.results
  /\ Samples.table <> []
  /\ files Samples.results !! Runs.summary_image "results" = None
  /\ fst (Report.script (H := reference_pandas) ["generate-report.py"; "results"]
            Samples.results) = Exit 0.
Proof.
  assert (H1 : Spec.report_ready "results" Samples.table Samples.results)
    by (split; [reflexivity | split; [reflexivity | discriminate]]).
  assert (H2 : Samples.table <> []) by discriminate.
  assert (H3 : files Samples.results !! Runs.summary_image "results" = None)
    by reflexivity.
  assert (H4 : files Samples.results !! Runs.summary_image "results" <> Some Dir)
    by (rewrite H3; discriminate).
  split; [exact H1 | split; [exact H2 | split; [exact H3 |]]].
  destruct (report_full_run (H := reference_pandas) "generate-report.py" "results"
              Samples.table Samples.results H1 H2 H4)
    as (text & w' & Hrun & _).
  rewrite Hrun. reflexivity.
Defined.


Lemma plots_full_run_witness :
  int_of_str "1000" = Ok 1000
  /\ Runs.case_ready "case" 1000 Samples.case
  /\ fst (Plots.script (H := series_numpy) ["generate-plots.py"; "case"; "1000"]
            Samples.case) = Exit 0.
Proof.
  assert (H1 : int_of_str "1000" = Ok 1000) by reflexivity.
  assert (H2 : Runs.case_ready "case" 1000 Samples.case).
  { split; [reflexivity |]. split; [right; reflexivity |].
    split; [reflexivity |]. split; discriminate. }
  split; [exact H1 | split; [exact H2 |]].
  destruct (plots_full_run (H := series_numpy) "generate-plots.py" "case" "1000"
              1000 Samples.case
              [1; 2; 3]%float [0.1; 0.01; 0.001]%float
              [0.2; 0.02; 0.002]%float [0.5; 0.05; 0.005]%float
              H1 H2 eq_refl eq_refl eq_refl eq_refl) as (w' & Hrun & _).
  rewrite Hrun. reflexivity.
Defined.

Lemma plots_run_without_log_witness :
  int_of_str "1000" = Ok 1000
  /\ Runs.case_ready "case" 1000 MoreSamples.bare_case
  /\ files MoreSamples.bare_case !! Plots.residuals_path "case" = None
  /\ fst (Plots.script (H := series_numpy) ["generate-plots.py"; "case"; "1000"]
            MoreSamples.bare_case) = Exit 1.
Proof.
  assert (H1 : int_of_str "1000" = Ok 1000) by reflexivity.
  assert (H2 : Runs.case_ready "case" 1000 MoreSamples.bare_case).
  { split; [reflexivity |]. split; [left; reflexivity |].
    split; [reflexivity |]. split; discriminate. }
  assert (H3 : files MoreSamples.bare_case !! Plots.residuals_path "case" = None)
    by reflexivity.
  split; [exact H1 | split; [exact H2 | split; [exact H3 |]]].
  destruct (plots_run_without_log (H := series_numpy) "generate-plots.py" "case"
              "1000" 1000 MoreSamples.bare_case H1 H2 H3) as (w' & Hrun & _).
  rewrite Hrun. reflexivity.
Defined.
